(** * GeoCDL request model: date selection, range expressions, request
      validation and output naming.

    A shallow embedding of [src/api_core/data_request.py],
    [src/api_core/data_request_output.py] and the legacy
    [src/data_request.py], with the properties of the specification stated
    and proved over it; further on, of the catalog data sets
    ([src/catalog/datasets/gsdataset.py], [src/catalog/datasets/prism.py])
    and of the query parsers of [src/api_main.py].

    Python values are modelled as follows: [int] as [Z]; [str] as [string]
    (text of 8-bit characters, the code points up to U+00FF);
    [None]-able arguments as [option]; tuples and lists as
    [list]; insertion-ordered [dict]s as association lists; the dataset
    catalog as a [gmap]; raised exceptions as the [Raise] outcome of a small
    error monad. *)

From Stdlib Require Import ZArith Lia List Ascii Sorted Bool.
From Stdlib Require String.
From stdpp Require Import base gmap strings list.

Local Open Scope Z_scope.

(** ** Exceptions and the error monad *)

Inductive exn : Type :=
| ValueError (msg : string)
| TypeError (msg : string)
| KeyError (key : string)
| NameError (name : string)
| AttributeError (attr : string)
| OverflowError (msg : string).

(** [Ok a]: the call returns [a]; [Raise e]: it raises [e]; [Diverge]: a
    [while] loop of the model ran out of its iteration budget (shown below
    never to happen for the budgets the model uses). *)
Inductive result (A : Type) : Type :=
| Ok (a : A)
| Raise (e : exn)
| Diverge.

Arguments Ok {A} a.
Arguments Raise {A} e.
Arguments Diverge {A}.

Definition bind {A B : Type} (m : result A) (k : A -> result B) : result B :=
  match m with
  | Ok a => k a
  | Raise e => Raise e
  | Diverge => Diverge
  end.

Notation "'let*' x ':=' m 'in' k" := (bind m (fun x => k))
  (at level 10, x pattern, m at level 100, k at level 200).

Definition raises {A : Type} (m : result A) : Prop := exists e, m = Raise e.
Definition returns {A : Type} (m : result A) : Prop := exists a, m = Ok a.

Fixpoint mapM {A B : Type} (f : A -> result B) (l : list A) : result (list B) :=
  match l with
  | [] => Ok []
  | x :: l' => let* y := f x in let* ys := mapM f l' in Ok (y :: ys)
  end.

(** ** Python string primitives *)

Module PyStr.

Definition dquote : string := String "034"%char EmptyString.
Definition squote : string := String "039"%char EmptyString.

(** [c in s] for a one-character [c]. *)
Fixpoint contains (c : ascii) (s : string) : bool :=
  match s with
  | EmptyString => false
  | String a s' => if Ascii.eqb a c then true else contains c s'
  end.

(** [s.split(sep)] for a one-character separator: the pieces between the
    separators, left to right; never the empty list. *)
Fixpoint split (sep : ascii) (s : string) : list string :=
  match s with
  | EmptyString => [EmptyString]
  | String a s' =>
      if Ascii.eqb a sep then EmptyString :: split sep s'
      else match split sep s' with
           | p :: ps => String a p :: ps
           | [] => [String a EmptyString]
           end
  end.

(** The white space that [int] skips at both ends of its argument: tab to
    carriage return and the blank, and, of the characters past ASCII, the
    two spaces U+0085 and U+00A0. The separators U+001C to U+001F, which
    [str.strip] removes, are no white space for [int]. *)
Definition is_space (c : ascii) : bool :=
  let n := nat_of_ascii c in
  ((9 <=? n)%nat && (n <=? 13)%nat) || (n =? 32)%nat || (n =? 133)%nat
  || (n =? 160)%nat.

Fixpoint lstrip (s : string) : string :=
  match s with
  | String a s' => if is_space a then lstrip s' else s
  | EmptyString => EmptyString
  end.

Fixpoint rstrip (s : string) : string :=
  match s with
  | EmptyString => EmptyString
  | String a s' =>
      match rstrip s' with
      | EmptyString => if is_space a then EmptyString else String a EmptyString
      | r => String a r
      end
  end.

Definition strip (s : string) : string := rstrip (lstrip s).

Definition digit_of (c : ascii) : option Z :=
  let n := Z.of_nat (nat_of_ascii c) in
  if (48 <=? n) && (n <=? 57) then Some (n - 48) else None.

(** Decimal digits with single underscores allowed between digits. *)
Fixpoint parse_digits (acc : Z) (after_digit : bool) (s : string) : option Z :=
  match s with
  | EmptyString => if after_digit then Some acc else None
  | String c s' =>
      if Ascii.eqb c "_"%char then
        if after_digit then parse_digits acc false s' else None
      else
        match digit_of c with
        | Some d => parse_digits (10 * acc + d) true s'
        | None => None
        end
  end.

Definition parse_int (s : string) : option Z :=
  match strip s with
  | String "+"%char r => parse_digits 0 false r
  | String "-"%char r => Z.opp <$> parse_digits 0 false r
  | t => parse_digits 0 false t
  end.

(** [int(s)]: base-10 conversion; [ValueError] when [s] is no integer
    literal. The interpreter's configurable limit on the number of digits
    of a literal is taken as switched off. *)
Definition int (s : string) : result Z :=
  match parse_int s with
  | Some z => Ok z
  | None =>
      Raise (ValueError
               ("invalid literal for int() with base 10: " +:+ squote +:+ s +:+ squote))
  end.

Definition digit_char (d : Z) : ascii := ascii_of_nat (Z.to_nat (48 + d)).

Fixpoint digits_of_pos (fuel : nat) (n : Z) (acc : string) : string :=
  let acc' := String (digit_char (n mod 10)) acc in
  match fuel with
  | O => acc'
  | S f => if n <? 10 then acc' else digits_of_pos f (n / 10) acc'
  end.

(** Decimal digits of a non-negative integer, most significant first. *)
Definition digits (n : Z) : string := digits_of_pos (Z.to_nat (Z.log2 n)) n EmptyString.

(** [str(n)] for an [int]. *)
Definition str (n : Z) : string :=
  if n <? 0 then "-" +:+ digits (- n) else digits n.

Fixpoint zeros (k : nat) : string :=
  match k with
  | O => EmptyString
  | S k' => String "0"%char (zeros k')
  end.

(** [format(n, '02')]: sign-aware zero padding to width 2. *)
Definition format02 (n : Z) : string :=
  if n <? 0 then
    let d := digits (- n) in "-" +:+ zeros (1 - String.length d) +:+ d
  else
    let d := digits n in zeros (2 - String.length d) +:+ d.

End PyStr.

(** [range(start, stop, step)] as a list; [ValueError] for a zero step. *)
Definition py_range (start stop step : Z) : result (list Z) :=
  if step =? 0 then Raise (ValueError "range() arg 3 must not be zero")
  else
    let len :=
      if 0 <? step then (stop - start + step - 1) / step
      else (start - stop - step - 1) / (- step) in
    Ok (map (fun i => start + Z.of_nat i * step) (seq 0 (Z.to_nat len))).

(** [range(start, stop)]. *)
Definition py_range2 (start stop : Z) : list Z :=
  map (fun i => start + Z.of_nat i) (seq 0 (Z.to_nat (stop - start))).

(** ** [api_core/data_request.py]: constants *)

(** Date granularity constants. *)
Definition NONE : Z := 0.
Definition ANNUAL : Z := 1.
Definition MONTHLY : Z := 2.
Definition DAILY : Z := 3.

(** Request type constants. *)
Definition REQ_RASTER : Z := 0.
Definition REQ_POINT : Z := 1.

Definition RESAMPLE_METHODS : list string :=
  ["nearest"; "bilinear"; "cubic"; "cubic-spline"; "lanczos"; "average"; "mode"].
Definition POINT_METHODS : list string := ["nearest"; "linear"].
Definition GRAIN_METHODS : list string := ["strict"; "skip"; "coarser"; "finer"; "any"].
Definition GRID_OUTPUT : list string := ["geotiff"; "netcdf"].
Definition POINT_OUTPUT : list string := ["csv"; "shapefile"; "netcdf"].

Definition FILE_EXT : gmap string string :=
  <["geotiff" := ".tif"]> (<["netcdf" := ".nc"]> (<["csv" := ".csv"]>
    (<["shapefile" := ".shp"]> ∅))).

(** [x in t] for a tuple of strings. *)
Definition str_in (x : string) (t : list string) : bool :=
  existsb (String.eqb x) t.

(** [x in t] for a tuple or list of ints. *)
Definition int_in (x : Z) (t : list Z) : bool := existsb (Z.eqb x) t.

(** [RequestDate = namedtuple('RequestDate', ['year', 'month', 'day'])];
    month and day may be [None]. *)
Record RequestDate : Type := mkRequestDate {
  year : Z;
  month : option Z;
  day : option Z
}.

(** ** [DataRequest._parseRangeStr] *)

Module RangeStr.

Import PyStr.

Definition msg_invalid (rangestr : string) : string :=
  "Invalid range string: " +:+ dquote +:+ rangestr +:+ dquote +:+ ".".

Definition msg_no_max (rangestr : string) : string :=
  "Cannot interpret range string " +:+ dquote +:+ rangestr +:+ dquote
  +:+ ": no maximum value was provided.".

Definition msg_order (rangestr : string) : string :=
  "Invalid range string: " +:+ dquote +:+ rangestr +:+ dquote
  +:+ ". The starting value cannot exceed the ending value.".

Definition msg_positive (rangestr : string) : string :=
  "Invalid range string: " +:+ dquote +:+ rangestr +:+ dquote
  +:+ ". The starting and and ending values must be greater than 0.".

Definition msg_max (rangestr : string) (maxval : Z) : string :=
  "Invalid range string: " +:+ dquote +:+ rangestr +:+ dquote
  +:+ ". The ending value cannot exceed " +:+ str maxval +:+ ".".

Definition _parseRangeStr (rangestr : string) (maxval : option Z)
  : result (list Z) :=
  match split "-" rangestr with
  | [part0; part1] =>
      let* startval := int part0 in
      let* (endval_str, inc) :=
        (if contains "+" part1 then
           match split "+" part1 with
           | [end0; end1] => let* inc := int end1 in Ok (end0, inc)
           | _ => Raise (ValueError (msg_invalid rangestr))
           end
         else Ok (part1, 1)) in
      let* endval :=
        (if String.eqb endval_str "N" then
           match maxval with
           | None => Raise (ValueError (msg_no_max rangestr))
           | Some m => Ok m
           end
         else int endval_str) in
      if endval <? startval then Raise (ValueError (msg_order rangestr))
      else if (startval <=? 0) || (endval <=? 0) then
        Raise (ValueError (msg_positive rangestr))
      else
        match maxval with
        | Some m =>
            if m <? endval then Raise (ValueError (msg_max rangestr m))
            else py_range startval (endval + 1) inc
        | None => py_range startval (endval + 1) inc
        end
  | _ => Raise (ValueError (msg_invalid rangestr))
  end.

End RangeStr.

(** ** [datetime.date] and [datetime.timedelta(days=k)]

    The proleptic Gregorian calendar of Python's [datetime] module, with
    its ordinal arithmetic ([date + timedelta] goes through
    [toordinal]/[fromordinal]) and its year range [MINYEAR..MAXYEAR]. *)

Module PyDate.

Definition MINYEAR : Z := 1.
Definition MAXYEAR : Z := 9999.
Definition DI400Y : Z := 146097.
Definition DI100Y : Z := 36524.
Definition DI4Y : Z := 1461.
Definition MAXORDINAL : Z := 3652059.

Definition is_leap (y : Z) : bool :=
  (y mod 4 =? 0) && (negb (y mod 100 =? 0) || (y mod 400 =? 0)).

Definition DAYS_IN_MONTH (m : Z) : Z :=
  match m with
  | 1 => 31 | 2 => 28 | 3 => 31 | 4 => 30 | 5 => 31 | 6 => 30
  | 7 => 31 | 8 => 31 | 9 => 30 | 10 => 31 | 11 => 30 | 12 => 31
  | _ => 0
  end.

Definition DAYS_BEFORE_MONTH (m : Z) : Z :=
  match m with
  | 1 => 0 | 2 => 31 | 3 => 59 | 4 => 90 | 5 => 120 | 6 => 151
  | 7 => 181 | 8 => 212 | 9 => 243 | 10 => 273 | 11 => 304 | 12 => 334
  | _ => 0
  end.

Definition days_in_month (y m : Z) : Z :=
  if (m =? 2) && is_leap y then 29 else DAYS_IN_MONTH m.

Definition days_before_year (y : Z) : Z :=
  let y' := y - 1 in y' * 365 + y' / 4 - y' / 100 + y' / 400.

Definition days_before_month (y m : Z) : Z :=
  DAYS_BEFORE_MONTH m + (if (2 <? m) && is_leap y then 1 else 0).

Definition ymd2ord (y m d : Z) : Z :=
  days_before_year y + days_before_month y m + d.

Record date : Type := mkDate { dyear : Z; dmonth : Z; dday : Z }.

Definition ord2ymd (n : Z) : date :=
  let n := n - 1 in
  let n400 := n / DI400Y in
  let n := n mod DI400Y in
  let y := n400 * 400 + 1 in
  let n100 := n / DI100Y in
  let n := n mod DI100Y in
  let n4 := n / DI4Y in
  let n := n mod DI4Y in
  let n1 := n / 365 in
  let n := n mod 365 in
  let y := y + n100 * 100 + n4 * 4 + n1 in
  if (n1 =? 4) || (n100 =? 4) then mkDate (y - 1) 12 31
  else
    let leapyear := (n1 =? 3) && (negb (n4 =? 24) || (n100 =? 3)) in
    let m := Z.shiftr (n + 50) 5 in
    let preceding := DAYS_BEFORE_MONTH m + (if (2 <? m) && leapyear then 1 else 0) in
    if n <? preceding then
      let m := m - 1 in
      let preceding :=
        preceding - (DAYS_IN_MONTH m + (if (m =? 2) && leapyear then 1 else 0)) in
      mkDate y m (n - preceding + 1)
    else mkDate y m (n - preceding + 1).

(** A calendar date that [datetime.date] can hold. *)
Definition valid (y m d : Z) : bool :=
  (MINYEAR <=? y) && (y <=? MAXYEAR) && (1 <=? m) && (m <=? 12)
  && (1 <=? d) && (d <=? days_in_month y m).

(** [datetime.date(y, m, d)]. *)
Definition new (y m d : Z) : result date :=
  if negb ((MINYEAR <=? y) && (y <=? MAXYEAR)) then
    Raise (ValueError ("year " +:+ PyStr.str y +:+ " is out of range"))
  else if negb ((1 <=? m) && (m <=? 12)) then
    Raise (ValueError "month must be in 1..12")
  else if negb ((1 <=? d) && (d <=? days_in_month y m)) then
    Raise (ValueError "day is out of range for month")
  else Ok (mkDate y m d).

Definition toordinal (d : date) : Z := ymd2ord (dyear d) (dmonth d) (dday d).

(** [datetime.date.fromordinal(n)]. *)
Definition fromordinal (n : Z) : result date :=
  if n <? 1 then Raise (ValueError "ordinal must be >= 1")
  else if MAXORDINAL <? n then
    Raise (ValueError ("year " +:+ PyStr.str (dyear (ord2ymd n)) +:+ " is out of range"))
  else Ok (ord2ymd n).

(** [d + datetime.timedelta(days=k)]. *)
Definition add_days (d : date) (k : Z) : result date :=
  let o := toordinal d + k in
  if (0 <? o) && (o <=? MAXORDINAL) then Ok (ord2ymd o)
  else Raise (OverflowError "date value out of range").

Definition eqb (a b : date) : bool :=
  (dyear a =? dyear b) && (dmonth a =? dmonth b) && (dday a =? dday b).

(** [a < b]: lexicographic on (year, month, day). *)
Definition ltb (a b : date) : bool :=
  (dyear a <? dyear b)
  || ((dyear a =? dyear b)
      && ((dmonth a <? dmonth b)
          || ((dmonth a =? dmonth b) && (dday a <? dday b)))).

(** The day after a calendar date, by the calendar's own rules: next day
    of the month, else first of the next month, else January 1st of the
    next year. *)
Definition next_day (d : date) : date :=
  if dday d <? days_in_month (dyear d) (dmonth d) then
    mkDate (dyear d) (dmonth d) (dday d + 1)
  else if dmonth d <? 12 then mkDate (dyear d) (dmonth d + 1) 1
  else mkDate (dyear d + 1) 1 1.

End PyDate.

(** ** Insertion-ordered dictionaries *)

Section Dict.

Context {K V : Type} `{EqDecision K}.

Fixpoint dict_get (k : K) (d : list (K * V)) : option V :=
  match d with
  | [] => None
  | (k', v) :: d' => if decide (k' = k) then Some v else dict_get k d'
  end.

(** [d[k] = v]: replaces in place, or appends a new key at the end. *)
Fixpoint dict_set (k : K) (v : V) (d : list (K * V)) : list (K * V) :=
  match d with
  | [] => [(k, v)]
  | (k', v') :: d' =>
      if decide (k' = k) then (k, v) :: d' else (k', v') :: dict_set k v d'
  end.

(** [k in d]. *)
Definition dict_mem (k : K) (d : list (K * V)) : bool :=
  match dict_get k d with Some _ => true | None => false end.

End Dict.

(** ** Name resolution

    [lookup scope name v] evaluates the name (or attribute) [name] at a
    point where exactly the names in [scope] are bound: it yields the bound
    value [v], or raises when [name] is not in [scope]. For a name that is
    bound nowhere the value passed is immaterial. *)

Definition lookup {A : Type} (err : string -> exn) (scope : list string)
    (name : string) (v : A) : result A :=
  if str_in name scope then Ok v else Raise (err name).

(** Tuple unpacking of a list into two or three targets. *)
Definition unpack2 {A : Type} (l : list A) : result (A * A) :=
  match l with
  | [a; b] => Ok (a, b)
  | _ :: _ :: _ :: _ => Raise (ValueError "too many values to unpack (expected 2)")
  | _ =>
      Raise (ValueError ("not enough values to unpack (expected 2, got "
                         +:+ PyStr.str (Z.of_nat (length l)) +:+ ")"))
  end.

Definition unpack3 {A : Type} (l : list A) : result (A * A * A) :=
  match l with
  | [a; b; c] => Ok (a, b, c)
  | _ :: _ :: _ :: _ :: _ => Raise (ValueError "too many values to unpack (expected 3)")
  | _ =>
      Raise (ValueError ("not enough values to unpack (expected 3, got "
                         +:+ PyStr.str (Z.of_nat (length l)) +:+ ")"))
  end.

Definition msg_end_precedes : string := "The end date cannot precede the start date.".
Definition msg_mismatched : string := "Mismatched starting and ending date granularity.".
Definition msg_both_dates : string := "Start and end dates must both be specified.".
Definition msg_month (m : Z) : string := "Invalid month value: " +:+ PyStr.str m +:+ ".".

(** ** [DataRequest._parseSimpleDateRange] *)

Module SimpleRange.

Import PyStr.

(** The monthly [while] loop; [fuel] bounds the number of iterations. *)
Fixpoint monthly_loop (fuel : nat) (start_y end_y end_m : Z)
    (cur_y cur_m m_cnt : Z) (dates : list RequestDate)
  : result (list RequestDate) :=
  if cur_y * 12 + cur_m <=? end_y * 12 + end_m then
    match fuel with
    | O => Diverge
    | S fuel' =>
        let dates := dates ++ [mkRequestDate cur_y (Some cur_m) None] in
        let m_cnt := m_cnt + 1 in
        let cur_y := start_y + m_cnt / 12 in
        let cur_m := m_cnt mod 12 + 1 in
        monthly_loop fuel' start_y end_y end_m cur_y cur_m m_cnt dates
    end
  else Ok dates.

(** The daily [while inc_date != end_date] loop. *)
Fixpoint daily_loop (fuel : nat) (inc_date end_date : PyDate.date)
    (dates : list RequestDate) : result (list RequestDate) :=
  if negb (PyDate.eqb inc_date end_date) then
    match fuel with
    | O => Diverge
    | S fuel' =>
        let dates :=
          dates ++ [mkRequestDate (PyDate.dyear inc_date)
                      (Some (PyDate.dmonth inc_date)) (Some (PyDate.dday inc_date))] in
        let* inc_date := PyDate.add_days inc_date 1 in
        daily_loop fuel' inc_date end_date dates
    end
  else Ok dates.

Definition _parseSimpleDateRange (date_start date_end : option string)
  : result (list RequestDate * Z) :=
  let date_start := default EmptyString date_start in
  let date_end := default EmptyString date_end in
  if String.eqb date_start "" || String.eqb date_end "" then
    Raise (ValueError msg_both_dates)
  else if (String.length date_start =? 4)%nat && (String.length date_end =? 4)%nat then
    let date_grain := ANNUAL in
    let* start := int date_start in
    let* e := int date_end in
    let end_ := e + 1 in
    if end_ <=? start then Raise (ValueError msg_end_precedes)
    else
      Ok (map (fun y => mkRequestDate y None None) (py_range2 start end_), date_grain)
  else if (String.length date_start =? 7)%nat && (String.length date_end =? 7)%nat then
    let date_grain := MONTHLY in
    let* s := mapM int (split "-" date_start) in
    let* (start_y, start_m) := unpack2 s in
    let* e := mapM int (split "-" date_end) in
    let* (end_y, end_m) := unpack2 e in
    if (start_m <? 1) || (12 <? start_m) then Raise (ValueError (msg_month start_m))
    else if (end_m <? 1) || (12 <? end_m) then Raise (ValueError (msg_month end_m))
    else if end_y * 12 + end_m <? start_y * 12 + start_m then
      Raise (ValueError msg_end_precedes)
    else
      let fuel := Z.to_nat (end_y * 12 + end_m - (start_y * 12 + start_m) + 1) in
      let* dates :=
        monthly_loop fuel start_y end_y end_m start_y start_m (start_m - 1) [] in
      Ok (dates, date_grain)
  else if (String.length date_start =? 10)%nat && (String.length date_end =? 10)%nat then
    let date_grain := DAILY in
    let* s := mapM int (split "-" date_start) in
    let* (start_y, start_m, start_d) := unpack3 s in
    let* e := mapM int (split "-" date_end) in
    let* (end_y, end_m, end_d) := unpack3 e in
    let* inc_date := PyDate.new start_y start_m start_d in
    let* end_date := PyDate.new end_y end_m end_d in
    if PyDate.ltb end_date inc_date then Raise (ValueError msg_end_precedes)
    else
      let* end_date := PyDate.add_days end_date 1 in
      let fuel := Z.to_nat (PyDate.toordinal end_date - PyDate.toordinal inc_date) in
      let* dates := daily_loop fuel inc_date end_date [] in
      Ok (dates, date_grain)
  else Raise (ValueError msg_mismatched).

End SimpleRange.

(** ** [DataRequest._parseYMD] and [DataRequest._parseDates] *)

Module DateSelect.

Import SimpleRange.

(** Names bound at module level in [api_core/data_request.py]. *)
Definition module_globals : list string :=
  ["dt"; "namedtuple"; "CRS"; "SubsetMultiPoint"; "getCRSMetadata";
   "NONE"; "ANNUAL"; "MONTHLY"; "DAILY"; "REQ_RASTER"; "REQ_POINT";
   "RESAMPLE_METHODS"; "POINT_METHODS"; "GRAIN_METHODS"; "GRID_OUTPUT";
   "POINT_OUTPUT"; "FILE_EXT"; "RequestDate"; "DataRequest"].

(** Attributes of a [DataRequest] instance when [__init__] calls
    [_parseDates]: the methods of the class and the four attributes
    assigned so far. *)
Definition self_attrs : list string :=
  ["__init__"; "_getMetadata"; "_verifyGrains"; "_parseSimpleDateRange";
   "_parseRangeStr"; "_parseYMD"; "_parseDates";
   "dsc"; "dsvars"; "date_start_raw"; "date_end_raw"].

(** Local names of [_parseYMD]; [dates] is not among them (it is only
    read, never assigned), so it resolves at module level. *)
Definition parseYMD_locals : list string :=
  ["self"; "years"; "months"; "days"; "y_range"; "date_grain"; "m_range";
   "d_range"; "year"; "month"; "day"; "date"].

(** [dates.append(rd)] inside [_parseYMD]. *)
Definition append_date (rd : RequestDate) : result unit :=
  let* dates :=
    lookup NameError (parseYMD_locals ++ module_globals) "dates"
      ([] : list RequestDate) in
  let _ := dates ++ [rd] in
  Ok tt.

(** [_parseYMD] has no [return] statement: when it finishes it returns
    [None], modelled as [tt]. The [print] call is omitted. *)
Definition _parseYMD (years months days : option string) : result unit :=
  match years with
  | Some years =>
      let* parseDateRange :=
        lookup AttributeError self_attrs "_parseDateRange"
          (fun _ : string => Ok ([] : list Z)) in
      let* y_range := parseDateRange years in
      match months, days with
      | None, None =>
          let* _ := mapM (fun y => append_date (mkRequestDate y None None)) y_range in
          Ok tt
      | Some months, _ =>
          let* m_range := parseDateRange months in
          let* _ :=
            mapM (fun y =>
                    mapM (fun m => append_date (mkRequestDate y (Some m) None)) m_range)
                 y_range in
          Ok tt
      | None, Some days =>
          let* d_range := parseDateRange days in
          let* _ :=
            mapM (fun y =>
                    mapM (fun d =>
                            let* jan1 := PyDate.new y 1 1 in
                            let* date := PyDate.fromordinal (d + PyDate.toordinal jan1 - 1) in
                            if (d =? 366) && negb (PyDate.dyear date =? y) then Ok tt
                            else
                              append_date
                                (mkRequestDate y (Some (PyDate.dmonth date))
                                   (Some (PyDate.dday date))))
                         d_range)
                 y_range in
          Ok tt
      end
  | None => Ok tt
  end.

(** [param is None or param == ''] *)
Definition is_blank (p : option string) : bool :=
  match p with
  | None => true
  | Some s => String.eqb s ""
  end.

Definition is_not_None {A : Type} (p : option A) : bool :=
  match p with
  | None => false
  | Some _ => true
  end.

Definition _parseDates (date_start date_end years months days : option string)
  : result (list RequestDate * Z) :=
  let dates : list RequestDate := [] in
  if forallb is_blank [date_start; date_end; years; months; days] then
    Ok (dates, NONE)
  else if is_not_None date_start || is_not_None date_end then
    _parseSimpleDateRange date_start date_end
  else
    let* none := _parseYMD years months days in
    (* [dates, date_graim = None] *)
    Raise (TypeError "cannot unpack non-iterable NoneType object").

End DateSelect.

(** ** The legacy parser, [src/data_request.py] *)

Module Legacy.

Import PyStr.

Definition ANNUAL : Z := 0.
Definition MONTHLY : Z := 1.
Definition DAILY : Z := 2.

(** The tree of requested dates: year -> month -> list of days. *)
Definition date_tree : Type := list (Z * list (Z * list Z)).

(** [len(s)]. *)
Definition len (s : option string) : result nat :=
  match s with
  | Some s => Ok (String.length s)
  | None => Raise (TypeError "object of type 'NoneType' has no len()")
  end.

(** [d[k]] *)
Definition getitem {V : Type} (k : Z) (d : list (Z * V)) : result V :=
  match dict_get k d with
  | Some v => Ok v
  | None => Raise (KeyError (str k))
  end.

(** The body of the monthly loop on the tree:
    [if cur_y not in dates: dates[cur_y] = {}] and [dates[cur_y][cur_m] = []]. *)
Definition add_month (cur_y cur_m : Z) (dates : date_tree) : result date_tree :=
  let dates := if negb (dict_mem cur_y dates) then dict_set cur_y [] dates else dates in
  let* months := getitem cur_y dates in
  Ok (dict_set cur_y (dict_set cur_m [] months) dates).

Fixpoint monthly_loop (fuel : nat) (start_y end_y end_m : Z)
    (cur_y cur_m m_cnt : Z) (dates : date_tree) : result date_tree :=
  if cur_y * 12 + cur_m <=? end_y * 12 + end_m then
    match fuel with
    | O => Diverge
    | S fuel' =>
        let* dates := add_month cur_y cur_m dates in
        let m_cnt := m_cnt + 1 in
        let cur_y := start_y + m_cnt / 12 in
        let cur_m := m_cnt mod 12 + 1 in
        monthly_loop fuel' start_y end_y end_m cur_y cur_m m_cnt dates
    end
  else Ok dates.

(** The body of the daily loop on the tree: the year and the month are
    created when absent, and the day is appended to the month's list. *)
Definition add_day (inc_date : PyDate.date) (dates : date_tree) : result date_tree :=
  let y := PyDate.dyear inc_date in
  let m := PyDate.dmonth inc_date in
  let dates := if negb (dict_mem y dates) then dict_set y [] dates else dates in
  let* months := getitem y dates in
  let months := if negb (dict_mem m months) then dict_set m [] months else months in
  let* days := getitem m months in
  Ok (dict_set y (dict_set m (days ++ [PyDate.dday inc_date]) months) dates).

Fixpoint daily_loop (fuel : nat) (inc_date end_date : PyDate.date)
    (dates : date_tree) : result date_tree :=
  if negb (PyDate.eqb inc_date end_date) then
    match fuel with
    | O => Diverge
    | S fuel' =>
        let* dates := add_day inc_date dates in
        let* inc_date := PyDate.add_days inc_date 1 in
        daily_loop fuel' inc_date end_date dates
    end
  else Ok dates.

(** [len(date_start) == n and len(date_end) == n], left to right with
    short-circuit. *)
Definition both_len (n : nat) (date_start date_end : option string) : result bool :=
  let* ls := len date_start in
  if (ls =? n)%nat then
    let* le := len date_end in Ok (le =? n)%nat
  else Ok false.

Definition _parse_dates (date_start date_end : option string)
  : result (date_tree * Z) :=
  let dates : date_tree := [] in
  let ds := default EmptyString date_start in
  let de := default EmptyString date_end in
  let* annual := both_len 4 date_start date_end in
  if annual then
    let date_grain := ANNUAL in
    let* start := int ds in
    let* e := int de in
    let end_ := e + 1 in
    if end_ <=? start then Raise (ValueError msg_end_precedes)
    else
      Ok (fold_left (fun dates y => dict_set y [] dates) (py_range2 start end_) dates,
          date_grain)
  else
    let* monthly := both_len 7 date_start date_end in
    if monthly then
      let date_grain := MONTHLY in
      let* s := mapM int (split "-" ds) in
      let* (start_y, start_m) := unpack2 s in
      let* e := mapM int (split "-" de) in
      let* (end_y, end_m) := unpack2 e in
      if (start_m <? 1) || (12 <? start_m) then Raise (ValueError (msg_month start_m))
      else if (end_m <? 1) || (12 <? end_m) then Raise (ValueError (msg_month end_m))
      else if end_y * 12 + end_m <? start_y * 12 + start_m then
        Raise (ValueError msg_end_precedes)
      else
        let fuel := Z.to_nat (end_y * 12 + end_m - (start_y * 12 + start_m) + 1) in
        let* dates :=
          monthly_loop fuel start_y end_y end_m start_y start_m (start_m - 1) dates in
        Ok (dates, date_grain)
    else
      let* daily := both_len 10 date_start date_end in
      if daily then
        let date_grain := DAILY in
        let* s := mapM int (split "-" ds) in
        let* (start_y, start_m, start_d) := unpack3 s in
        let* e := mapM int (split "-" de) in
        let* (end_y, end_m, end_d) := unpack3 e in
        let* inc_date := PyDate.new start_y start_m start_d in
        let* end_date := PyDate.new end_y end_m end_d in
        if PyDate.ltb end_date inc_date then Raise (ValueError msg_end_precedes)
        else
          let* end_date := PyDate.add_days end_date 1 in
          let fuel := Z.to_nat (PyDate.toordinal end_date - PyDate.toordinal inc_date) in
          let* dates := daily_loop fuel inc_date end_date dates in
          Ok (dates, date_grain)
      else Raise (ValueError msg_mismatched).

(** The tree read back as a sequence, in insertion order: a year without
    months is an annual date, a month without days a monthly date, and
    each listed day a daily date. *)
Definition flatten_month (y : Z) (entry : Z * list Z) : list RequestDate :=
  let '(m, days) := entry in
  match days with
  | [] => [mkRequestDate y (Some m) None]
  | _ => map (fun d => mkRequestDate y (Some m) (Some d)) days
  end.

Definition flatten_year (entry : Z * list (Z * list Z)) : list RequestDate :=
  let '(y, months) := entry in
  match months with
  | [] => [mkRequestDate y None None]
  | _ => flat_map (flatten_month y) months
  end.

Definition flatten (dates : date_tree) : list RequestDate :=
  flat_map flatten_year dates.

End Legacy.

(** ** Metadata documents, datasets and the catalog *)

(** JSON-like Python values, as they occur in the metadata document. *)
#[warnings="-register-all"]
Inductive pyval : Type :=
| PNone
| PInt (z : Z)
| PStr (s : string)
| PList (l : list pyval)
| PDict (d : list (string * pyval)).

Definition pystr_opt (s : option string) : pyval :=
  match s with
  | None => PNone
  | Some s => PStr s
  end.

(** Modelled from the spec: the dataset capability interface of
    [library/datasets/gsdataset.py] (metadata lookup, supported-grain set,
    nontemporal flag), whose class definition is not part of the sources at
    hand. *)
Record Dataset : Type := mkDataset {
  nontemporal : bool;
  supported_grains : list Z;
  getMetadata : list (string * pyval)
}.

(** Modelled from the spec: the subset geometries of [subset_geom], a
    polygon or a multipoint carrying its CRS; the module is not part of the
    sources at hand, and the geometry itself is left opaque. *)
Inductive SubsetGeom (CRS : Type) : Type :=
| SubsetPolygon (crs : CRS)
| SubsetMultiPoint (crs : CRS).

Arguments SubsetPolygon {CRS} crs.
Arguments SubsetMultiPoint {CRS} crs.

(** ** [DataRequest] *)

Section DataRequest.

(** Coordinate reference systems are opaque; [getCRSMetadata] is the
    imported metadata-extraction function. *)
Context {CRS : Type}.
Variable getCRSMetadata : CRS -> result pyval.

Record DataRequest : Type := mkDataRequest {
  dsc : gmap string Dataset;
  dsvars : list (string * list string);
  date_start_raw : option string;
  date_end_raw : option string;
  dates : list RequestDate;
  date_grain : Z;
  subset_geom : option (SubsetGeom CRS);
  target_crs : CRS;
  target_resolution : pyval;
  request_type : Z;
  ri_method : string;
  metadata : list (string * pyval);
  grain_method : string;
  file_extension : string
}.

(** [self.dsc[dsid]] *)
Definition catalog_get (dsc : gmap string Dataset) (dsid : string) : result Dataset :=
  match dsc !! dsid with
  | Some ds => Ok ds
  | None => Raise (KeyError dsid)
  end.

(** [isinstance(subset_geom, SubsetMultiPoint)] *)
Definition is_multipoint (g : option (SubsetGeom CRS)) : bool :=
  match g with
  | Some (SubsetMultiPoint _) => true
  | _ => false
  end.

Definition _getMetadata (dsc : gmap string Dataset)
    (dsvars : list (string * list string))
    (date_start_raw date_end_raw : option string) (target_crs : CRS)
    (target_resolution : pyval) (request_type : Z) (ri_method : string)
    (req_vals : list (string * pyval)) : result (list (string * pyval)) :=
  let req_md := fold_left (fun d '(k, v) => dict_set k v d) req_vals [] in
  let req_md :=
    dict_set "target_date_range"
      (PList [pystr_opt date_start_raw; pystr_opt date_end_raw]) req_md in
  let* crs_md := getCRSMetadata target_crs in
  let req_md := dict_set "target_crs" crs_md req_md in
  let req_md :=
    if request_type =? REQ_RASTER then
      dict_set "resample_method" (PStr ri_method)
        (dict_set "target_resolution" target_resolution
           (dict_set "request_type" (PStr "raster") req_md))
    else if request_type =? REQ_POINT then
      dict_set "interpolation_method" (PStr ri_method)
        (dict_set "request_type" (PStr "points") req_md)
    else req_md in
  let md := [("request", PDict req_md)] in
  let* ds_md :=
    mapM (fun '(dsid, vars) =>
            let* ds := catalog_get dsc dsid in
            let dsd := getMetadata ds in
            Ok (PDict (dict_set "requested_vars" (PList (map PStr vars)) dsd)))
         dsvars in
  Ok (dict_set "datasets" (PList ds_md) md).

Definition msg_granularity (dsid : string) : string :=
  dsid +:+ " does not have requested granularity".

(** The [for dsid in self.dsvars] loop of [_verifyGrains]. *)
Fixpoint verify_loop (dsc : gmap string Dataset) (date_grain : Z)
    (dsids : list string) : result unit :=
  match dsids with
  | [] => Ok tt
  | dsid :: rest =>
      let* ds := catalog_get dsc dsid in
      if negb (nontemporal ds) && negb (int_in date_grain (supported_grains ds)) then
        Raise (ValueError (msg_granularity dsid))
      else verify_loop dsc date_grain rest
  end.

Definition _verifyGrains (dsc : gmap string Dataset)
    (dsvars : list (string * list string)) (date_grain : Z)
    (grain_method : string) : result unit :=
  if String.eqb grain_method "strict" then
    verify_loop dsc date_grain (map fst dsvars)
  else Ok tt.

Definition msg_resample (m : string) : string :=
  "Invalid resampling method: " +:+ PyStr.dquote +:+ m +:+ PyStr.dquote +:+ ".".
Definition msg_interp (m : string) : string :=
  "Invalid point interpolation method: " +:+ PyStr.dquote +:+ m +:+ PyStr.dquote +:+ ".".
Definition msg_grain_method (m : string) : string :=
  "Invalid date grain matching method: " +:+ PyStr.dquote +:+ m +:+ PyStr.dquote +:+ ".".
Definition msg_format (f : string) : string :=
  "Invalid output format: " +:+ PyStr.dquote +:+ f +:+ PyStr.dquote +:+ ".".

Definition __init__ (dataset_catalog : gmap string Dataset)
    (dsvars : list (string * list string))
    (date_start date_end years months days grain_method : option string)
    (subset_geom : option (SubsetGeom CRS)) (target_crs : CRS)
    (target_resolution : pyval) (ri_method : option string) (request_type : Z)
    (output_format : option string) (req_metadata : list (string * pyval))
  : result DataRequest :=
  let* (dates, date_grain) :=
    DateSelect._parseDates date_start date_end years months days in
  if negb (int_in request_type [REQ_RASTER; REQ_POINT]) then
    Raise (ValueError "Invalid request type.")
  else
    let ri_method := default "nearest" ri_method in
    if (request_type =? REQ_RASTER) && negb (str_in ri_method RESAMPLE_METHODS) then
      Raise (ValueError (msg_resample ri_method))
    else if (request_type =? REQ_POINT) && negb (str_in ri_method POINT_METHODS) then
      Raise (ValueError (msg_interp ri_method))
    else if (request_type =? REQ_POINT) && negb (is_multipoint subset_geom) then
      Raise (ValueError "No points provided for output.")
    else
      let* metadata :=
        _getMetadata dataset_catalog dsvars date_start date_end target_crs
          target_resolution request_type ri_method req_metadata in
      let grain_method := default "strict" grain_method in
      if negb (str_in grain_method GRAIN_METHODS) then
        Raise (ValueError (msg_grain_method grain_method))
      else
        let* _ := _verifyGrains dataset_catalog dsvars date_grain grain_method in
        let output_format :=
          match output_format with
          | None => if request_type =? REQ_RASTER then "geotiff" else "csv"
          | Some f => f
          end in
        if (request_type =? REQ_RASTER) && negb (str_in output_format GRID_OUTPUT) then
          Raise (ValueError (msg_format output_format))
        else if (request_type =? REQ_POINT) && negb (str_in output_format POINT_OUTPUT) then
          Raise (ValueError (msg_format output_format))
        else
          match FILE_EXT !! output_format with
          | None => Raise (KeyError output_format)
          | Some ext =>
              Ok (mkDataRequest dataset_catalog dsvars date_start date_end dates
                    date_grain subset_geom target_crs target_resolution
                    request_type ri_method metadata grain_method ext)
          end.

End DataRequest.

(** ** [api_core/data_request_output.py] *)

Module DataRequestOutput.

(** Names bound at module level: the imports, [fname_chars] and the
    class. The grain constants are reachable as [dr.NONE] etc. only. *)
Definition module_globals : list string :=
  ["random"; "zipfile"; "json"; "dr"; "Path"; "xr"; "fname_chars";
   "DataRequestOutput"].

(** Attributes of a [DataRequestOutput] instance: the methods of the
    class ([__init__] assigns nothing). *)
Definition self_attrs : list string :=
  ["__init__"; "requestDateAsString"; "_getSingleLayerOutputFileName";
   "_writeCSV"; "_writeShapefile"; "_writeNetCDF"; "_writeGeoTIFF";
   "_writePointFiles"; "_writeRasterFiles"; "_writeMetadataFile";
   "writeRequestedData"].

(** [format(v, '02')] for a value that may be [None]. *)
Definition format02_opt (v : option Z) : result string :=
  match v with
  | Some n => Ok (PyStr.format02 n)
  | None => Raise (TypeError "unsupported format string passed to NoneType.__format__")
  end.

Definition requestDateAsString (grain : Z) (rdate : option RequestDate)
  : result string :=
  let scope := ["self"; "grain"; "rdate"; "dstr"] ++ module_globals in
  let* none := lookup NameError scope "NONE" NONE in
  match (if grain =? none then None else rdate) with
  | None => Ok EmptyString
  | Some rdate =>
      let* annual := lookup NameError scope "ANNUAL" ANNUAL in
      if grain =? annual then Ok (PyStr.str (year rdate))
      else
        let* monthly := lookup NameError scope "MONTHLY" MONTHLY in
        if grain =? monthly then
          let* m := format02_opt (month rdate) in
          Ok (PyStr.str (year rdate) +:+ "-" +:+ m)
        else
          let* daily := lookup NameError scope "DAILY" DAILY in
          if grain =? daily then
            let* m := format02_opt (month rdate) in
            let* d := format02_opt (day rdate) in
            Ok (PyStr.str (year rdate) +:+ "-" +:+ m +:+ "-" +:+ d)
          else Raise (ValueError "Invalid date granularity specification.")
  end.

Definition _getSingleLayerOutputFileName (dsid varname : string) (grain : Z)
    (rdate : option RequestDate) : result string :=
  let* requestDateAsString' :=
    lookup AttributeError self_attrs "_requestDateAsString" requestDateAsString in
  let* date_str := requestDateAsString' grain rdate in
  if String.eqb date_str "" then Ok (dsid +:+ "_" +:+ varname)
  else Ok (dsid +:+ "_" +:+ varname +:+ "_" +:+ date_str).

(** [output_dir / name] *)
Definition path_join (output_dir name : string) : string :=
  output_dir +:+ "/" +:+ name.

Section RasterWriters.

(** A data set of the results is given by its variables, each with its
    time steps. The two writers, [dsvar.sel(time = t).rio.to_raster] on
    the layer of a time step and [ds_dataset.to_netcdf] on a data set,
    write files; they are parameters of the model, which may raise. *)
Variable to_raster : list RequestDate -> RequestDate -> string -> result unit.
Variable to_netcdf : list (string * list RequestDate) -> string -> result unit.

(** The returned list is [fout_paths], the files written, in order. *)
Definition _writeRasterFiles
    (ds_output_dict : list (string * list (string * list RequestDate)))
    (request_grain : Z) (request_file_extension : string) (output_dir : string)
  : result (list string) :=
  let scope :=
    ["self"; "ds_output_dict"; "request"; "output_dir"; "fout_paths"; "dsid";
     "ds"; "varname"; "dsvar"; "t"; "fname"; "fout_path"; "ds_dataset"]
    ++ module_globals in
  if String.eqb request_file_extension ".tif" then
    let* per_ds :=
      mapM (fun '(dsid, ds) =>
              let* per_var :=
                mapM (fun '(varname, dsvar) =>
                        mapM (fun t =>
                                let* grain := lookup NameError scope "grain" request_grain in
                                let* fname :=
                                  _getSingleLayerOutputFileName dsid varname grain (Some t) in
                                let fout_path :=
                                  path_join output_dir (fname +:+ request_file_extension) in
                                let* _ := to_raster dsvar t fout_path in
                                Ok fout_path)
                             dsvar)
                     ds in
              Ok (concat per_var))
           ds_output_dict in
    Ok (concat per_ds)
  else if String.eqb request_file_extension ".nc" then
    mapM (fun '(dsid, ds_dataset) =>
            let fout_path := path_join output_dir (dsid +:+ request_file_extension) in
            let* _ := to_netcdf ds_dataset fout_path in
            Ok fout_path)
         ds_output_dict
  else Raise (ValueError "Unsupported raster output format.").

End RasterWriters.

End DataRequestOutput.

(** ** [catalog/datasets/gsdataset.py] and [catalog/datasets/prism.py] *)

Module Catalog.

Import PyStr.

(** [d[k]] for a dictionary with string keys. *)
Definition getitem {V : Type} (k : string) (d : list (string * V)) : result V :=
  match dict_get k d with
  | Some v => Ok v
  | None => Raise (KeyError k)
  end.

(** A range of dates, [[start, end]]; either may be [None]. *)
Definition date_range : Type := option PyDate.date * option PyDate.date.

(** The attributes that [GSDataSet.__init__] assigns. The argument
    [store_path] is not among them: the constructor does not keep it. *)
Record GSDataSet : Type := mkGSDataSet {
  name : string;
  url : string;
  description : string;
  _id : option string;
  provider_name : string;
  provider_url : string;
  grid_size : option Z;
  vars : pyval;
  date_ranges : list (string * date_range)
}.

Definition GSDataSet__init__ (store_path : string) : GSDataSet :=
  mkGSDataSet "" "" "" None "" "" None (PList [])
    [("year", (None, None)); ("month", (None, None)); ("day", (None, None))].

(** The property [id]. *)
Definition id (self : GSDataSet) : string :=
  match _id self with
  | None => name self
  | Some i => i
  end.

(** [d.strftime('%Y-%m')] and [d.strftime('%Y-%m-%d')], with the year
    written as by [str], which is what the C library does for the years
    from 1000 on. *)
Definition strftime_Ym (d : PyDate.date) : string :=
  str (PyDate.dyear d) +:+ "-" +:+ format02 (PyDate.dmonth d).

Definition strftime_Ymd (d : PyDate.date) : string :=
  str (PyDate.dyear d) +:+ "-" +:+ format02 (PyDate.dmonth d)
  +:+ "-" +:+ format02 (PyDate.dday d).

(** [x.year] and [x.strftime(fmt)] for a value that may be [None]. *)
Definition year_of (x : option PyDate.date) : result pyval :=
  match x with
  | Some d => Ok (PInt (PyDate.dyear d))
  | None => Raise (AttributeError "year")
  end.

Definition strftime_of (fmt : PyDate.date -> string) (x : option PyDate.date)
  : result pyval :=
  match x with
  | Some d => Ok (PStr (fmt d))
  | None => Raise (AttributeError "strftime")
  end.

(** [resp['date_ranges'][k] = v]: the inner dictionary is updated in
    place. *)
Definition set_date_range (k : string) (v : pyval) (resp : list (string * pyval))
  : result (list (string * pyval)) :=
  let* inner := getitem "date_ranges" resp in
  match inner with
  | PDict d => Ok (dict_set "date_ranges" (PDict (dict_set k v d)) resp)
  | _ => Raise (TypeError "object does not support item assignment")
  end.

(** One of the three [if self.date_ranges[k][0] is None: ... else: ...]
    blocks of [getMetadata]. *)
Definition copy_date_range (self : GSDataSet) (k : string)
    (conv : option PyDate.date -> result pyval) (resp : list (string * pyval))
  : result (list (string * pyval)) :=
  let* r := getitem k (date_ranges self) in
  match fst r with
  | None => set_date_range k (PList [PNone; PNone]) resp
  | Some _ =>
      let* a := conv (fst r) in
      let* b := conv (snd r) in
      set_date_range k (PList [a; b]) resp
  end.

Definition opt_int (x : option Z) : pyval :=
  match x with
  | None => PNone
  | Some z => PInt z
  end.

(** [getattr(self, attrib)] for the attributes that [getMetadata]
    copies. *)
Definition getattr (self : GSDataSet) (attrib : string) : result pyval :=
  if String.eqb attrib "name" then Ok (PStr (name self))
  else if String.eqb attrib "id" then Ok (PStr (id self))
  else if String.eqb attrib "url" then Ok (PStr (url self))
  else if String.eqb attrib "description" then Ok (PStr (description self))
  else if String.eqb attrib "provider_name" then Ok (PStr (provider_name self))
  else if String.eqb attrib "provider_url" then Ok (PStr (provider_url self))
  else if String.eqb attrib "grid_size" then Ok (opt_int (grid_size self))
  else if String.eqb attrib "vars" then Ok (vars self)
  else Raise (AttributeError attrib).

Definition attribs : list string :=
  ["name"; "id"; "url"; "description"; "provider_name"; "provider_url";
   "grid_size"; "vars"].

(** The [for attrib in attribs] loop. *)
Fixpoint copy_attribs (self : GSDataSet) (l : list string)
    (resp : list (string * pyval)) : result (list (string * pyval)) :=
  match l with
  | [] => Ok resp
  | attrib :: l' =>
      let* v := getattr self attrib in
      copy_attribs self l' (dict_set attrib v resp)
  end.

Definition getMetadata (self : GSDataSet) : result (list (string * pyval)) :=
  let resp := [] in
  let* resp := copy_attribs self attribs resp in
  let resp := dict_set "date_ranges" (PDict []) resp in
  let* resp := copy_date_range self "year" year_of resp in
  let* resp := copy_date_range self "month" (strftime_of strftime_Ym) resp in
  let* resp := copy_date_range self "day" (strftime_of strftime_Ymd) resp in
  Ok resp.

(** *** [PRISM] *)

(** [pattern.format(arg)] for a pattern whose replacement fields are all
    [{0}]. *)
Fixpoint format0 (pattern : string) (arg : string) : string :=
  match pattern with
  | String "{"%char (String "0"%char (String "}"%char rest)) =>
      arg +:+ format0 rest arg
  | String c rest => String c (format0 rest arg)
  | EmptyString => EmptyString
  end.

(** A [PRISM] instance: the attributes of the base class and the two that
    [PRISM.__init__] adds. [store_path] is the attribute of this name when
    the instance has one, and [None] when it has none. *)
Record PRISM : Type := mkPRISM {
  base : GSDataSet;
  epsg_code : Z;
  fpatterns : list (string * string);
  store_path : option string
}.

Definition PRISM__init__ (store_path : string) : PRISM :=
  let self := GSDataSet__init__ store_path in
  let date_ranges := date_ranges self in
  let date_ranges :=
    dict_set "year"
      (Some (PyDate.mkDate 1895 1 1), Some (PyDate.mkDate 2020 1 1)) date_ranges in
  let date_ranges :=
    dict_set "month"
      (Some (PyDate.mkDate 1895 1 1), Some (PyDate.mkDate 2021 1 1)) date_ranges in
  let date_ranges :=
    dict_set "day"
      (Some (PyDate.mkDate 1981 1 1), Some (PyDate.mkDate 2021 1 31)) date_ranges in
  mkPRISM
    (mkGSDataSet "PRISM" "https://prism.oregonstate.edu/" (description self)
       (_id self) (provider_name self) (provider_url self) (Some 4000)
       (PDict [("ppt", PStr "precipitation"); ("tav", PStr "mean temperature");
               ("tmin:", PStr "minimum temperature");
               ("tmax", PStr "maximum temperature")])
       date_ranges)
    4269
    [("ppt", "PRISM_ppt_stable_4kmM2_{0}_bil.bil");
     ("tmax", "PRISM_tmax_stable_4kmM3_{0}_bil.bil")]
    None.

(** [self.store_path] *)
Definition get_store_path (self : PRISM) : result string :=
  match store_path self with
  | Some p => Ok p
  | None => Raise (AttributeError "store_path")
  end.

Section Subset.

(** Bounding rectangles are opaque. [_extractData] reads and writes
    raster files; it is a parameter of the model, which may raise. *)
Context {Bounds : Type}.
Variable _extractData : string -> string -> option Bounds -> result unit.

(** The body of [for varname in varnames] in [_getAnnualSubset]. *)
Definition annual_file (self : PRISM) (output_dir : string)
    (bounds : option Bounds) (year : Z) (varname : string) : result string :=
  let* pattern := getitem varname (fpatterns self) in
  let fname := format0 pattern (str year) in
  let* sp := get_store_path self in
  let fpath := DataRequestOutput.path_join sp fname in
  let fout_path :=
    DataRequestOutput.path_join output_dir
      ("PRISM_" +:+ varname +:+ "_" +:+ str year +:+ ".tif") in
  let* _ := _extractData fout_path fpath bounds in
  Ok fout_path.

Definition _getAnnualSubset (self : PRISM)
    (output_dir date_start date_end : string) (varnames : list string)
    (bounds : option Bounds) : result (list string) :=
  let* start := int date_start in
  let* e := int date_end in
  let end_ := e + 1 in
  if end_ <? start then Raise (ValueError msg_end_precedes)
  else
    let* per_year :=
      mapM (fun year => mapM (annual_file self output_dir bounds year) varnames)
           (py_range2 start end_) in
    Ok (concat per_year).

(** The body of [for varname in varnames] in [_getMonthlySubset]. *)
Definition monthly_file (self : PRISM) (output_dir : string)
    (bounds : option Bounds) (cur_y cur_m : Z) (varname : string) : result string :=
  let datestr := str cur_y +:+ format02 cur_m in
  let* pattern := getitem varname (fpatterns self) in
  let fname := format0 pattern datestr in
  let* sp := get_store_path self in
  let fpath := DataRequestOutput.path_join sp fname in
  let fout_path :=
    DataRequestOutput.path_join output_dir
      ("PRISM_" +:+ varname +:+ "_" +:+ str cur_y +:+ "-" +:+ format02 cur_m
       +:+ ".tif") in
  let* _ := _extractData fout_path fpath bounds in
  Ok fout_path.

(** The monthly [while] loop; [fuel] bounds the number of iterations. *)
Fixpoint monthly_loop (self : PRISM) (output_dir : string)
    (varnames : list string) (bounds : option Bounds) (fuel : nat)
    (start_y end_y end_m : Z) (cur_y cur_m m_cnt : Z) (fout_paths : list string)
  : result (list string) :=
  if cur_y * 12 + cur_m <=? end_y * 12 + end_m then
    match fuel with
    | O => Diverge
    | S fuel' =>
        let* paths :=
          mapM (monthly_file self output_dir bounds cur_y cur_m) varnames in
        let fout_paths := fout_paths ++ paths in
        let m_cnt := m_cnt + 1 in
        let cur_y := start_y + m_cnt / 12 in
        let cur_m := m_cnt mod 12 + 1 in
        monthly_loop self output_dir varnames bounds fuel' start_y end_y end_m
          cur_y cur_m m_cnt fout_paths
    end
  else Ok fout_paths.

Definition _getMonthlySubset (self : PRISM)
    (output_dir date_start date_end : string) (varnames : list string)
    (bounds : option Bounds) : result (list string) :=
  let* s := mapM int (split "-" date_start) in
  let* (start_y, start_m) := unpack2 s in
  let* e := mapM int (split "-" date_end) in
  let* (end_y, end_m) := unpack2 e in
  if end_y * 12 + end_m <? start_y * 12 + start_m then
    Raise (ValueError msg_end_precedes)
  else
    let fuel := Z.to_nat (end_y * 12 + end_m - (start_y * 12 + start_m) + 1) in
    monthly_loop self output_dir varnames bounds fuel start_y end_y end_m
      start_y start_m (start_m - 1) [].

(** [getSubset]: when the start date has neither 4 nor 7 characters, no
    branch assigns [fout_paths], and the [return] raises
    [UnboundLocalError], a [NameError]. *)
Definition getSubset (self : PRISM)
    (output_dir date_start date_end : string) (varnames : list string)
    (bounds : option Bounds) : result (list string) :=
  if (String.length date_start =? 4)%nat then
    _getAnnualSubset self output_dir date_start date_end varnames bounds
  else if (String.length date_start =? 7)%nat then
    _getMonthlySubset self output_dir date_start date_end varnames bounds
  else Raise (NameError "fout_paths").

End Subset.

End Catalog.

(** ** [api_main.py]: the query parsers *)

Module ApiMain.

(** The outcome of a request handler: a value, or an [HTTPException]. *)
Inductive http (A : Type) : Type :=
| Respond (a : A)
| HTTPException (status_code : Z) (detail : string).

Arguments Respond {A} a.
Arguments HTTPException {A} status_code detail.

Definition parse_varslist (ds_vars : string) : list string :=
  PyStr.split "," ds_vars.

Section Bounds.

(** Floating-point numbers are opaque; [float s] is [None] when the
    conversion raises, which the bare [except] turns into the one
    [HTTPException]. *)
Context {F : Type}.
Variable float : string -> option F.

Definition parse_rect_bounds (bbox : option string) : http (option (list (list F))) :=
  match bbox with
  | None => Respond None
  | Some bbox =>
      match PyStr.split "," bbox with
      | [part0; part1; part2; part3] =>
          match float part0, float part1, float part2, float part3 with
          | Some p0, Some p1, Some p2, Some p3 => Respond (Some [[p0; p1]; [p2; p3]])
          | _, _, _, _ => HTTPException 400 "Incorrect bounding box specification."
          end
      | _ => HTTPException 400 "Incorrect bounding box specification."
      end
  end.

End Bounds.

End ApiMain.

(** ** [api_core/data_request_output.py]: point output *)

Module PointOutput.

(** [ds_output_list[0]] on an empty list. *)
Inductive index_error : Type := IndexError (msg : string).

(** ['_'.join(names)] *)
Fixpoint join (sep : string) (names : list string) : string :=
  match names with
  | [] => EmptyString
  | [a] => a
  | a :: rest => a +:+ sep +:+ join sep rest
  end.

Section Writers.

(** Data frames, their [append], the three writers and the directory
    listing are parameters of the model; the writers and the listing may
    raise. *)
Context {Frame Geom : Type}.
Variable append : Frame -> Frame -> Frame.
Variable _writeCSV : Frame -> string -> result unit.
Variable _writeShapefile : Frame -> string -> result unit.
Variable _writeNetCDF : Frame -> option Geom -> string -> result unit.
Variable glob : string -> string -> result (list string).

Definition _writePointFiles (ds_output_dict : list (string * Frame))
    (request_dsvars : list (string * list string)) (request_file_extension : string)
    (request_subset_geom : option Geom) (output_dir : string)
  : index_error + result (list string) :=
  let fname := join "_" (map fst request_dsvars) in
  let fout_path :=
    DataRequestOutput.path_join output_dir (fname +:+ request_file_extension) in
  let ds_output_list := map snd ds_output_dict in
  match ds_output_list with
  | [] => inl (IndexError "list index out of range")
  | first :: rest =>
      let final_gdf := fold_left append rest first in
      inr
        (if String.eqb request_file_extension ".csv" then
           let* _ := _writeCSV final_gdf fout_path in
           Ok [fout_path]
         else if String.eqb request_file_extension ".shp" then
           let* _ := _writeShapefile final_gdf fout_path in
           glob output_dir (fname +:+ ".*")
         else if String.eqb request_file_extension ".nc" then
           let* _ := _writeNetCDF final_gdf request_subset_geom fout_path in
           Ok [fout_path]
         else Raise (ValueError "Unsupported point output format."))
  end.

End Writers.

End PointOutput.

Module StrSpec.
(** Every character is a decimal digit. *)
Fixpoint all_digits (s : string) : bool :=
  match s with
  | EmptyString => true
  | String c s' =>
      match PyStr.digit_of c with
      | Some _ => all_digits s'
      | None => false
      end
  end.
End StrSpec.

(** * Auxiliary definitions of the proofs *)

Module Calendar.

Import PyDate.

(** [d] moved by [k] years. *)
Definition add_years (k : Z) (d : date) : date :=
  mkDate (dyear d + k) (dmonth d) (dday d).

(** A date of the calendar, in any year from 1 on. *)
Definition wf_date (d : date) : bool :=
  (1 <=? dyear d) && (1 <=? dmonth d) && (dmonth d <=? 12)
  && (1 <=? dday d) && (dday d <=? days_in_month (dyear d) (dmonth d)).

(** [P] holds of 0, ..., n-1. *)
Fixpoint forall_below (n : nat) (P : Z -> bool) : bool :=
  match n with
  | O => true
  | S n' => P (Z.of_nat n') && forall_below n' P
  end.

(** Position of a year inside its 400-year cycle. *)
Definition year_check (y : Z) : bool :=
  let a := (y - 1) / 100 in
  let b := ((y - 1) mod 100) / 4 in
  let c := (y - 1) mod 4 in
  (days_before_year y =? DI100Y * a + DI4Y * b + 365 * c)
  && Bool.eqb (is_leap y) ((c =? 3) && (negb (b =? 24) || (a =? 3)))
  && (0 <=? a) && (a <=? 3) && (0 <=? b) && (b <=? 24) && (0 <=? c) && (c <=? 3)
  && (days_before_year (y + 1) =? days_before_year y + 365 + (if is_leap y then 1 else 0)).

(** The month and day of the [k]-th day (from 0) of a year. *)
Definition month_day (leap : bool) (n : Z) : Z * Z :=
  let m := Z.shiftr (n + 50) 5 in
  let preceding := DAYS_BEFORE_MONTH m + (if (2 <? m) && leap then 1 else 0) in
  if n <? preceding then
    let m := m - 1 in
    let preceding :=
      preceding - (DAYS_IN_MONTH m + (if (m =? 2) && leap then 1 else 0)) in
    (m, n - preceding + 1)
  else (m, n - preceding + 1).

(** Facts on a month and day of a leap or common year, as one test. *)
Definition month_day_check (leap : bool) (m d : Z) : bool :=
  let dim := DAYS_IN_MONTH m + (if (m =? 2) && leap then 1 else 0) in
  let before := DAYS_BEFORE_MONTH m + (if (2 <? m) && leap then 1 else 0) in
  negb (d <=? dim)
  || (let '(m', d') := month_day leap (before + d - 1) in (m' =? m) && (d' =? d))
     && (before + d - 1 <? 365 + (if leap then 1 else 0))
     && ((m =? 12) || negb (d =? dim)
         || (DAYS_BEFORE_MONTH (m + 1) + (if (2 <? m + 1) && leap then 1 else 0) =? before + dim))
     && (negb (m =? 12) || negb (d =? dim) || (before + d =? 365 + (if leap then 1 else 0))).

(** Leap years by position in the cycle: year [100a + 4b + c + 1]. *)
Definition leap_abc (a b c : Z) : bool := (c =? 3) && (negb (b =? 24) || (a =? 3)).

End Calendar.

Module DateSpec.

Import PyDate.

(** The request date of a calendar date. *)
Definition rd_of_date (d : date) : RequestDate :=
  mkRequestDate (dyear d) (Some (dmonth d)) (Some (dday d)).

(** Chronological order on request dates: by year, then month, then day; an
    absent month or day counts as 0, before every month or day. *)
Definition chron_lt (a b : RequestDate) : Prop :=
  year a < year b
  \/ (year a = year b
      /\ (default 0 (month a) < default 0 (month b)
          \/ (default 0 (month a) = default 0 (month b)
              /\ default 0 (day a) < default 0 (day b)))).

(** The calendar walk: [n] consecutive days from [d] on, each the day
    after the one before. *)
Fixpoint walk (n : nat) (d : date) : list RequestDate :=
  match n with
  | O => []
  | S n' => rd_of_date d :: walk n' (next_day d)
  end.

(** The date [n] days after [d]. *)
Fixpoint days_later (n : nat) (d : date) : date :=
  match n with
  | O => d
  | S n' => next_day (days_later n' d)
  end.

(** [l] is the sequence of consecutive calendar days from [d] to [e]
    inclusive. *)
Inductive calendar_walk (e : date) : date -> list RequestDate -> Prop :=
| walk_last : calendar_walk e e [rd_of_date e]
| walk_step (d : date) (l : list RequestDate) :
    d <> e -> calendar_walk e (next_day d) l ->
    calendar_walk e d (rd_of_date d :: l).

(** The months from month number [k] on, [n] of them, counted from
    January of year [y0] as month number 0. *)
Definition month_seq (y0 : Z) (k : Z) (n : nat) : list RequestDate :=
  map (fun i => mkRequestDate (y0 + (k + Z.of_nat i) / 12)
                  (Some ((k + Z.of_nat i) mod 12 + 1)) None)
      (seq 0 n).

(** The years [s], ..., [s + n - 1]. *)
Definition year_seq (s : Z) (n : nat) : list RequestDate :=
  map (fun i => mkRequestDate (s + Z.of_nat i) None None) (seq 0 n).

(** The invariant of a date selection. *)
Definition selection_ok (dates : list RequestDate) (grain : Z) : Prop :=
  (dates = [] <-> grain = NONE)
  /\ StronglySorted chron_lt dates
  /\ NoDup dates.

(** A text of the shape [YYYY-MM-DD] and the numbers it spells. *)
Definition spells_ymd (s : string) (y m d : Z) : Prop :=
  String.length s = 10%nat /\ mapM PyStr.int (PyStr.split "-" s) = Ok [y; m; d].

(** All keys of a dictionary are smaller than [k]. *)
Definition keys_below {V : Type} (k : Z) (d : list (Z * V)) : Prop :=
  Forall (fun kv => fst kv < k) d.

(** The shape of the legacy tree while months are added in order: the
    last year holds at least one month, earlier years are smaller, and the
    next month to add, [m] of year [y], lies after all that is there. *)
Definition month_tree_inv (t : Legacy.date_tree) (y m : Z) : Prop :=
  t = []
  \/ exists front y' months,
      t = front ++ [(y', months)] /\ months <> [] /\ keys_below y' front
      /\ (y' < y \/ (y' = y /\ keys_below m months)).

(** The shape of the legacy tree while days are added in order: the last
    month of the last year holds at least one day, and the month of the
    next day to add is that month or a later one. *)
Definition day_tree_inv (t : Legacy.date_tree) (y m : Z) : Prop :=
  t = []
  \/ exists front y' mfront m' days,
      t = front ++ [(y', mfront ++ [(m', days)])] /\ days <> []
      /\ keys_below y' front /\ keys_below m' mfront
      /\ (y' < y \/ (y' = y /\ m' <= m)).

End DateSpec.

Module LegacySpec.

(** The legacy parser and the current one agree on an input: both return,
    with the flattened legacy tree equal to the current list (the grain
    constants of the two modules differ by one), or both raise. *)
Definition same_outcome (legacy : result (Legacy.date_tree * Z))
    (current : result (list RequestDate * Z)) : Prop :=
  match legacy, current with
  | Ok (t, g), Ok (l, g') => Legacy.flatten t = l /\ g' = g + 1
  | Raise _, Raise _ => True
  | _, _ => False
  end.

End LegacySpec.

Module RequestSpec.

(** Dataset [dsid] of the catalog is temporal and does not support
    [grain]. *)
Definition lacks_grain (cat : gmap string Dataset) (grain : Z) (dsid : string) : Prop :=
  exists dset,
    cat !! dsid = Some dset /\ nontemporal dset = false
    /\ ~ In grain (supported_grains dset).

End RequestSpec.

(** A small catalog and request, for the worked examples. *)
Module Examples.

Definition crs_metadata (c : string) : result pyval := Ok (PDict [("name", PStr c)]).

Definition catalog : gmap string Dataset :=
  <["PRISM" := mkDataset false [ANNUAL; MONTHLY; DAILY] [("name", PStr "PRISM")]]>
    (<["MODIS_NDVI" := mkDataset false [DAILY] [("name", PStr "MODIS NDVI")]]> ∅).

(** A raster request for two years of one or two datasets. *)
Definition request (dsvars : list (string * list string)) (ri_method : option string)
    (request_type : Z) (output_format : option string)
    (subset_geom : option (SubsetGeom string)) : result DataRequest :=
  __init__ crs_metadata catalog dsvars (Some "2019") (Some "2020") None None None None
    subset_geom "EPSG:4326" PNone ri_method request_type output_format [].

End Examples.

Module IsoSpec.
(** [format(n, '04')] for a natural number. *)
Definition format04 (n : Z) : string :=
  let d := PyStr.digits n in PyStr.zeros (4 - String.length d) +:+ d.

(** The text [YYYY-MM-DD] of a date: ['{:04}-{:02}-{:02}'.format(y, m, d)]. *)
Definition iso_date (d : PyDate.date) : string :=
  format04 (PyDate.dyear d) +:+ "-" +:+ PyStr.format02 (PyDate.dmonth d)
  +:+ "-" +:+ PyStr.format02 (PyDate.dday d).
End IsoSpec.

Module RangeSyntax.

Import PyStr.

(** Number of occurrences of a character. *)
Fixpoint count_char (c : ascii) (s : string) : nat :=
  match s with
  | EmptyString => O
  | String a s' => if Ascii.eqb a c then S (count_char c s') else count_char c s'
  end.

(** The end point [e] written by the text [b]: the literal [N] stands for
    the maximum value, any other text for the integer it spells. *)
Definition end_value (b : string) (maxval : option Z) (e : Z) : Prop :=
  (b = "N" /\ maxval = Some e) \/ (b <> "N" /\ int b = Ok e).

(** The grammar of range strings, [START-END] and [START-END+INCREMENT],
    with the integers the three parts denote. *)
Inductive range_syntax (maxval : option Z) : string -> Z -> Z -> Z -> Prop :=
| range_plain (a b : string) (s e : Z) :
    contains "-" a = false -> contains "-" b = false -> contains "+" b = false ->
    int a = Ok s -> end_value b maxval e ->
    range_syntax maxval (a +:+ "-" +:+ b) s e 1
| range_stepped (a b c : string) (s e inc : Z) :
    contains "-" a = false -> contains "-" b = false -> contains "-" c = false ->
    contains "+" b = false -> contains "+" c = false ->
    int a = Ok s -> end_value b maxval e -> int c = Ok inc ->
    range_syntax maxval (a +:+ "-" +:+ b +:+ "+" +:+ c) s e inc.

(** The integers from [s] to [e] in steps of [inc], as a specification:
    ascending, and holding exactly the points of the range that lie a
    whole number of steps from [s]. *)
Definition stepped_range (s e inc : Z) (l : list Z) : Prop :=
  StronglySorted Z.lt l /\
  forall x, In x l <-> s <= x <= e /\ (x - s) mod inc = 0.

End RangeSyntax.
(** * Auxiliary definitions for the further properties *)

Module DateRangeSpec.

(** A text of the shape [YYYY-MM] and the numbers it spells. *)
Definition spells_ym (s : string) (y m : Z) : Prop :=
  String.length s = 7%nat /\ mapM PyStr.int (PyStr.split "-" s) = Ok [y; m].

(** A request date on or between two calendar dates. *)
Definition between (s e : PyDate.date) (rd : RequestDate) : Prop :=
  exists d,
    rd = DateSpec.rd_of_date d
    /\ PyDate.valid (PyDate.dyear d) (PyDate.dmonth d) (PyDate.dday d) = true
    /\ PyDate.toordinal s <= PyDate.toordinal d <= PyDate.toordinal e.

End DateRangeSpec.

Module RequestUpdate.

(** A request with another grain policy, all else equal. *)
Definition with_grain_method {CRS : Type} (p : string) (r : @DataRequest CRS)
  : @DataRequest CRS :=
  mkDataRequest (dsc r) (dsvars r) (date_start_raw r) (date_end_raw r) (dates r)
    (date_grain r) (subset_geom r) (target_crs r) (target_resolution r)
    (request_type r) (ri_method r) (metadata r) p (file_extension r).

(** A request with another file extension, all else equal. *)
Definition with_file_extension {CRS : Type} (ext : string) (r : @DataRequest CRS)
  : @DataRequest CRS :=
  mkDataRequest (dsc r) (dsvars r) (date_start_raw r) (date_end_raw r) (dates r)
    (date_grain r) (subset_geom r) (target_crs r) (target_resolution r)
    (request_type r) (ri_method r) (metadata r) (grain_method r) ext.

(** The value that a sequence of key/value pairs gives to a key: that of
    the last pair with this key. *)
Definition last_value {V : Type} (k : string) (l : list (string * V)) : option V :=
  dict_get k (rev l).

(** The keys of the request part of the metadata that construction
    writes itself. *)
Definition derived_keys : list string :=
  ["target_date_range"; "target_crs"; "request_type"; "target_resolution";
   "resample_method"; "interpolation_method"].

(** The formats of a request type. *)
Definition formats_of (rt : Z) : list string :=
  if rt =? REQ_RASTER then GRID_OUTPUT else POINT_OUTPUT.

End RequestUpdate.

Module PolicyExamples.

(** An annual request for two datasets, one of which has daily data only,
    under a given grain policy. *)
Definition request_with_policy (gm : option string) : result DataRequest :=
  __init__ Examples.crs_metadata Examples.catalog
    [("PRISM", ["ppt"]); ("MODIS_NDVI", ["NDVI"])]
    (Some "2019") (Some "2020") None None None gm None "EPSG:4326" PNone None
    REQ_RASTER None [].

End PolicyExamples.

Module PrismSpec.

(** The output file of a year or month and a variable. *)
Definition annual_path (output_dir : string) (rd : RequestDate) (varname : string)
  : string :=
  DataRequestOutput.path_join output_dir
    ("PRISM_" +:+ varname +:+ "_" +:+ PyStr.str (year rd) +:+ ".tif").

Definition monthly_path (output_dir : string) (rd : RequestDate) (varname : string)
  : string :=
  DataRequestOutput.path_join output_dir
    ("PRISM_" +:+ varname +:+ "_" +:+ PyStr.str (year rd) +:+ "-"
     +:+ PyStr.format02 (default 0 (month rd)) +:+ ".tif").

(** One file per date and variable, dates first. *)
Definition files_of (path : RequestDate -> string -> string)
    (dates : list RequestDate) (varnames : list string) : list string :=
  flat_map (fun rd => map (path rd) varnames) dates.

(** Every variable has a file pattern. *)
Definition has_patterns (self : Catalog.PRISM) (varnames : list string) : Prop :=
  forall v, In v varnames -> is_Some (dict_get v (Catalog.fpatterns self)).

(** An output file of the data set: a name made of a variable that was
    asked for and has a pattern, and a time stamp. *)
Definition output_file (self : Catalog.PRISM) (output_dir : string)
    (varnames : list string) (p : string) : Prop :=
  exists v stamp,
    In v varnames /\ is_Some (dict_get v (Catalog.fpatterns self))
    /\ p = DataRequestOutput.path_join output_dir
             ("PRISM_" +:+ v +:+ "_" +:+ stamp +:+ ".tif").

(** An instance that was given a storage path after construction, and
    extraction that always succeeds, for the worked examples. *)
Definition stored (store_path : string) : Catalog.PRISM :=
  let self := Catalog.PRISM__init__ store_path in
  Catalog.mkPRISM (Catalog.base self) (Catalog.epsg_code self) (Catalog.fpatterns self)
    (Some store_path).

Definition extract_always (out src : string) (bounds : option unit) : result unit :=
  Ok tt.

End PrismSpec.

Module CatalogSpec.

(** The document of a range of dates: [[None, None]] when it has no
    start, and the two converted dates otherwise. *)
Definition range_doc (conv : option PyDate.date -> result pyval)
    (r : Catalog.date_range) : result pyval :=
  match fst r with
  | None => Ok (PList [PNone; PNone])
  | Some _ =>
      let* a := conv (fst r) in
      let* b := conv (snd r) in
      Ok (PList [a; b])
  end.

(** A range that has an end when it has a start. *)
Definition complete (r : Catalog.date_range) : Prop :=
  is_Some (fst r) -> is_Some (snd r).

(** The metadata document, given the documents of the ranges. *)
Definition document_of (self : Catalog.GSDataSet) (ranges : list (string * pyval))
  : list (string * pyval) :=
  [("name", PStr (Catalog.name self)); ("id", PStr (Catalog.id self));
   ("url", PStr (Catalog.url self)); ("description", PStr (Catalog.description self));
   ("provider_name", PStr (Catalog.provider_name self));
   ("provider_url", PStr (Catalog.provider_url self));
   ("grid_size", Catalog.opt_int (Catalog.grid_size self));
   ("vars", Catalog.vars self);
   ("date_ranges", PDict ranges)].

Definition document (self : Catalog.GSDataSet) (y m d : pyval) : list (string * pyval) :=
  document_of self [("year", y); ("month", m); ("day", d)].

End CatalogSpec.

Module OutputSpec.

(** The point file of a request in a directory: the data set
    identifiers joined by underscores, with the extension of the request. *)
Definition point_path {CRS : Type} (r : @DataRequest CRS) (output_dir : string) : string :=
  DataRequestOutput.path_join output_dir
    (PointOutput.join "_" (map fst (dsvars r)) +:+ file_extension r).

(** The netCDF file of a data set of the results in a directory: the
    identifier of the data set with the extension .nc. *)
Definition dataset_path (output_dir dsid : string) : string :=
  DataRequestOutput.path_join output_dir (dsid +:+ ".nc").

End OutputSpec.

(** * Proofs *)

(** ** The error monad *)

Lemma bind_Ok_inv {A B : Type} (m : result A) (k : A -> result B) (b : B) :
  bind m k = Ok b -> exists a, m = Ok a /\ k a = Ok b.
Proof. destruct m as [a| |]; simpl; [eauto|discriminate|discriminate]. Qed.

Lemma bind_Ok {A B : Type} (a : A) (k : A -> result B) : bind (Ok a) k = k a.
Proof. reflexivity. Qed.

Ltac inv_result H :=
  repeat match type of H with
         | bind _ _ = Ok _ =>
             let a := fresh "a" in
             let Ha := fresh "Ha" in
             apply bind_Ok_inv in H as (a & Ha & H)
         | (if ?c then _ else _) = Ok _ =>
             let E := fresh "E" in destruct c eqn:E; [try discriminate H|try discriminate H]
         | (let '(_, _) := ?p in _) = Ok _ => destruct p
         | Raise _ = Ok _ => discriminate H
         | Diverge = Ok _ => discriminate H
         end.


Lemma bind_total {A B : Type} (m : result A) (k : A -> result B) :
  m <> Diverge -> (forall a, m = Ok a -> k a <> Diverge) -> bind m k <> Diverge.
Proof. destruct m as [a|e|]; simpl; [auto|done|done]. Qed.

(** The primitives return or raise. *)
Lemma int_total s : PyStr.int s <> Diverge.
Proof. unfold PyStr.int. now destruct (PyStr.parse_int s). Qed.

Lemma mapM_int_total l : mapM PyStr.int l <> Diverge.
Proof.
  induction l as [|x l IH]; simpl; [done|].
  pose proof (int_total x). destruct (PyStr.int x); simpl; [|done|done].
  destruct (mapM PyStr.int l); simpl; done.
Qed.

Lemma unpack2_total {A : Type} (l : list A) : unpack2 l <> Diverge.
Proof. unfold unpack2. now destruct l as [|a [|b [|c l]]]. Qed.

Lemma unpack3_total {A : Type} (l : list A) : unpack3 l <> Diverge.
Proof. unfold unpack3. now destruct l as [|a [|b [|c [|d l]]]]. Qed.

Lemma new_total y m d : PyDate.new y m d <> Diverge.
Proof. unfold PyDate.new. repeat case_match; done. Qed.

Lemma add_days_total d k : PyDate.add_days d k <> Diverge.
Proof. unfold PyDate.add_days. now case_match. Qed.


(** ** Decimal numerals *)

Module StrFacts.

Import PyStr StrSpec.

Lemma digit_of_digit_char d :
  0 <= d < 10 -> digit_of (digit_char d) = Some d.
Proof.
  intros Hd.
  assert (d = 0 \/ d = 1 \/ d = 2 \/ d = 3 \/ d = 4 \/ d = 5 \/ d = 6 \/ d = 7
          \/ d = 8 \/ d = 9) as H by lia.
  repeat (destruct H as [->|H]; [reflexivity|]). now subst.
Qed.

Lemma digit_not_underscore c d :
  digit_of c = Some d -> Ascii.eqb c "_" = false.
Proof.
  intros H. destruct (Ascii.eqb c "_") eqn:E; [|done].
  apply Ascii.eqb_eq in E. subst. discriminate H.
Qed.

Lemma digit_not_char c d x :
  digit_of c = Some d -> digit_of x = None -> Ascii.eqb c x = false.
Proof.
  intros H Hx. destruct (Ascii.eqb c x) eqn:E; [|done].
  apply Ascii.eqb_eq in E. subst. congruence.
Qed.

Lemma digit_not_space c d : digit_of c = Some d -> is_space c = false.
Proof.
  unfold digit_of, is_space. cbv zeta.
  destruct ((48 <=? Z.of_nat (nat_of_ascii c)) && (Z.of_nat (nat_of_ascii c) <=? 57))
    eqn:E; [|discriminate].
  intros _. apply andb_true_iff in E as [E1 E2].
  apply Z.leb_le in E1, E2.
  rewrite !orb_false_iff. repeat split.
  - apply andb_false_iff. right. apply Nat.leb_gt. lia.
  - apply Nat.eqb_neq. lia.
  - apply Nat.eqb_neq. lia.
  - apply Nat.eqb_neq. lia.
Qed.

Lemma parse_digit_char d acc b rest :
  0 <= d < 10 ->
  parse_digits acc b (String (digit_char d) rest) = parse_digits (10 * acc + d) true rest.
Proof.
  intros Hd. cbn [parse_digits].
  rewrite (digit_not_underscore _ d) by now apply digit_of_digit_char.
  now rewrite digit_of_digit_char.
Qed.

Lemma log2_div10 n : 10 <= n -> Z.log2 (n / 10) <= Z.log2 n - 1.
Proof.
  intros Hn.
  assert (H : n / 10 <= Z.shiftr n 1).
  { rewrite Z.shiftr_div_pow2 by lia. change (2 ^ 1) with 2.
    apply Z.div_le_compat_l; lia. }
  apply Z.log2_le_mono in H. rewrite Z.log2_shiftr in H by lia.
  assert (3 <= Z.log2 n) by (apply (Z.log2_le_mono 8 n); lia). lia.
Qed.

(** The digits of a number read back as that number. *)
Lemma parse_digits_of_pos fuel : forall n acc b,
  0 <= n -> Z.log2 n <= Z.of_nat fuel ->
  parse_digits 0 b (digits_of_pos fuel n acc) = parse_digits n true acc.
Proof.
  induction fuel as [|fuel IH]; intros n acc b Hn Hlog.
  - assert (n < 2).
    { destruct (Z_lt_le_dec n 2) as [|H2]; [done|].
      apply Z.log2_le_mono in H2. change (Z.log2 2) with 1 in H2. lia. }
    cbn [digits_of_pos]. rewrite Z.mod_small by lia.
    rewrite parse_digit_char by lia. f_equal; lia.
  - cbn [digits_of_pos]. destruct (n <? 10) eqn:E.
    + rewrite Z.mod_small by lia. rewrite parse_digit_char by lia. f_equal; lia.
    + assert (Hdiv : 0 <= n / 10) by (apply Z.div_pos; lia).
      pose proof (log2_div10 n ltac:(lia)).
      rewrite IH by lia.
      pose proof (Z.mod_pos_bound n 10 ltac:(lia)).
      rewrite parse_digit_char by lia.
      f_equal. pose proof (Z.div_mod n 10 ltac:(lia)). lia.
Qed.

Lemma all_digits_of_pos fuel : forall n acc,
  0 <= n -> all_digits (digits_of_pos fuel n acc) = all_digits acc.
Proof.
  induction fuel as [|fuel IH]; intros n acc Hn.
  - cbn [digits_of_pos all_digits].
    pose proof (Z.mod_pos_bound n 10 ltac:(lia)).
    now rewrite digit_of_digit_char.
  - cbn [digits_of_pos]. pose proof (Z.mod_pos_bound n 10 ltac:(lia)).
    destruct (n <? 10).
    + cbn [all_digits]. now rewrite digit_of_digit_char.
    + rewrite IH by (apply Z.div_pos; lia).
      cbn [all_digits]. now rewrite digit_of_digit_char.
Qed.

Lemma digits_of_pos_nonempty fuel : forall n acc, digits_of_pos fuel n acc <> EmptyString.
Proof.
  induction fuel as [|fuel IH]; intros n acc; cbn [digits_of_pos]; [done|].
  destruct (n <? 10); [done|apply IH].
Qed.

Lemma all_digits_digits n : 0 <= n -> all_digits (digits n) = true.
Proof. intros Hn. unfold digits. now rewrite all_digits_of_pos. Qed.

Lemma all_digits_contains c s :
  all_digits s = true -> digit_of c = None -> contains c s = false.
Proof.
  intros Hs Hc. induction s as [|x s IH]; [done|].
  cbn [all_digits] in Hs. destruct (digit_of x) as [d|] eqn:Hx; [|discriminate].
  cbn [contains]. rewrite (digit_not_char x d c Hx Hc). now apply IH.
Qed.

Lemma all_digits_lstrip s : all_digits s = true -> lstrip s = s.
Proof.
  destruct s as [|x s]; [done|]. cbn [all_digits lstrip].
  destruct (digit_of x) as [d|] eqn:Hx; [|discriminate].
  now rewrite (digit_not_space x d Hx).
Qed.

Lemma all_digits_rstrip s : all_digits s = true -> rstrip s = s.
Proof.
  induction s as [|x s IH]; [done|]. cbn [all_digits rstrip].
  destruct (digit_of x) as [d|] eqn:Hx; [|discriminate].
  intros Hs. rewrite (IH Hs). destruct s; [|done].
  now rewrite (digit_not_space x d Hx).
Qed.

Lemma parse_int_all_digits s :
  all_digits s = true -> parse_int s = parse_digits 0 false s.
Proof.
  intros Hs. unfold parse_int, strip.
  rewrite all_digits_lstrip, all_digits_rstrip by done.
  destruct s as [|x s]; [done|].
  cbn [all_digits] in Hs. destruct (digit_of x) as [d|] eqn:Hx; [|discriminate].
  assert (Hp : Ascii.eqb x "+" = false) by now apply (digit_not_char x d).
  assert (Hm : Ascii.eqb x "-" = false) by now apply (digit_not_char x d).
  apply Ascii.eqb_neq in Hp, Hm.
  destruct x as [[] [] [] [] [] [] [] []]; try reflexivity; congruence.
Qed.

(** [int(str(n)) = n] for a natural number. *)
Lemma int_str n : 0 <= n -> int (str n) = Ok n.
Proof.
  intros Hn. unfold int, str. replace (n <? 0) with false by lia.
  rewrite parse_int_all_digits by now apply all_digits_digits.
  unfold digits. rewrite parse_digits_of_pos; [done|done|].
  rewrite Z2Nat.id; [lia|apply Z.log2_nonneg].
Qed.

Lemma str_no_char c n : 0 <= n -> digit_of c = None -> contains c (str n) = false.
Proof.
  intros Hn Hc. unfold str. replace (n <? 0) with false by lia.
  apply all_digits_contains; [now apply all_digits_digits|done].
Qed.

Lemma str_not_N n : 0 <= n -> str n <> "N".
Proof.
  intros Hn E. pose proof (all_digits_digits n Hn) as H.
  unfold str in E. replace (n <? 0) with false in E by lia.
  rewrite E in H. discriminate H.
Qed.

End StrFacts.

(** ** The calendar: ordinals against the calendar walk *)

Module CalendarFacts.

Import PyDate Calendar.

Lemma forall_below_spec n P :
  forall_below n P = true -> forall z, 0 <= z < Z.of_nat n -> P z = true.
Proof.
  induction n as [|n IH]; simpl; intros H z Hz; [lia|].
  apply andb_true_iff in H as [H1 H2].
  destruct (Z.eq_dec z (Z.of_nat n)) as [->|Hne]; [done|].
  apply IH; [done|lia].
Qed.

Lemma div_mod_known a b q r :
  0 <= r < b -> a = b * q + r -> a / b = q /\ a mod b = r.
Proof.
  intros Hr Ha. split.
  - symmetry. apply (Z.div_unique a b q r); [lia|done].
  - symmetry. apply (Z.mod_unique a b q r); [lia|done].
Qed.

Lemma year_checked : forall_below 400 (fun y0 => year_check (y0 + 1)) = true.
Proof. vm_compute. reflexivity. Qed.

Lemma month_day_checked :
  forallb (fun leap =>
    forall_below 12 (fun m0 =>
      forall_below 31 (fun d0 => month_day_check leap (m0 + 1) (d0 + 1))))
    [true; false] = true.
Proof. vm_compute. reflexivity. Qed.

Lemma ord2ymd_abck a b c k :
  0 <= a <= 3 -> 0 <= b <= 24 -> 0 <= c <= 3 ->
  0 <= k < 365 + (if leap_abc a b c then 1 else 0) ->
  ord2ymd (DI100Y * a + DI4Y * b + 365 * c + k + 1)
  = let '(m, d) := month_day (leap_abc a b c) k in
    mkDate (100 * a + 4 * b + c + 1) m d.
Proof.
  intros Ha Hb Hc Hk.
  unfold ord2ymd. cbv zeta.
  replace (DI100Y * a + DI4Y * b + 365 * c + k + 1 - 1)
    with (DI100Y * a + DI4Y * b + 365 * c + k) by lia.
  unfold DI400Y, DI100Y, DI4Y in *.
  destruct (div_mod_known (36524 * a + 1461 * b + 365 * c + k) 146097 0
              (36524 * a + 1461 * b + 365 * c + k)) as [-> ->].
  { destruct (leap_abc a b c); lia. } { lia. }
  destruct (Z.eq_dec k 365) as [->|Hk365].
  - (* last day of a leap year *)
    destruct (leap_abc a b c) eqn:Hl; [|lia].
    unfold leap_abc in Hl. apply andb_true_iff in Hl as [Hc3 Hb24].
    apply Z.eqb_eq in Hc3. subst c.
    destruct (Z.eq_dec b 24) as [->|Hb'].
    + assert (a = 3) as -> by (destruct (a =? 3) eqn:E; [lia|simpl in Hb24; discriminate]).
      reflexivity.
    + destruct (div_mod_known (36524 * a + 1461 * b + 365 * 3 + 365) 36524 a
                  (1461 * b + 1460)) as [-> ->]; [lia|lia|].
      destruct (div_mod_known (1461 * b + 1460) 1461 b 1460) as [-> ->]; [lia|lia|].
      change (1460 / 365) with 4. change (4 =? 4) with true. simpl orb. cbv iota.
      change (month_day true 365) with (12, 31). f_equal. lia.
  - assert (Hk' : 0 <= k < 365) by (destruct (leap_abc a b c); lia).
    destruct (div_mod_known (36524 * a + 1461 * b + 365 * c + k) 36524 a
                (1461 * b + 365 * c + k)) as [-> ->]; [lia|lia|].
    destruct (div_mod_known (1461 * b + 365 * c + k) 1461 b (365 * c + k))
      as [-> ->]; [lia|lia|].
    destruct (div_mod_known (365 * c + k) 365 c k) as [-> ->]; [lia|lia|].
    replace (c =? 4) with false by lia. replace (a =? 4) with false by lia.
    simpl orb. cbv iota. fold (leap_abc a b c).
    replace (0 * 400 + 1 + a * 100 + b * 4 + c) with (100 * a + 4 * b + c + 1) by lia.
    unfold month_day. cbv zeta.
    repeat case_match; congruence.
Qed.

Lemma year_in_cycle y :
  1 <= y <= 400 ->
  exists a b c,
    0 <= a <= 3 /\ 0 <= b <= 24 /\ 0 <= c <= 3 /\
    y = 100 * a + 4 * b + c + 1 /\
    days_before_year y = DI100Y * a + DI4Y * b + 365 * c /\
    is_leap y = leap_abc a b c /\
    days_before_year (y + 1)
    = days_before_year y + 365 + (if is_leap y then 1 else 0).
Proof.
  intros Hy.
  pose proof (forall_below_spec _ _ year_checked (y - 1) ltac:(lia)) as Hc.
  cbv beta in Hc. replace (y - 1 + 1) with y in Hc by lia.
  unfold year_check in Hc. cbv zeta in Hc.
  rewrite !andb_true_iff in Hc.
  destruct Hc as [[[[[[[[Hdby Hleap] Ha0] Ha3] Hb0] Hb24] Hc0] Hc3] Hnext].
  exists ((y - 1) / 100), (((y - 1) mod 100) / 4), ((y - 1) mod 4).
  apply Bool.eqb_prop in Hleap.
  repeat split; try lia; try done.
  Z.div_mod_to_equations. lia.
Qed.

Lemma month_day_facts (leap : bool) m d :
  1 <= m <= 12 -> 1 <= d <= 31 -> month_day_check leap m d = true.
Proof.
  intros Hm Hd.
  pose proof (proj1 (forallb_forall _ _) month_day_checked) as H.
  assert (Hx : forall l, forall_below 12 (fun m0 =>
      forall_below 31 (fun d0 => month_day_check l (m0 + 1) (d0 + 1))) = true ->
      month_day_check l m d = true).
  { intros l Hl.
    pose proof (forall_below_spec _ _ Hl (m - 1) ltac:(lia)) as H1. cbv beta in H1.
    pose proof (forall_below_spec _ _ H1 (d - 1) ltac:(lia)) as H2. cbv beta in H2.
    replace (m - 1 + 1) with m in H2 by lia. replace (d - 1 + 1) with d in H2 by lia.
    done. }
  apply Hx. apply (H leap). destruct leap; simpl; auto.
Qed.

Lemma days_in_month_alt y m :
  days_in_month y m = DAYS_IN_MONTH m + (if (m =? 2) && is_leap y then 1 else 0).
Proof.
  unfold days_in_month. destruct ((m =? 2) && is_leap y) eqn:E; [|lia].
  apply andb_true_iff in E as [E _]. apply Z.eqb_eq in E. now subst.
Qed.

Lemma wf_date_spec d :
  wf_date d = true <->
  1 <= dyear d /\ 1 <= dmonth d <= 12 /\
  1 <= dday d <= days_in_month (dyear d) (dmonth d).
Proof. unfold wf_date. rewrite !andb_true_iff, !Z.leb_le. lia. Qed.

Lemma days_in_month_le y m : days_in_month y m <= 31.
Proof.
  unfold days_in_month, DAYS_IN_MONTH.
  repeat case_match; lia.
Qed.

Lemma ord2ymd_ymd2ord_cycle y m d :
  1 <= y <= 400 -> 1 <= m <= 12 -> 1 <= d <= days_in_month y m ->
  ord2ymd (ymd2ord y m d) = mkDate y m d.
Proof.
  intros Hy Hm Hd.
  destruct (year_in_cycle y Hy) as (a & b & c & Ha & Hb & Hc & Hyabc & Hdby & Hleap & _).
  pose proof (days_in_month_le y m) as Hle.
  pose proof (month_day_facts (is_leap y) m d Hm ltac:(lia)) as Hmd.
  unfold month_day_check in Hmd. cbv zeta in Hmd.
  rewrite <- days_in_month_alt in Hmd.
  replace (d <=? days_in_month y m) with true in Hmd by lia.
  simpl negb in Hmd. rewrite orb_false_l in Hmd.
  rewrite !andb_true_iff in Hmd. destruct Hmd as [[[Hmd Hlt] _] _].
  apply Z.ltb_lt in Hlt.
  unfold ymd2ord, days_before_month.
  set (k := DAYS_BEFORE_MONTH m + (if (2 <? m) && is_leap y then 1 else 0) + d - 1) in *.
  replace (days_before_year y
           + (DAYS_BEFORE_MONTH m + (if (2 <? m) && is_leap y then 1 else 0)) + d)
    with (DI100Y * a + DI4Y * b + 365 * c + k + 1) by lia.
  assert (Hk0 : 0 <= k).
  { subst k. unfold DAYS_BEFORE_MONTH. repeat case_match; lia. }
  rewrite ord2ymd_abck; try lia; [|rewrite <- Hleap; lia].
  rewrite <- Hleap.
  destruct (month_day (is_leap y) k) as [m1 d1].
  apply andb_true_iff in Hmd as [E1 E2].
  apply Z.eqb_eq in E1, E2. subst. f_equal; lia.
Qed.

Lemma is_leap_shift y k : is_leap (y + 400 * k) = is_leap y.
Proof.
  unfold is_leap.
  replace ((y + 400 * k) mod 4) with (y mod 4)
    by (replace (y + 400 * k) with (y + (100 * k) * 4) by lia; now rewrite Z_mod_plus_full).
  replace ((y + 400 * k) mod 100) with (y mod 100)
    by (replace (y + 400 * k) with (y + (4 * k) * 100) by lia; now rewrite Z_mod_plus_full).
  replace ((y + 400 * k) mod 400) with (y mod 400)
    by (replace (y + 400 * k) with (y + k * 400) by lia; now rewrite Z_mod_plus_full).
  reflexivity.
Qed.

Lemma days_in_month_shift y m k : days_in_month (y + 400 * k) m = days_in_month y m.
Proof. unfold days_in_month. now rewrite is_leap_shift. Qed.

Lemma days_before_year_shift y k :
  days_before_year (y + 400 * k) = days_before_year y + k * DI400Y.
Proof.
  unfold days_before_year, DI400Y. cbv zeta.
  replace ((y + 400 * k - 1) / 4) with ((y - 1) / 4 + 100 * k)
    by (replace (y + 400 * k - 1) with ((y - 1) + (100 * k) * 4) by lia;
        now rewrite Z.div_add by lia).
  replace ((y + 400 * k - 1) / 100) with ((y - 1) / 100 + 4 * k)
    by (replace (y + 400 * k - 1) with ((y - 1) + (4 * k) * 100) by lia;
        now rewrite Z.div_add by lia).
  replace ((y + 400 * k - 1) / 400) with ((y - 1) / 400 + k)
    by (replace (y + 400 * k - 1) with ((y - 1) + k * 400) by lia;
        now rewrite Z.div_add by lia).
  lia.
Qed.

Lemma ymd2ord_shift y m d k :
  ymd2ord (y + 400 * k) m d = ymd2ord y m d + k * DI400Y.
Proof.
  unfold ymd2ord, days_before_month.
  rewrite days_before_year_shift, is_leap_shift. lia.
Qed.

Lemma ord2ymd_shift n k :
  ord2ymd (n + k * DI400Y) = add_years (400 * k) (ord2ymd n).
Proof.
  unfold ord2ymd. cbv zeta.
  replace (n + k * DI400Y - 1) with ((n - 1) + k * DI400Y) by lia.
  rewrite Z.div_add by (unfold DI400Y; lia).
  rewrite Z_mod_plus_full.
  repeat case_match; unfold add_years; simpl; f_equal; lia.
Qed.

Lemma year_split y :
  1 <= y -> exists y0 q, 1 <= y0 <= 400 /\ 0 <= q /\ y = y0 + 400 * q.
Proof.
  intros Hy. exists ((y - 1) mod 400 + 1), ((y - 1) / 400).
  Z.div_mod_to_equations. lia.
Qed.

Lemma ord2ymd_toordinal d :
  wf_date d = true -> ord2ymd (toordinal d) = d.
Proof.
  intros Hwf. apply wf_date_spec in Hwf as (Hy & Hm & Hd).
  destruct d as [y m dd]. simpl in *. unfold toordinal. simpl.
  destruct (year_split y Hy) as (y0 & q & Hy0 & Hq & ->).
  rewrite ymd2ord_shift, ord2ymd_shift.
  rewrite days_in_month_shift in Hd.
  rewrite ord2ymd_ymd2ord_cycle by lia.
  unfold add_years. simpl. reflexivity.
Qed.

Lemma days_before_year_succ y :
  1 <= y ->
  days_before_year (y + 1) = days_before_year y + 365 + (if is_leap y then 1 else 0).
Proof.
  intros Hy. destruct (year_split y Hy) as (y0 & q & Hy0 & Hq & ->).
  destruct (year_in_cycle y0 Hy0) as (a & b & c & _ & _ & _ & _ & _ & _ & Hn).
  replace (y0 + 400 * q + 1) with ((y0 + 1) + 400 * q) by lia.
  rewrite !days_before_year_shift, is_leap_shift. lia.
Qed.

Lemma toordinal_next_day d :
  wf_date d = true -> toordinal (next_day d) = toordinal d + 1.
Proof.
  intros Hwf. apply wf_date_spec in Hwf as (Hy & Hm & Hd).
  destruct d as [y m dd]. simpl in *.
  pose proof (days_in_month_le y m) as Hle.
  pose proof (month_day_facts (is_leap y) m dd Hm ltac:(lia)) as Hmd.
  unfold month_day_check in Hmd. cbv zeta in Hmd.
  rewrite <- days_in_month_alt in Hmd.
  replace (dd <=? days_in_month y m) with true in Hmd by lia.
  simpl negb in Hmd. rewrite orb_false_l in Hmd.
  rewrite !andb_true_iff in Hmd. destruct Hmd as [[[_ _] Hnm] Hny].
  unfold next_day, toordinal. simpl.
  destruct (dd <? days_in_month y m) eqn:E1; simpl.
  - unfold ymd2ord. lia.
  - assert (dd = days_in_month y m) as Hdd by lia.
    replace (dd =? days_in_month y m) with true in * by lia.
    simpl in Hnm, Hny.
    destruct (m <? 12) eqn:E2; simpl.
    + replace (m =? 12) with false in Hnm by lia. simpl in Hnm.
      apply Z.eqb_eq in Hnm.
      unfold ymd2ord, days_before_month. lia.
    + assert (m = 12) as -> by lia. simpl in Hny. apply Z.eqb_eq in Hny.
      unfold ymd2ord. rewrite days_before_year_succ by lia.
      unfold days_before_month in *. simpl in *. lia.
Qed.

Lemma days_in_month_ge y m : 1 <= m <= 12 -> 28 <= days_in_month y m.
Proof.
  intros Hm. unfold days_in_month, DAYS_IN_MONTH.
  repeat case_match; lia.
Qed.

Lemma wf_next_day d : wf_date d = true -> wf_date (next_day d) = true.
Proof.
  intros Hwf. apply wf_date_spec in Hwf as (Hy & Hm & Hd).
  apply wf_date_spec. destruct d as [y m dd]. simpl in *.
  unfold next_day. simpl.
  destruct (dd <? days_in_month y m) eqn:E1; simpl; [lia|].
  destruct (m <? 12) eqn:E2; simpl.
  - pose proof (days_in_month_ge y (m + 1)). lia.
  - pose proof (days_in_month_ge (y + 1) 1). lia.
Qed.

Lemma ord2ymd_succ d :
  wf_date d = true -> ord2ymd (toordinal d + 1) = next_day d.
Proof.
  intros Hwf. rewrite <- toordinal_next_day by done.
  apply ord2ymd_toordinal. now apply wf_next_day.
Qed.

End CalendarFacts.

(** ** The range parser *)

Module RangeFacts.

Import PyStr RangeStr RangeSyntax.

Lemma contains_app c a b : contains c (a +:+ b) = contains c a || contains c b.
Proof.
  induction a as [|x a IH]; simpl; [done|].
  destruct (Ascii.eqb x c); [done|apply IH].
Qed.

Lemma contains_sep_app c a b :
  contains c (a +:+ String c EmptyString +:+ b) = true.
Proof. rewrite contains_app. simpl. rewrite Ascii.eqb_refl. apply orb_true_r. Qed.

Lemma split_no_sep c a : contains c a = false -> split c a = [a].
Proof.
  induction a as [|x a IH]; simpl; [done|].
  destruct (Ascii.eqb x c); [done|]. intros H. now rewrite IH.
Qed.

Lemma split_app_sep c a b :
  contains c a = false ->
  split c (a +:+ String c EmptyString +:+ b) = a :: split c b.
Proof.
  induction a as [|x a IH]; simpl.
  - intros _. now rewrite Ascii.eqb_refl.
  - destruct (Ascii.eqb x c); [done|]. intros H. now rewrite IH.
Qed.

Lemma length_split c s : length (split c s) = S (count_char c s).
Proof.
  induction s as [|x s IH]; simpl; [done|].
  destruct (Ascii.eqb x c); simpl; [now rewrite IH|].
  destruct (split c s); simpl in *; [done|lia].
Qed.

Lemma count_char_app c a b :
  count_char c (a +:+ b) = (count_char c a + count_char c b)%nat.
Proof.
  induction a as [|x a IH]; simpl; [done|].
  destruct (Ascii.eqb x c); simpl; now rewrite IH.
Qed.

Lemma contains_count c s : contains c s = true <-> (0 < count_char c s)%nat.
Proof.
  induction s as [|x s IH]; simpl; [split; [done|lia]|].
  destruct (Ascii.eqb x c); [split; [lia|done]|apply IH].
Qed.

Lemma app_inv_head_str (a b c : string) : a +:+ b = a +:+ c -> b = c.
Proof. induction a; simpl; [done|]. intros [=]. auto. Qed.

(** The syntax stage of the parser on a string of the grammar. *)
Lemma split_dash_syntax maxval r s e inc :
  range_syntax maxval r s e inc ->
  exists a p, split "-" r = [a; p] /\ int a = Ok s.
Proof.
  intros [a b s' e' Ha Hb _ Hs _|a b c s' e' inc' Ha Hb Hc _ _ Hs _ _].
  - exists a, b. rewrite split_app_sep, split_no_sep by done. done.
  - exists a, (b +:+ "+" +:+ c). rewrite split_app_sep, split_no_sep; [done| |done].
    rewrite contains_app, Hb. simpl. exact Hc.
Qed.

(** What the parser computes on a string of the grammar: the checks and the
    range, on the integers the parts denote. *)
Lemma parse_of_syntax maxval r s e inc :
  range_syntax maxval r s e inc ->
  _parseRangeStr r maxval
  = if e <? s then Raise (ValueError (msg_order r))
    else if (s <=? 0) || (e <=? 0) then Raise (ValueError (msg_positive r))
    else match maxval with
         | Some m =>
             if m <? e then Raise (ValueError (msg_max r m))
             else py_range s (e + 1) inc
         | None => py_range s (e + 1) inc
         end.
Proof.
  intros Hsyn. unfold _parseRangeStr.
  assert (Hend : forall b, end_value b maxval e ->
            (if String.eqb b "N"
             then match maxval with
                  | None => Raise (ValueError (msg_no_max r))
                  | Some m => Ok m
                  end
             else int b) = Ok e).
  { intros b [[-> ->]|[Hne Hi]]; [done|].
    apply String.eqb_neq in Hne. now rewrite Hne. }
  destruct Hsyn as [a b s e Ha Hb Hp Hs He|a b c s e inc Ha Hb Hc Hpb Hpc Hs He Hi].
  - rewrite split_app_sep, split_no_sep by done.
    rewrite Hs. simpl bind. rewrite Hp. simpl bind.
    rewrite (Hend b He). simpl bind. reflexivity.
  - rewrite split_app_sep, split_no_sep; [|rewrite contains_app, Hb; exact Hc|done].
    rewrite Hs. simpl bind. rewrite contains_sep_app.
    rewrite split_app_sep, split_no_sep by done.
    rewrite Hi. simpl bind.
    rewrite (Hend b He). simpl bind. reflexivity.
Qed.

Lemma In_map_seq (f : nat -> Z) n x :
  In x (map f (seq 0 n)) <-> exists i, (i < n)%nat /\ x = f i.
Proof.
  rewrite in_map_iff. split.
  - intros (i & <- & Hi). apply in_seq in Hi. exists i. split; [lia|done].
  - intros (i & Hi & ->). exists i. split; [done|]. apply in_seq. lia.
Qed.

Lemma sorted_map_seq (f : nat -> Z) a n :
  (forall i j, (i < j)%nat -> f i < f j) ->
  StronglySorted Z.lt (map f (seq a n)).
Proof.
  intros Hf. revert a. induction n as [|n IH]; intros a; simpl; constructor.
  - apply IH.
  - apply Forall_forall. intros x Hx. apply list_elem_of_In, in_map_iff in Hx as (j & <- & Hj).
    apply in_seq in Hj. apply Hf. lia.
Qed.

Lemma py_range_stepped s e inc :
  s <= e -> 0 < inc ->
  exists l, py_range s (e + 1) inc = Ok l /\ stepped_range s e inc l.
Proof.
  intros Hse Hinc. unfold py_range.
  replace (inc =? 0) with false by lia. replace (0 <? inc) with true by lia.
  eexists. split; [reflexivity|].
  replace (e + 1 - s + inc - 1) with ((e - s) + 1 * inc) by lia.
  rewrite Z.div_add by lia.
  assert (Hq : 0 <= (e - s) / inc) by (apply Z.div_pos; lia).
  split.
  - apply sorted_map_seq. intros i j Hij. nia.
  - intros x. rewrite In_map_seq. split.
    + intros (i & Hi & ->).
      assert (Z.of_nat i <= (e - s) / inc) by lia.
      assert (Z.of_nat i * inc <= e - s).
      { pose proof (Z.mul_div_le (e - s) inc Hinc). nia. }
      split; [nia|].
      replace (s + Z.of_nat i * inc - s) with (Z.of_nat i * inc) by lia.
      apply Z_mod_mult.
    + intros [Hx Hmod].
      exists (Z.to_nat ((x - s) / inc)).
      assert (0 <= (x - s) / inc) by (apply Z.div_pos; lia).
      assert ((x - s) / inc <= (e - s) / inc) by (apply Z.div_le_mono; lia).
      split; [lia|].
      rewrite Z2Nat.id by lia.
      pose proof (Z.div_mod (x - s) inc ltac:(lia)). lia.
Qed.

Lemma split_single c s p :
  split c s = [p] -> s = p /\ contains c s = false.
Proof.
  revert p. induction s as [|x s IH]; intros p; simpl.
  - intros [= <-]. done.
  - destruct (Ascii.eqb x c) eqn:E.
    + intros [= _ H]. destruct s; simpl in H; [discriminate|].
      destruct (Ascii.eqb a c); [discriminate|]. now destruct (split c s).
    + destruct (split c s) as [|q qs] eqn:Hs.
      * intros [= <-]. destruct s; simpl in Hs; [discriminate|].
        destruct (Ascii.eqb a c); [discriminate|]. now destruct (split c s).
      * intros [= <- ->]. destruct (IH q eq_refl) as [-> Hc]. done.
Qed.

Lemma split_pair c s a p :
  split c s = [a; p] ->
  s = a +:+ String c EmptyString +:+ p
  /\ contains c a = false /\ contains c p = false.
Proof.
  revert a. induction s as [|x s IH]; intros a; simpl; [discriminate|].
  destruct (Ascii.eqb x c) eqn:E.
  - intros [= <- H]. apply Ascii.eqb_eq in E. subst x.
    apply split_single in H as [-> Hc]. done.
  - destruct (split c s) as [|q qs] eqn:Hs; [discriminate|].
    intros [= <- ->]. destruct (IH q eq_refl) as (-> & Ha & Hp).
    simpl. rewrite E. done.
Qed.

(** The parser returns a sequence only on a string of the grammar whose
    bounds pass all the checks. *)
Lemma parseRangeStr_Ok_inv r maxval l :
  _parseRangeStr r maxval = Ok l ->
  exists s e inc,
    range_syntax maxval r s e inc /\ 0 < s <= e
    /\ (forall m, maxval = Some m -> e <= m) /\ inc <> 0.
Proof.
  unfold _parseRangeStr. intros H.
  destruct (split "-" r) as [|a [|p [|x xs]]] eqn:Hsplit; try discriminate H.
  apply split_pair in Hsplit as (-> & Ha & Hp).
  apply bind_Ok_inv in H as (s & Hs & H).
  apply bind_Ok_inv in H as ([b inc] & Hb & H).
  apply bind_Ok_inv in H as (e & He & H).
  assert (Hend : end_value b maxval e).
  { destruct (String.eqb b "N") eqn:EN.
    - apply String.eqb_eq in EN. subst. left.
      destruct maxval; [|discriminate]. now injection He as ->.
    - right. apply String.eqb_neq in EN. done. }
  destruct (e <? s) eqn:E1; [discriminate|].
  destruct ((s <=? 0) || (e <=? 0)) eqn:E2; [discriminate|].
  apply orb_false_iff in E2 as [E2 E2'].
  exists s, e, inc.
  assert (Hinc : forall stop, py_range s stop inc = Ok l -> inc <> 0).
  { unfold py_range. intros stop Hr ->. discriminate Hr. }
  assert (Hsyn : range_syntax maxval (a +:+ "-" +:+ p) s e inc).
  { destruct (contains "+" p) eqn:Hplus.
    - destruct (split "+" p) as [|b' [|c [|y ys]]] eqn:Hsp; try discriminate Hb.
      apply split_pair in Hsp as (-> & Hb' & Hc).
      apply bind_Ok_inv in Hb as (inc' & Hi & Hb). injection Hb as <- <-.
      rewrite contains_app in Hp. apply orb_false_iff in Hp as [Hpb Hpc].
      simpl in Hpc. now apply range_stepped.
    - injection Hb as <- <-. now apply range_plain. }
  split; [done|]. split; [lia|].
  destruct maxval as [m|].
  - destruct (m <? e) eqn:E3; [discriminate|].
    split; [intros m' [= <-]; lia|eauto].
  - split; [intros m' [=]|eauto].
Qed.

Lemma msg_invalid_order r : msg_invalid r <> msg_order r.
Proof.
  unfold msg_invalid, msg_order. intros H.
  do 3 apply app_inv_head_str in H. discriminate H.
Qed.

Lemma msg_invalid_positive r : msg_invalid r <> msg_positive r.
Proof.
  unfold msg_invalid, msg_positive. intros H.
  do 3 apply app_inv_head_str in H. discriminate H.
Qed.

Lemma msg_invalid_max r m : msg_invalid r <> msg_max r m.
Proof.
  unfold msg_invalid, msg_max. intros H.
  do 3 apply app_inv_head_str in H. discriminate H.
Qed.

Lemma msg_order_positive r : msg_order r <> msg_positive r.
Proof.
  unfold msg_order, msg_positive. intros H.
  do 3 apply app_inv_head_str in H. discriminate H.
Qed.

Lemma msg_order_max r m : msg_order r <> msg_max r m.
Proof.
  unfold msg_order, msg_max. intros H.
  do 3 apply app_inv_head_str in H. discriminate H.
Qed.

Lemma msg_positive_max r m : msg_positive r <> msg_max r m.
Proof.
  unfold msg_positive, msg_max. intros H.
  do 3 apply app_inv_head_str in H. discriminate H.
Qed.



(** Numerals written by [str] form strings of the grammar. *)
Lemma range_syntax_canonical maxval s e inc :
  0 <= s -> 0 <= e -> 0 <= inc ->
  range_syntax maxval (str s +:+ "-" +:+ str e) s e 1
  /\ range_syntax maxval (str s +:+ "-" +:+ str e +:+ "+" +:+ str inc) s e inc
  /\ (maxval = Some e ->
      range_syntax maxval (str s +:+ "-" +:+ "N") s e 1
      /\ range_syntax maxval (str s +:+ "-" +:+ "N" +:+ "+" +:+ str inc) s e inc).
Proof.
  intros Hs He Hi.
  assert (Hd : forall n, 0 <= n -> contains "-" (str n) = false)
    by (intros; now apply StrFacts.str_no_char).
  assert (Hp : forall n, 0 <= n -> contains "+" (str n) = false)
    by (intros; now apply StrFacts.str_no_char).
  assert (Hend : end_value (str e) maxval e).
  { right. split; [now apply StrFacts.str_not_N|now apply StrFacts.int_str]. }
  split; [|split].
  - apply range_plain; auto using StrFacts.int_str.
  - apply range_stepped; auto using StrFacts.int_str.
  - intros Hm.
    assert (HN : end_value "N" maxval e) by (left; done).
    split.
    + apply range_plain; auto using StrFacts.int_str.
    + apply range_stepped; auto using StrFacts.int_str.
Qed.

(** C3 (amended). On a range string of the grammar with 0 < START <= END,
    END within the maximum when one is given, and INCREMENT at least 1, the
    parser returns the ascending integers from START to END in steps of
    INCREMENT: END is among them exactly when it lies a whole number of
    steps from START. This holds in particular of the strings that spell
    the three numbers in decimal; 1-10+2 gives 1,3,5,7,9 and 1-N with
    maximum 5 gives 1,...,5. On every such string with INCREMENT 0 the
    parser raises the error of a zero step. *)
Theorem parseRangeStr_values :
  (forall (maxval : option Z) (r : string) (s e inc : Z),
      range_syntax maxval r s e inc ->
      0 < s <= e ->
      (forall m, maxval = Some m -> e <= m) ->
      0 < inc ->
      exists l, _parseRangeStr r maxval = Ok l /\ stepped_range s e inc l)
  /\ (forall (maxval : option Z) (s e inc : Z),
         0 < s <= e ->
         (forall m, maxval = Some m -> e <= m) ->
         0 < inc ->
         (exists l, _parseRangeStr (str s +:+ "-" +:+ str e) maxval = Ok l
                    /\ stepped_range s e 1 l)
         /\ (exists l,
               _parseRangeStr (str s +:+ "-" +:+ str e +:+ "+" +:+ str inc) maxval = Ok l
               /\ stepped_range s e inc l)
         /\ (maxval = Some e ->
             exists l,
               _parseRangeStr (str s +:+ "-" +:+ "N" +:+ "+" +:+ str inc) maxval = Ok l
               /\ stepped_range s e inc l))
  /\ _parseRangeStr "1-10+2" None = Ok [1; 3; 5; 7; 9]
  /\ _parseRangeStr "1-N" (Some 5) = Ok [1; 2; 3; 4; 5]
  /\ (forall (maxval : option Z) (r : string) (s e : Z),
         range_syntax maxval r s e 0 ->
         0 < s <= e ->
         (forall m, maxval = Some m -> e <= m) ->
         _parseRangeStr r maxval
         = Raise (ValueError "range() arg 3 must not be zero"))
  /\ (forall (maxval : option Z) (s e : Z),
         0 < s <= e ->
         (forall m, maxval = Some m -> e <= m) ->
         _parseRangeStr (str s +:+ "-" +:+ str e +:+ "+" +:+ str 0) maxval
         = Raise (ValueError "range() arg 3 must not be zero")).
Proof.
  assert (Hzero : forall (maxval : option Z) (r : string) (s e : Z),
             range_syntax maxval r s e 0 ->
             0 < s <= e ->
             (forall m, maxval = Some m -> e <= m) ->
             _parseRangeStr r maxval
             = Raise (ValueError "range() arg 3 must not be zero")).
  { intros maxval r s e Hsyn Hse Hmax.
    rewrite (parse_of_syntax _ _ _ _ _ Hsyn).
    replace (e <? s) with false by lia.
    replace ((s <=? 0) || (e <=? 0)) with false by lia.
    destruct maxval as [m|]; [|reflexivity].
    specialize (Hmax m eq_refl). now replace (m <? e) with false by lia. }
  assert (Hgen : forall (maxval : option Z) (r : string) (s e inc : Z),
             range_syntax maxval r s e inc ->
             0 < s <= e ->
             (forall m, maxval = Some m -> e <= m) ->
             0 < inc ->
             exists l, _parseRangeStr r maxval = Ok l /\ stepped_range s e inc l).
  { intros maxval r s e inc Hsyn Hse Hmax Hinc.
    rewrite (parse_of_syntax _ _ _ _ _ Hsyn).
    replace (e <? s) with false by lia.
    replace ((s <=? 0) || (e <=? 0)) with false by lia.
    destruct maxval as [m|].
    - specialize (Hmax m eq_refl). replace (m <? e) with false by lia.
      apply py_range_stepped; lia.
    - apply py_range_stepped; lia. }
  split; [exact Hgen|].
  split; [|split; [reflexivity|split; [reflexivity|split; [exact Hzero|]]]].
  - intros maxval s e inc Hse Hmax Hinc.
    destruct (range_syntax_canonical maxval s e inc) as (H1 & H2 & H3); try lia.
    split; [|split].
    + apply Hgen; [done|done|done|lia].
    + now apply Hgen.
    + intros Hm. apply Hgen; [now apply H3|done|done|done].
  - intros maxval s e Hse Hmax.
    destruct (range_syntax_canonical maxval s e 0) as (_ & H2 & _); try lia.
    now apply (Hzero maxval _ s e).
Qed.

Lemma parseRangeStr_values_witness :
  exists l, _parseRangeStr "2-11+3" (Some 12) = Ok l /\ stepped_range 2 11 3 l.
Proof.
  apply (proj1 parseRangeStr_values (Some 12) "2-11+3" 2 11 3).
  - apply (range_stepped (Some 12) "2" "11" "3" 2 11 3); try reflexivity.
    right. split; [discriminate|reflexivity].
  - lia.
  - intros m [= <-]. lia.
  - lia.
Defined.

(** C3 as stated fails for an increment of 0: the string 1-5+0 is of the
    grammar with 0 < START <= END, and the parser raises an error. *)
Lemma parseRangeStr_zero_increment :
  range_syntax None "1-5+0" 1 5 0 /\ 0 < 1 <= 5
  /\ _parseRangeStr "1-5+0" None
     = Raise (ValueError "range() arg 3 must not be zero")
  /\ ~ (exists l, _parseRangeStr "1-5+0" None = Ok l).
Proof.
  split; [|split; [lia|split; [reflexivity|]]].
  - apply (range_stepped None "1" "5" "0" 1 5 0); try reflexivity.
    right. split; [discriminate|reflexivity].
  - intros [l Hl]. discriminate Hl.
Qed.

End RangeFacts.

(** ** Simple date ranges *)

Module SimpleRangeFacts.

Import PyDate Calendar CalendarFacts DateSpec SimpleRange.

Lemma eqb_eq (a b : date) : eqb a b = true <-> a = b.
Proof.
  destruct a, b. unfold eqb. simpl.
  rewrite !andb_true_iff, !Z.eqb_eq. split; [intros [[-> ->] ->]; done|].
  intros [= -> -> ->]. done.
Qed.

Lemma days_before_year_nonneg y : 1 <= y -> 0 <= days_before_year y.
Proof. intros Hy. unfold days_before_year. cbv zeta. Z.div_mod_to_equations. lia. Qed.

Lemma toordinal_pos d : wf_date d = true -> 1 <= toordinal d.
Proof.
  intros Hwf. apply wf_date_spec in Hwf as (Hy & Hm & Hd).
  unfold toordinal, ymd2ord.
  pose proof (days_before_year_nonneg _ Hy).
  assert (0 <= days_before_month (dyear d) (dmonth d)).
  { unfold days_before_month, DAYS_BEFORE_MONTH. repeat case_match; lia. }
  lia.
Qed.

Lemma toordinal_inj a b :
  wf_date a = true -> wf_date b = true -> toordinal a = toordinal b -> a = b.
Proof.
  intros Ha Hb E. rewrite <- (ord2ymd_toordinal a Ha), <- (ord2ymd_toordinal b Hb).
  now rewrite E.
Qed.

(** The daily loop walks the calendar. *)
Lemma daily_loop_walk n :
  forall fuel inc_date end_date acc,
    wf_date inc_date = true -> wf_date end_date = true ->
    toordinal end_date = toordinal inc_date + Z.of_nat n ->
    toordinal end_date <= MAXORDINAL ->
    (n <= fuel)%nat ->
    daily_loop fuel inc_date end_date acc = Ok (acc ++ walk n inc_date).
Proof.
  induction n as [|n IH]; intros fuel inc e acc Hi He Hord Hmax Hfuel.
  - assert (inc = e) as -> by (apply toordinal_inj; [done|done|lia]).
    destruct fuel; simpl; rewrite (proj2 (eqb_eq e e) eq_refl); simpl;
      now rewrite app_nil_r.
  - destruct fuel as [|fuel]; [lia|]. simpl.
    destruct (eqb inc e) eqn:E.
    { apply eqb_eq in E. subst. lia. }
    simpl. unfold add_days.
    pose proof (toordinal_pos _ Hi).
    replace ((0 <? toordinal inc + 1) && (toordinal inc + 1 <=? MAXORDINAL))
      with true by lia.
    simpl. rewrite ord2ymd_succ by done.
    rewrite IH; [|now apply wf_next_day|done|rewrite toordinal_next_day by done; lia|done|lia].
    now rewrite <- app_assoc.
Qed.

Lemma ltb_spec (a b : date) :
  ltb a b = true <-> chron_lt (rd_of_date a) (rd_of_date b).
Proof.
  unfold ltb, chron_lt. simpl.
  rewrite !orb_true_iff, !andb_true_iff, !orb_true_iff, !andb_true_iff,
    !Z.ltb_lt, !Z.eqb_eq. reflexivity.
Qed.

Lemma chron_lt_trans a b c : chron_lt a b -> chron_lt b c -> chron_lt a c.
Proof. unfold chron_lt. lia. Qed.

Lemma chron_lt_irrefl a : ~ chron_lt a a.
Proof. unfold chron_lt. lia. Qed.

Lemma ltb_next_day d : wf_date d = true -> ltb d (next_day d) = true.
Proof.
  intros Hwf. apply wf_date_spec in Hwf as (Hy & Hm & Hd).
  apply ltb_spec. unfold chron_lt, next_day. simpl.
  destruct (dday d <? days_in_month (dyear d) (dmonth d)) eqn:E1; simpl; [lia|].
  destruct (dmonth d <? 12) eqn:E2; simpl; lia.
Qed.

Lemma wf_iter_next n d :
  wf_date d = true -> wf_date (days_later n d) = true.
Proof. intros H. induction n; simpl; [done|now apply wf_next_day]. Qed.

Lemma toordinal_iter_next n d :
  wf_date d = true ->
  toordinal (days_later n d) = toordinal d + Z.of_nat n.
Proof.
  intros H. induction n as [|n IH]; [simpl; lia|].
  cbn [days_later]. rewrite toordinal_next_day by now apply wf_iter_next.
  rewrite IH. lia.
Qed.

Lemma ltb_iter_next n d :
  wf_date d = true -> ltb d (days_later (S n) d) = true.
Proof.
  intros H. induction n as [|n IH]; [now apply ltb_next_day|].
  apply ltb_spec. eapply chron_lt_trans; [apply ltb_spec, IH|].
  apply ltb_spec, ltb_next_day. now apply (wf_iter_next (S n)).
Qed.

(** The order of dates is the order of their ordinals. *)
Lemma toordinal_lt_ltb a b :
  wf_date a = true -> wf_date b = true ->
  toordinal a < toordinal b -> ltb a b = true.
Proof.
  intros Ha Hb Hlt.
  assert (E : b = days_later (S (Z.to_nat (toordinal b - toordinal a - 1))) a).
  { apply toordinal_inj; [done|now apply wf_iter_next|].
    rewrite toordinal_iter_next by done. lia. }
  rewrite E. now apply ltb_iter_next.
Qed.

Lemma ltb_false_toordinal a b :
  wf_date a = true -> wf_date b = true ->
  ltb a b = false -> toordinal b <= toordinal a.
Proof.
  intros Ha Hb Hf. destruct (Z_le_gt_dec (toordinal b) (toordinal a)); [done|].
  rewrite toordinal_lt_ltb in Hf; [discriminate|done|done|lia].
Qed.

Lemma ltb_true_toordinal a b :
  wf_date a = true -> wf_date b = true ->
  ltb a b = true -> toordinal a < toordinal b.
Proof.
  intros Ha Hb Ht. destruct (Z_lt_le_dec (toordinal a) (toordinal b)); [done|].
  destruct (Z.eq_dec (toordinal a) (toordinal b)) as [E|E].
  - apply toordinal_inj in E; [|done|done]. subst.
    apply ltb_spec in Ht. now apply chron_lt_irrefl in Ht.
  - assert (Hba : ltb b a = true) by (apply toordinal_lt_ltb; [done|done|lia]).
    apply ltb_spec in Ht, Hba.
    exfalso. apply (chron_lt_irrefl (rd_of_date a)).
    eapply chron_lt_trans; eassumption.
Qed.

(** *** Sequences in chronological order *)

Lemma sorted_map_seq_rel {A : Type} (R : A -> A -> Prop) (f : nat -> A) a n :
  (forall i j, (i < j)%nat -> R (f i) (f j)) ->
  StronglySorted R (map f (seq a n)).
Proof.
  intros Hf. revert a. induction n as [|n IH]; intros a; simpl; constructor.
  - apply IH.
  - apply Forall_forall. intros x Hx.
    apply list_elem_of_In, in_map_iff in Hx as (j & <- & Hj).
    apply in_seq in Hj. apply Hf. lia.
Qed.

Lemma sorted_NoDup (l : list RequestDate) :
  StronglySorted chron_lt l -> NoDup l.
Proof.
  induction 1 as [|x l Hs IH Hall]; constructor; [|done].
  intros Hin. rewrite Forall_forall in Hall.
  apply (chron_lt_irrefl x). now apply Hall.
Qed.

Lemma year_seq_sorted s n : StronglySorted chron_lt (year_seq s n).
Proof.
  apply sorted_map_seq_rel. intros i j Hij. unfold chron_lt. simpl. lia.
Qed.

Lemma month_seq_sorted y0 k n :
  0 <= k -> StronglySorted chron_lt (month_seq y0 k n).
Proof.
  intros Hk. apply sorted_map_seq_rel. intros i j Hij.
  unfold chron_lt. simpl.
  assert (Hij' : k + Z.of_nat i < k + Z.of_nat j) by lia.
  generalize dependent (k + Z.of_nat i). generalize dependent (k + Z.of_nat j).
  intros b a Hab.
  pose proof (Z.div_mod a 12 ltac:(lia)). pose proof (Z.div_mod b 12 ltac:(lia)).
  pose proof (Z.mod_pos_bound a 12 ltac:(lia)).
  pose proof (Z.mod_pos_bound b 12 ltac:(lia)).
  lia.
Qed.

Lemma walk_Forall n : forall d x,
  wf_date d = true -> chron_lt x (rd_of_date d) ->
  Forall (chron_lt x) (walk n d).
Proof.
  induction n as [|n IH]; intros d x Hwf Hlt; simpl; constructor; [done|].
  apply IH; [now apply wf_next_day|].
  eapply chron_lt_trans; [exact Hlt|]. now apply ltb_spec, ltb_next_day.
Qed.

Lemma walk_sorted n : forall d,
  wf_date d = true -> StronglySorted chron_lt (walk n d).
Proof.
  induction n as [|n IH]; intros d Hwf; simpl; constructor.
  - apply IH. now apply wf_next_day.
  - apply walk_Forall; [now apply wf_next_day|]. now apply ltb_spec, ltb_next_day.
Qed.

Lemma walk_calendar n : forall d e,
  wf_date d = true -> wf_date e = true ->
  toordinal e = toordinal d + Z.of_nat n ->
  calendar_walk e d (walk (S n) d).
Proof.
  induction n as [|n IH]; intros d e Hd He Hord.
  - assert (d = e) as -> by (apply toordinal_inj; [done|done|lia]).
    simpl. constructor.
  - cbn [walk]. constructor.
    + intros ->. lia.
    + apply IH; [now apply wf_next_day|done|].
      rewrite toordinal_next_day by done. lia.
Qed.

(** *** The monthly loop *)

Lemma month_seq_cons y0 k n :
  month_seq y0 k (S n)
  = mkRequestDate (y0 + k / 12) (Some (k mod 12 + 1)) None :: month_seq y0 (k + 1) n.
Proof.
  unfold month_seq. cbn [seq map]. rewrite <- seq_shift, map_map.
  replace (k + Z.of_nat 0) with k by lia. f_equal.
  apply map_ext. intros i.
  now replace (k + Z.of_nat (S i)) with (k + 1 + Z.of_nat i) by lia.
Qed.

Lemma monthly_loop_seq start_y end_y end_m n :
  forall fuel cur_y cur_m m_cnt acc,
    cur_y = start_y + m_cnt / 12 -> cur_m = m_cnt mod 12 + 1 ->
    end_y * 12 + end_m = start_y * 12 + m_cnt + Z.of_nat n ->
    (n <= fuel)%nat ->
    monthly_loop fuel start_y end_y end_m cur_y cur_m m_cnt acc
    = Ok (acc ++ month_seq start_y m_cnt n).
Proof.
  induction n as [|n IH]; intros fuel cur_y cur_m m_cnt acc Hy Hm Hend Hfuel.
  - assert (Hc : (cur_y * 12 + cur_m <=? end_y * 12 + end_m) = false).
    { subst. apply Z.leb_gt. Z.div_mod_to_equations. lia. }
    destruct fuel; simpl; rewrite Hc; now rewrite app_nil_r.
  - destruct fuel as [|fuel]; [lia|]. simpl.
    assert (Hc : (cur_y * 12 + cur_m <=? end_y * 12 + end_m) = true).
    { subst. apply Z.leb_le. Z.div_mod_to_equations. lia. }
    rewrite Hc. rewrite IH; [|done|done|lia|lia].
    rewrite month_seq_cons, <- app_assoc. subst. reflexivity.
Qed.

(** *** What a successful parse returns *)

Lemma new_Ok y m d dt :
  PyDate.new y m d = Ok dt ->
  dt = mkDate y m d /\ valid y m d = true /\ wf_date dt = true.
Proof.
  unfold PyDate.new. intros H.
  destruct ((MINYEAR <=? y) && (y <=? MAXYEAR)) eqn:E1; simpl in H; [|discriminate].
  destruct ((1 <=? m) && (m <=? 12)) eqn:E2; simpl in H; [|discriminate].
  destruct ((1 <=? d) && (d <=? days_in_month y m)) eqn:E3; simpl in H; [|discriminate].
  injection H as <-. split; [done|].
  rewrite andb_true_iff, !Z.leb_le in E1, E2, E3.
  split.
  - unfold valid. rewrite !andb_true_iff, !Z.leb_le. lia.
  - apply wf_date_spec. simpl. unfold MINYEAR in *. lia.
Qed.

Lemma new_valid y m d :
  valid y m d = true -> PyDate.new y m d = Ok (mkDate y m d).
Proof.
  unfold PyDate.new, valid. rewrite !andb_true_iff.
  intros [[[[[H1 H2] H3] H4] H5] H6]. now rewrite H1, H2, H3, H4, H5, H6.
Qed.

Lemma add_days_one d d' :
  wf_date d = true -> add_days d 1 = Ok d' ->
  d' = next_day d /\ toordinal d + 1 <= MAXORDINAL.
Proof.
  intros Hwf. unfold add_days.
  destruct ((0 <? toordinal d + 1) && (toordinal d + 1 <=? MAXORDINAL)) eqn:E;
    [|discriminate].
  intros [= <-]. rewrite ord2ymd_succ by done. split; [done|lia].
Qed.

Lemma year_seq_range s e :
  map (fun y => mkRequestDate y None None) (py_range2 s e)
  = year_seq s (Z.to_nat (e - s)).
Proof. unfold py_range2, year_seq. now rewrite map_map. Qed.

Lemma daily_dates inc_date end_date :
  wf_date inc_date = true -> wf_date end_date = true ->
  ltb end_date inc_date = false ->
  toordinal end_date < MAXORDINAL ->
  (let* end_date := add_days end_date 1 in
   let fuel := Z.to_nat (toordinal end_date - toordinal inc_date) in
   let* dates := daily_loop fuel inc_date end_date [] in
   Ok (dates, DAILY))
  = Ok (walk (S (Z.to_nat (toordinal end_date - toordinal inc_date))) inc_date, DAILY).
Proof.
  intros Hi He Hlt Hmax.
  pose proof (ltb_false_toordinal _ _ He Hi Hlt) as Hord.
  unfold add_days.
  pose proof (toordinal_pos _ He).
  replace ((0 <? toordinal end_date + 1) && (toordinal end_date + 1 <=? MAXORDINAL))
    with true by lia.
  rewrite bind_Ok. cbv zeta. rewrite ord2ymd_succ by done.
  rewrite toordinal_next_day by done.
  rewrite (daily_loop_walk (S (Z.to_nat (toordinal end_date - toordinal inc_date))));
    [done|done|now apply wf_next_day| | |lia].
  - rewrite toordinal_next_day by done. lia.
  - rewrite toordinal_next_day by done. lia.
Qed.

Lemma parseSimple_Ok ds de dates grain :
  _parseSimpleDateRange ds de = Ok (dates, grain) ->
  (grain = ANNUAL /\ exists s n, dates = year_seq s (S n))
  \/ (grain = MONTHLY /\ exists y0 k n, 0 <= k /\ dates = month_seq y0 k (S n))
  \/ (grain = DAILY /\ exists d n, wf_date d = true /\ dates = walk (S n) d).
Proof.
  unfold _parseSimpleDateRange. cbv zeta. intros H.
  destruct (String.eqb (default EmptyString ds) "" || String.eqb (default EmptyString de) "");
    [discriminate|].
  destruct ((String.length (default EmptyString ds) =? 4)%nat
            && (String.length (default EmptyString de) =? 4)%nat).
  { left. inv_result H. injection H as <- <-. split; [done|].
    rewrite year_seq_range. exists a, (Z.to_nat (a0 + 1 - a - 1)).
    f_equal. lia. }
  destruct ((String.length (default EmptyString ds) =? 7)%nat
            && (String.length (default EmptyString de) =? 7)%nat).
  { right. left. inv_result H. injection H as <- <-. split; [done|].
    apply orb_false_iff in E as [E E']. apply orb_false_iff in E0 as [E0 E0'].
    rewrite (monthly_loop_seq z z1 z2
               (Z.to_nat (z1 * 12 + z2 - (z * 12 + z0) + 1))) in Ha3.
    - injection Ha3 as <-. exists z, (z0 - 1), (Z.to_nat (z1 * 12 + z2 - (z * 12 + z0))).
      split; [lia|]. simpl. f_equal. lia.
    - rewrite Z.div_small by lia. lia.
    - rewrite Z.mod_small by lia. lia.
    - lia.
    - lia. }
  destruct ((String.length (default EmptyString ds) =? 10)%nat
            && (String.length (default EmptyString de) =? 10)%nat); [|discriminate].
  right. right.
  apply bind_Ok_inv in H as (s & Hs & H).
  apply bind_Ok_inv in H as ([[sy sm] sd] & Hus & H).
  apply bind_Ok_inv in H as (e & He & H).
  apply bind_Ok_inv in H as ([[ey em] ed] & Hue & H).
  apply bind_Ok_inv in H as (inc & Hinc & H).
  apply bind_Ok_inv in H as (en & Hen & H).
  destruct (ltb en inc) eqn:Hlt; [discriminate|].
  apply new_Ok in Hinc as (_ & _ & Hwi). apply new_Ok in Hen as (_ & _ & Hwe).
  destruct (add_days en 1) as [en'| |] eqn:Hadd; [|discriminate|discriminate].
  pose proof (add_days_one _ _ Hwe Hadd) as [-> Hmax].
  rewrite <- Hadd in H. rewrite daily_dates in H; [|done|done|done|lia].
  injection H as <- <-. split; [done|]. eauto.
Qed.

Lemma walk_nonempty n d : walk (S n) d <> [].
Proof. discriminate. Qed.

Lemma parseSimple_selection_ok ds de dates grain :
  _parseSimpleDateRange ds de = Ok (dates, grain) -> selection_ok dates grain.
Proof.
  intros H. apply parseSimple_Ok in H.
  destruct H as [[-> (s & n & ->)]|[[-> (y0 & k & n & Hk & ->)]|[-> (d & n & Hwf & ->)]]].
  - pose proof (year_seq_sorted s (S n)) as Hs.
    split; [split; discriminate|]. split; [done|now apply sorted_NoDup].
  - pose proof (month_seq_sorted y0 k (S n) Hk) as Hs.
    split; [split; discriminate|]. split; [done|now apply sorted_NoDup].
  - pose proof (walk_sorted (S n) d Hwf) as Hs.
    split; [split; discriminate|]. split; [done|now apply sorted_NoDup].
Qed.

End SimpleRangeFacts.


(** ** Insertion-ordered dictionaries with ascending keys *)

Section DictFacts.

Import DateSpec.

Context {V : Type}.

Implicit Types (d : list (Z * V)) (k : Z) (v : V).

Lemma dict_get_fresh k d : keys_below k d -> dict_get k d = None.
Proof.
  induction 1 as [|[k' v'] d Hk _ IH]; simpl; [done|].
  simpl in Hk. destruct (decide (k' = k)); [lia|done].
Qed.

Lemma dict_set_fresh k v d : keys_below k d -> dict_set k v d = d ++ [(k, v)].
Proof.
  induction 1 as [|[k' v'] d Hk _ IH]; simpl; [done|].
  simpl in Hk. destruct (decide (k' = k)); [lia|]. now rewrite IH.
Qed.

Lemma dict_get_last k v d : keys_below k d -> dict_get k (d ++ [(k, v)]) = Some v.
Proof.
  induction 1 as [|[k' v'] d Hk _ IH]; simpl.
  - destruct (decide (k = k)); done.
  - simpl in Hk. destruct (decide (k' = k)); [lia|done].
Qed.

Lemma dict_set_last k v v' d :
  keys_below k d -> dict_set k v' (d ++ [(k, v)]) = d ++ [(k, v')].
Proof.
  induction 1 as [|[k' v0] d Hk _ IH]; simpl.
  - destruct (decide (k = k)); done.
  - simpl in Hk. destruct (decide (k' = k)); [lia|]. now rewrite IH.
Qed.

Lemma keys_below_mono k k' d : k <= k' -> keys_below k d -> keys_below k' d.
Proof.
  intros Hk H. eapply Forall_impl; [exact H|]. intros kv. simpl. lia.
Qed.

Lemma keys_below_snoc k k' v d :
  keys_below k d -> k' < k -> keys_below k (d ++ [(k', v)]).
Proof.
  intros Hd Hk. apply Forall_app. split; [done|]. repeat constructor. done.
Qed.

End DictFacts.

Lemma keys_below_nil {V : Type} (k : Z) : DateSpec.keys_below k ([] : list (Z * V)).
Proof. constructor. Qed.

(** ** The legacy parser against the current one *)

Module LegacyFacts.

Import PyDate Calendar CalendarFacts DateSpec SimpleRangeFacts Legacy.

Lemma flatten_app a b : flatten (a ++ b) = flatten a ++ flatten b.
Proof. unfold flatten. apply flat_map_app. Qed.

Lemma flatten_snoc t entry : flatten (t ++ [entry]) = flatten t ++ flatten_year entry.
Proof. rewrite flatten_app. unfold flatten at 2. simpl. now rewrite app_nil_r. Qed.

Lemma flatten_months_snoc y months entry :
  months <> [] ->
  flatten_year (y, months ++ [entry])
  = flatten_year (y, months) ++ flatten_month y entry.
Proof.
  intros Hne. unfold flatten_year.
  destruct months as [|e ms]; [done|].
  rewrite flat_map_app. simpl. now rewrite app_nil_r.
Qed.

Lemma dict_mem_fresh {V : Type} k (d : list (Z * V)) :
  keys_below k d -> dict_mem k d = false.
Proof. intros H. unfold dict_mem. now rewrite dict_get_fresh. Qed.

Lemma dict_mem_last {V : Type} k (v : V) (d : list (Z * V)) :
  keys_below k d -> dict_mem k (d ++ [(k, v)]) = true.
Proof. intros H. unfold dict_mem. now rewrite dict_get_last. Qed.

(** Adding the next month appends one monthly date to the flattened tree
    and keeps the tree in shape for any later month. *)
Lemma add_month_spec t y m :
  month_tree_inv t y m ->
  exists t', add_month y m t = Ok t'
    /\ flatten t' = flatten t ++ [mkRequestDate y (Some m) None]
    /\ forall y2 m2, y < y2 \/ (y = y2 /\ m < m2) -> month_tree_inv t' y2 m2.
Proof.
  intros [->|(front & y' & months & -> & Hne & Hfront & [Hlt|[-> Hm]])].
  - exists [(y, [(m, [])])]. unfold add_month. simpl.
    unfold getitem. simpl. destruct (decide (y = y)); [|done]. simpl.
    destruct (decide (y = y)); [|done].
    split; [done|]. split; [done|].
    intros y2 m2 H. right. exists [], y, [(m, [])].
    split; [done|]. split; [done|]. split; [constructor|].
    destruct H as [H|[<- H]]; [now left|right]. split; [done|].
    repeat constructor. done.
  - assert (Hall : keys_below y (front ++ [(y', months)])).
    { apply keys_below_snoc; [|done]. eapply keys_below_mono; [|exact Hfront]. lia. }
    exists ((front ++ [(y', months)]) ++ [(y, [(m, [])])]).
    unfold add_month. rewrite dict_mem_fresh by done. simpl negb. cbv iota.
    rewrite dict_set_fresh by done.
    unfold getitem. rewrite dict_get_last by done. simpl bind.
    rewrite dict_set_last by done.
    split; [done|]. split.
    + now rewrite flatten_snoc.
    + intros y2 m2 H. right. exists (front ++ [(y', months)]), y, [(m, [])].
      split; [done|]. split; [done|]. split; [done|].
      destruct H as [H|[<- H]]; [now left|right]. split; [done|].
      repeat constructor. done.
  - exists (front ++ [(y, months ++ [(m, [])])]).
    unfold add_month. rewrite dict_mem_last by done. simpl negb. cbv iota.
    unfold getitem. rewrite dict_get_last by done. simpl bind.
    rewrite dict_set_last by done. rewrite dict_set_fresh by done.
    split; [done|]. split.
    + rewrite !flatten_snoc, flatten_months_snoc by done.
      now rewrite app_assoc.
    + intros y2 m2 H. right. exists front, y, (months ++ [(m, [])]).
      split; [done|]. split; [now destruct months|]. split; [done|].
      destruct H as [H|[<- H]]; [now left|right]. split; [done|].
      apply keys_below_snoc; [|done]. eapply keys_below_mono; [|exact Hm]. lia.
Qed.

Lemma flatten_year_snoc y months entry :
  flatten_year (y, months ++ [entry])
  = flat_map (flatten_month y) months ++ flatten_month y entry.
Proof.
  unfold flatten_year. rewrite flat_map_app. simpl. rewrite app_nil_r.
  now destruct months.
Qed.

Lemma flatten_month_snoc y m days d :
  days <> [] ->
  flatten_month y (m, days ++ [d])
  = flatten_month y (m, days) ++ [mkRequestDate y (Some m) (Some d)].
Proof.
  intros Hne. unfold flatten_month. destruct days as [|x ds]; [done|].
  simpl. now rewrite map_app.
Qed.

(** Adding the next day appends one daily date to the flattened tree and
    keeps the tree in shape for any day of the same or a later month. *)
Lemma add_day_spec t d :
  day_tree_inv t (dyear d) (dmonth d) ->
  exists t', add_day d t = Ok t'
    /\ flatten t' = flatten t ++ [rd_of_date d]
    /\ forall y2 m2,
         dyear d < y2 \/ (dyear d = y2 /\ dmonth d <= m2) -> day_tree_inv t' y2 m2.
Proof.
  destruct d as [y m dd]. simpl.
  assert (Hnext : forall front months,
             keys_below y front -> keys_below m months ->
             forall y2 m2, y < y2 \/ (y = y2 /\ m <= m2) ->
             forall ds, ds <> [] ->
             day_tree_inv (front ++ [(y, months ++ [(m, ds)])]) y2 m2).
  { intros front months Hf Hm y2 m2 H ds Hds. right.
    exists front, y, months, m, ds.
    split; [done|]. split; [done|]. split; [done|]. split; [done|].
    destruct H as [H|[<- H]]; [now left|now right]. }
  intros [->|(front & y' & mfront & m' & days & -> & Hne & Hfront & Hmf & Hpos)].
  - exists [(y, [(m, [dd])])]. unfold add_day. simpl.
    unfold getitem. simpl. destruct (decide (y = y)); [|done]. simpl.
    destruct (decide (m = m)); [|done]. simpl.
    destruct (decide (y = y)); [|done]. destruct (decide (m = m)); [|done].
    split; [done|]. split; [done|].
    intros y2 m2 H. apply (Hnext [] []); try done; constructor.
  - destruct Hpos as [Hlt|[-> Hle]].
    + (* a new year *)
      set (t := front ++ [(y', mfront ++ [(m', days)])]).
      assert (Hall : keys_below y t).
      { apply keys_below_snoc; [|done]. eapply keys_below_mono; [|exact Hfront]. lia. }
      exists (t ++ [(y, [(m, [dd])])]).
      unfold add_day. cbn [dyear dmonth dday]. cbv zeta.
      rewrite dict_mem_fresh by done. simpl negb. cbv iota.
      rewrite dict_set_fresh by done.
      unfold getitem. rewrite dict_get_last by done. rewrite bind_Ok.
      simpl dict_mem. simpl negb. cbv iota. simpl dict_set at 2. simpl dict_get.
      destruct (decide (m = m)); [|done]. rewrite bind_Ok.
      rewrite dict_set_last by done. simpl.
      destruct (decide (m = m)); [|done].
      split; [done|]. split; [now rewrite flatten_snoc|].
      intros y2 m2 H. apply (Hnext t []); try done; constructor.
    + set (months := mfront ++ [(m', days)]).
      assert (Hmne : months <> []) by (subst months; now destruct mfront).
      destruct (Z.eq_dec m' m) as [->|Hm'].
      * (* the same month *)
        exists (front ++ [(y, mfront ++ [(m, days ++ [dd])])]).
        unfold add_day. cbn [dyear dmonth dday]. cbv zeta.
        rewrite dict_mem_last by done. simpl negb. cbv iota.
        unfold getitem. rewrite dict_get_last by done. rewrite bind_Ok.
        fold months. subst months.
        rewrite dict_mem_last by done. simpl negb. cbv iota.
        rewrite dict_get_last by done. rewrite bind_Ok.
        rewrite (dict_set_last m days) by done.
        rewrite dict_set_last by done.
        split; [done|]. split.
        -- rewrite !flatten_snoc, !flatten_year_snoc, flatten_month_snoc by done.
           unfold rd_of_date. cbn [dyear dmonth dday].
           rewrite <- !app_assoc. reflexivity.
        -- intros y2 m2 H. apply Hnext; try done. now destruct days.
      * (* a new month of the same year *)
        assert (Hmm : keys_below m months).
        { subst months. apply keys_below_snoc; [|lia].
          eapply keys_below_mono; [|exact Hmf]. lia. }
        exists (front ++ [(y, months ++ [(m, [dd])])]).
        unfold add_day. cbn [dyear dmonth dday]. cbv zeta.
        rewrite dict_mem_last by done. simpl negb. cbv iota.
        unfold getitem. rewrite dict_get_last by done. rewrite bind_Ok.
        fold months.
        rewrite dict_mem_fresh by done. simpl negb. cbv iota.
        rewrite dict_set_fresh by done.
        rewrite dict_get_last by done. rewrite bind_Ok.
        rewrite (dict_set_last m) by done.
        rewrite dict_set_last by done.
        split; [done|]. split.
        -- rewrite !flatten_snoc, flatten_year_snoc.
           unfold flatten_year. destruct months as [|e ms]; [done|].
           unfold rd_of_date. cbn [dyear dmonth dday flatten_month].
           rewrite <- !app_assoc. reflexivity.
        -- intros y2 m2 H. now apply Hnext.
Qed.

Lemma legacy_monthly_loop start_y end_y end_m n :
  forall fuel cur_y cur_m m_cnt acc,
    cur_y = start_y + m_cnt / 12 -> cur_m = m_cnt mod 12 + 1 ->
    end_y * 12 + end_m = start_y * 12 + m_cnt + Z.of_nat n ->
    (n <= fuel)%nat ->
    month_tree_inv acc cur_y cur_m ->
    exists t,
      monthly_loop fuel start_y end_y end_m cur_y cur_m m_cnt acc = Ok t
      /\ flatten t = flatten acc ++ month_seq start_y m_cnt n.
Proof.
  induction n as [|n IH]; intros fuel cur_y cur_m m_cnt acc Hy Hm Hend Hfuel Hinv.
  - assert (Hc : (cur_y * 12 + cur_m <=? end_y * 12 + end_m) = false).
    { subst. apply Z.leb_gt. Z.div_mod_to_equations. lia. }
    exists acc. split; [destruct fuel; simpl; now rewrite Hc|].
    unfold month_seq. simpl. now rewrite app_nil_r.
  - destruct fuel as [|fuel]; [lia|]. simpl.
    assert (Hc : (cur_y * 12 + cur_m <=? end_y * 12 + end_m) = true).
    { subst. apply Z.leb_le. Z.div_mod_to_equations. lia. }
    rewrite Hc.
    destruct (add_month_spec acc cur_y cur_m Hinv) as (t1 & -> & Hflat & Hnext).
    rewrite bind_Ok.
    destruct (IH fuel (start_y + (m_cnt + 1) / 12) ((m_cnt + 1) mod 12 + 1)
                (m_cnt + 1) t1) as (t & Ht & Hft); [done|done|lia|lia| |].
    { apply Hnext. subst.
      pose proof (Z.div_mod m_cnt 12 ltac:(lia)).
      pose proof (Z.div_mod (m_cnt + 1) 12 ltac:(lia)).
      pose proof (Z.mod_pos_bound m_cnt 12 ltac:(lia)).
      pose proof (Z.mod_pos_bound (m_cnt + 1) 12 ltac:(lia)).
      lia. }
    exists t. split; [done|].
    rewrite Hft, Hflat, month_seq_cons, <- app_assoc. subst. reflexivity.
Qed.

Lemma next_day_month d :
  wf_date d = true ->
  dyear d < dyear (next_day d)
  \/ (dyear d = dyear (next_day d) /\ dmonth d <= dmonth (next_day d)).
Proof.
  intros Hwf. apply wf_date_spec in Hwf as (Hy & Hm & Hd).
  unfold next_day.
  destruct (dday d <? days_in_month (dyear d) (dmonth d)); simpl; [lia|].
  destruct (dmonth d <? 12); simpl; lia.
Qed.

Lemma legacy_daily_loop n :
  forall fuel inc_date end_date acc,
    wf_date inc_date = true -> wf_date end_date = true ->
    toordinal end_date = toordinal inc_date + Z.of_nat n ->
    toordinal end_date <= MAXORDINAL ->
    (n <= fuel)%nat ->
    day_tree_inv acc (dyear inc_date) (dmonth inc_date) ->
    exists t,
      daily_loop fuel inc_date end_date acc = Ok t
      /\ flatten t = flatten acc ++ walk n inc_date.
Proof.
  induction n as [|n IH]; intros fuel inc e acc Hi He Hord Hmax Hfuel Hinv.
  - assert (inc = e) as -> by (apply toordinal_inj; [done|done|lia]).
    exists acc. split; [|simpl; now rewrite app_nil_r].
    destruct fuel; simpl; now rewrite (proj2 (eqb_eq e e) eq_refl).
  - destruct fuel as [|fuel]; [lia|]. simpl.
    destruct (eqb inc e) eqn:E.
    { apply eqb_eq in E. subst. lia. }
    simpl negb. cbv iota.
    destruct (add_day_spec acc inc Hinv) as (t1 & -> & Hflat & Hnext).
    rewrite bind_Ok. unfold add_days.
    pose proof (toordinal_pos _ Hi).
    replace ((0 <? toordinal inc + 1) && (toordinal inc + 1 <=? MAXORDINAL))
      with true by lia.
    rewrite bind_Ok, ord2ymd_succ by done.
    destruct (IH fuel (next_day inc) e t1) as (t & Ht & Hft);
      [now apply wf_next_day|done|rewrite toordinal_next_day by done; lia|done|lia| |].
    { apply Hnext. now apply next_day_month. }
    exists t. split; [done|]. rewrite Hft, Hflat, <- app_assoc. reflexivity.
Qed.

Lemma legacy_annual_fold s n : forall a acc,
  keys_below (s + Z.of_nat a) acc ->
  fold_left (fun (dates : date_tree) y => dict_set y [] dates)
    (map (fun i => s + Z.of_nat i) (seq a n)) acc
  = acc ++ map (fun i => (s + Z.of_nat i, [])) (seq a n).
Proof.
  induction n as [|n IH]; intros a acc Hacc; simpl; [now rewrite app_nil_r|].
  rewrite dict_set_fresh by done. rewrite IH.
  - now rewrite <- app_assoc.
  - apply keys_below_snoc; [|lia]. eapply keys_below_mono; [|exact Hacc]. lia.
Qed.

Lemma legacy_annual s e :
  flatten (fold_left (fun (dates : date_tree) y => dict_set y [] dates)
             (py_range2 s e) [])
  = map (fun y => mkRequestDate y None None) (py_range2 s e).
Proof.
  unfold py_range2. rewrite legacy_annual_fold by constructor. simpl.
  rewrite map_map. unfold flatten.
  induction (seq 0 (Z.to_nat (e - s))) as [|i l IH]; simpl; [done|now rewrite IH].
Qed.

(** *** Both parsers, step by step *)

Import LegacySpec.

Lemma same_bind {A : Type} (m : result A)
    (k1 : A -> result (date_tree * Z)) (k2 : A -> result (list RequestDate * Z)) :
  m <> Diverge ->
  (forall a, m = Ok a -> same_outcome (k1 a) (k2 a)) ->
  same_outcome (bind m k1) (bind m k2).
Proof. destruct m as [a|e|]; simpl; [auto|done|done]. Qed.

Lemma both_len_Some n ds de :
  both_len n (Some ds) (Some de)
  = Ok ((String.length ds =? n)%nat && (String.length de =? n)%nat).
Proof. unfold both_len. simpl. now destruct (String.length ds =? n)%nat. Qed.

Lemma eqb_empty_length s : String.eqb s "" = true -> String.length s = 0%nat.
Proof. intros H. apply String.eqb_eq in H. now subst. Qed.

Lemma legacy_agrees_Some ds de :
  same_outcome (_parse_dates (Some ds) (Some de))
               (SimpleRange._parseSimpleDateRange (Some ds) (Some de)).
Proof.
  unfold _parse_dates, SimpleRange._parseSimpleDateRange. cbv zeta.
  rewrite !both_len_Some. simpl default. rewrite !bind_Ok.
  destruct (String.eqb ds "" || String.eqb de "") eqn:Eempty.
  { assert (Hl : String.length ds = 0%nat \/ String.length de = 0%nat).
    { apply orb_true_iff in Eempty as [H|H]; [left|right]; now apply eqb_empty_length. }
    destruct Hl as [-> | ->]; simpl; rewrite ?andb_false_r; simpl; done. }
  destruct ((String.length ds =? 4)%nat && (String.length de =? 4)%nat).
  { apply same_bind; [apply int_total|intros start _].
    apply same_bind; [apply int_total|intros e _].
    destruct (e + 1 <=? start); [done|].
    simpl. split; [apply legacy_annual|done]. }
  destruct ((String.length ds =? 7)%nat && (String.length de =? 7)%nat).
  { apply same_bind; [apply mapM_int_total|intros s _].
    apply same_bind; [apply unpack2_total|intros [start_y start_m] _].
    apply same_bind; [apply mapM_int_total|intros e _].
    apply same_bind; [apply unpack2_total|intros [end_y end_m] _].
    destruct ((start_m <? 1) || (12 <? start_m)) eqn:E1; [done|].
    destruct ((end_m <? 1) || (12 <? end_m)) eqn:E2; [done|].
    destruct (end_y * 12 + end_m <? start_y * 12 + start_m) eqn:E3; [done|].
    apply orb_false_iff in E1 as [E1 E1']. apply orb_false_iff in E2 as [E2 E2'].
    set (n := Z.to_nat (end_y * 12 + end_m - (start_y * 12 + start_m) + 1)).
    assert (Hy : start_y = start_y + (start_m - 1) / 12)
      by (rewrite Z.div_small by lia; lia).
    assert (Hm : start_m = (start_m - 1) mod 12 + 1)
      by (rewrite Z.mod_small by lia; lia).
    assert (Hend : end_y * 12 + end_m = start_y * 12 + (start_m - 1) + Z.of_nat n)
      by lia.
    rewrite (monthly_loop_seq start_y end_y end_m n n start_y start_m (start_m - 1) []
               Hy Hm Hend (le_n n)).
    destruct (legacy_monthly_loop start_y end_y end_m n n start_y start_m
                (start_m - 1) [] Hy Hm Hend (le_n n) (or_introl eq_refl))
      as (t & -> & Hflat).
    simpl. split; [exact Hflat|done]. }
  destruct ((String.length ds =? 10)%nat && (String.length de =? 10)%nat); [|done].
  apply same_bind; [apply mapM_int_total|intros s _].
  apply same_bind; [apply unpack3_total|intros [[start_y start_m] start_d] _].
  apply same_bind; [apply mapM_int_total|intros e _].
  apply same_bind; [apply unpack3_total|intros [[end_y end_m] end_d] _].
  apply same_bind; [apply new_total|intros inc Hinc].
  apply same_bind; [apply new_total|intros en Hen].
  destruct (ltb en inc) eqn:Hlt; [done|].
  apply new_Ok in Hinc as (_ & _ & Hwi). apply new_Ok in Hen as (_ & _ & Hwe).
  apply same_bind; [apply add_days_total|intros en' Hadd].
  apply add_days_one in Hadd as [-> Hmax]; [|done].
  pose proof (ltb_false_toordinal _ _ Hwe Hwi Hlt) as Hord.
  cbv zeta. rewrite toordinal_next_day by done.
  set (n := Z.to_nat (toordinal en + 1 - toordinal inc)).
  assert (Hend : toordinal (next_day en) = toordinal inc + Z.of_nat n)
    by (rewrite toordinal_next_day by done; lia).
  assert (Hmax' : toordinal (next_day en) <= MAXORDINAL)
    by (rewrite toordinal_next_day by done; lia).
  rewrite (daily_loop_walk n n inc (next_day en) [] Hwi (wf_next_day _ Hwe)
             Hend Hmax' (le_n n)).
  destruct (legacy_daily_loop n n inc (next_day en) [] Hwi (wf_next_day _ Hwe)
              Hend Hmax' (le_n n) (or_introl eq_refl)) as (t & -> & Hflat).
  simpl. split; [exact Hflat|done].
Qed.

Lemma legacy_agrees ds de :
  same_outcome (_parse_dates ds de) (SimpleRange._parseSimpleDateRange ds de).
Proof.
  destruct ds as [ds|], de as [de|].
  - apply legacy_agrees_Some.
  - unfold _parse_dates, SimpleRange._parseSimpleDateRange, both_len. simpl.
    rewrite orb_true_r.
    destruct (String.length ds =? 4)%nat; [done|]. simpl.
    destruct (String.length ds =? 7)%nat; [done|]. simpl.
    destruct (String.length ds =? 10)%nat; done.
  - done.
  - done.
Qed.

(** C10. On every pair of date strings the legacy parser and the current
    simple-range parser agree: when either returns so does the other, and
    the legacy tree of years, months and days, flattened in insertion
    order, is the list of request dates of the current parser; and the two
    raise errors on exactly the same inputs. *)
Theorem legacy_matches_current (date_start date_end : option string) :
  (forall t g,
      _parse_dates date_start date_end = Ok (t, g) ->
      exists g', SimpleRange._parseSimpleDateRange date_start date_end
                 = Ok (flatten t, g'))
  /\ (forall l g',
         SimpleRange._parseSimpleDateRange date_start date_end = Ok (l, g') ->
         exists t g, _parse_dates date_start date_end = Ok (t, g) /\ flatten t = l)
  /\ (raises (_parse_dates date_start date_end)
      <-> raises (SimpleRange._parseSimpleDateRange date_start date_end)).
Proof.
  pose proof (legacy_agrees date_start date_end) as H.
  unfold same_outcome in H.
  destruct (_parse_dates date_start date_end) as [[t g]|e|];
    destruct (SimpleRange._parseSimpleDateRange date_start date_end) as [[l g']|e'|];
    try done.
  - destruct H as [<- ->]. split; [|split].
    + intros t' g0 [= <- <-]. eauto.
    + intros l g0 [= <- <-]. eauto.
    + split; intros [x Hx]; discriminate Hx.
  - split; [|split].
    + intros t g [=].
    + intros l g' [=].
    + split; intros _; eexists; reflexivity.
Qed.

Lemma legacy_matches_current_witness :
  (exists g', SimpleRange._parseSimpleDateRange (Some "2020-02-27") (Some "2020-03-01")
              = Ok (flatten [(2020, [(2, [27; 28; 29]); (3, [1])])], g'))
  /\ (exists t g, _parse_dates (Some "2020-11") (Some "2021-02") = Ok (t, g)
        /\ flatten t
           = [mkRequestDate 2020 (Some 11) None; mkRequestDate 2020 (Some 12) None;
              mkRequestDate 2021 (Some 1) None; mkRequestDate 2021 (Some 2) None])
  /\ raises (SimpleRange._parseSimpleDateRange (Some "2021") (Some "2020"))
  /\ raises (SimpleRange._parseSimpleDateRange (Some "2020-13") (Some "2021-01"))
  /\ raises (SimpleRange._parseSimpleDateRange (Some "2020") (Some "2020-01")).
Proof.
  split; [|split; [|split; [|split]]].
  - apply (proj1 (legacy_matches_current (Some "2020-02-27") (Some "2020-03-01"))
             _ DAILY).
    reflexivity.
  - apply (proj1 (proj2 (legacy_matches_current (Some "2020-11") (Some "2021-02")))
             _ 2).
    reflexivity.
  - apply (proj1 (proj2 (proj2 (legacy_matches_current (Some "2021") (Some "2020"))))).
    eexists. reflexivity.
  - apply (proj1 (proj2 (proj2 (legacy_matches_current (Some "2020-13") (Some "2021-01"))))).
    eexists. reflexivity.
  - apply (proj1 (proj2 (proj2 (legacy_matches_current (Some "2020") (Some "2020-01"))))).
    eexists. reflexivity.
Defined.

End LegacyFacts.

(** ** Dates written as text *)

Module IsoFacts.

Import PyStr StrSpec StrFacts IsoSpec DateSpec.

Lemma length_digits_of_pos fuel : forall n acc (k : nat),
  0 <= n < 10 ^ Z.of_nat (S k) ->
  (String.length (digits_of_pos fuel n acc) <= S k + String.length acc)%nat.
Proof.
  induction fuel as [|fuel IH]; intros n acc k Hn; cbn [digits_of_pos].
  - simpl. lia.
  - destruct (n <? 10) eqn:E; [simpl; lia|].
    destruct k as [|k]; [change (10 ^ Z.of_nat 1) with 10 in Hn; lia|].
    etransitivity; [apply (IH _ _ k)|simpl; lia].
    rewrite Nat2Z.inj_succ, Z.pow_succ_r in Hn by lia.
    split; [apply Z.div_pos; lia|]. apply Z.div_lt_upper_bound; lia.
Qed.

Lemma length_digits n (k : nat) :
  0 <= n < 10 ^ Z.of_nat (S k) -> (String.length (digits n) <= S k)%nat.
Proof.
  intros Hn. unfold digits.
  pose proof (length_digits_of_pos (Z.to_nat (Z.log2 n)) n EmptyString k Hn) as H.
  simpl in H. lia.
Qed.

Lemma length_zeros k : String.length (zeros k) = k.
Proof. induction k; simpl; [done|now f_equal]. Qed.

Lemma length_app (a b : string) :
  String.length (a +:+ b) = (String.length a + String.length b)%nat.
Proof. induction a; simpl; [done|now f_equal]. Qed.

Lemma all_digits_app a b : all_digits (a +:+ b) = all_digits a && all_digits b.
Proof.
  induction a as [|x a IH]; simpl; [done|]. now destruct (digit_of x).
Qed.

Lemma all_digits_zeros k : all_digits (zeros k) = true.
Proof. induction k; simpl; done. Qed.

Lemma parse_digits_zeros k s b :
  parse_digits 0 b (zeros k +:+ s) = parse_digits 0 (b || negb (Nat.eqb k 0)) s.
Proof.
  revert b. induction k as [|k IH]; intros b; simpl; [now rewrite orb_false_r|].
  rewrite IH. simpl. now rewrite orb_true_r.
Qed.

(** A zero-padded numeral: its digits, its length and its value. *)
Lemma padded_numeral (w : nat) n :
  0 <= n < 10 ^ Z.of_nat (S w) ->
  let s := zeros (S w - String.length (digits n)) +:+ digits n in
  all_digits s = true /\ String.length s = S w /\ int s = Ok n.
Proof.
  intros Hn. cbv zeta.
  pose proof (length_digits n w Hn) as Hl.
  assert (Hd : all_digits (zeros (S w - String.length (digits n)) +:+ digits n) = true).
  { rewrite all_digits_app, all_digits_zeros, all_digits_digits by lia. done. }
  split; [done|]. split.
  - rewrite length_app, length_zeros. lia.
  - unfold int. rewrite parse_int_all_digits, parse_digits_zeros by done.
    unfold digits. rewrite parse_digits_of_pos; [done|lia|].
    rewrite Z2Nat.id; [lia|apply Z.log2_nonneg].
Qed.

Lemma format02_numeral n :
  0 <= n < 100 ->
  all_digits (format02 n) = true /\ String.length (format02 n) = 2%nat
  /\ int (format02 n) = Ok n.
Proof.
  intros Hn. unfold format02. replace (n <? 0) with false by lia.
  apply (padded_numeral 1 n). change (10 ^ Z.of_nat 2) with 100. lia.
Qed.

Lemma format04_numeral n :
  0 <= n < 10000 ->
  all_digits (format04 n) = true /\ String.length (format04 n) = 4%nat
  /\ int (format04 n) = Ok n.
Proof.
  intros Hn. unfold format04.
  apply (padded_numeral 3 n). change (10 ^ Z.of_nat 4) with 10000. lia.
Qed.

(** The text of a valid date spells its year, month and day. *)
Lemma iso_date_spells y m d :
  PyDate.valid y m d = true -> spells_ymd (iso_date (PyDate.mkDate y m d)) y m d.
Proof.
  intros Hv. unfold PyDate.valid, PyDate.MINYEAR, PyDate.MAXYEAR in Hv.
  rewrite !andb_true_iff, !Z.leb_le in Hv.
  pose proof (CalendarFacts.days_in_month_le y m).
  destruct (format04_numeral y) as (Hy1 & Hy2 & Hy3); [lia|].
  destruct (format02_numeral m) as (Hm1 & Hm2 & Hm3); [lia|].
  destruct (format02_numeral d) as (Hd1 & Hd2 & Hd3); [lia|].
  unfold spells_ymd, iso_date. cbn [PyDate.dyear PyDate.dmonth PyDate.dday].
  split.
  - rewrite !length_app, Hy2, Hm2, Hd2. reflexivity.
  - rewrite RangeFacts.split_app_sep by now apply all_digits_contains.
    rewrite RangeFacts.split_app_sep by now apply all_digits_contains.
    rewrite RangeFacts.split_no_sep by now apply all_digits_contains.
    simpl. now rewrite Hy3, Hm3, Hd3.
Qed.

End IsoFacts.

(** ** Date selection *)

Module DateSelectFacts.

Import PyDate Calendar CalendarFacts DateSpec SimpleRange SimpleRangeFacts DateSelect.

(** The loops of the model never exhaust their iteration budget. *)
Lemma parseSimple_total ds de : _parseSimpleDateRange ds de <> Diverge.
Proof.
  unfold _parseSimpleDateRange. cbv zeta.
  destruct (String.eqb (default EmptyString ds) "" || String.eqb (default EmptyString de) "");
    [done|].
  destruct ((String.length (default EmptyString ds) =? 4)%nat
            && (String.length (default EmptyString de) =? 4)%nat).
  { apply bind_total; [apply int_total|intros start _].
    apply bind_total; [apply int_total|intros e _].
    now destruct (e + 1 <=? start). }
  destruct ((String.length (default EmptyString ds) =? 7)%nat
            && (String.length (default EmptyString de) =? 7)%nat).
  { apply bind_total; [apply mapM_int_total|intros s _].
    apply bind_total; [apply unpack2_total|intros [start_y start_m] _].
    apply bind_total; [apply mapM_int_total|intros e _].
    apply bind_total; [apply unpack2_total|intros [end_y end_m] _].
    destruct ((start_m <? 1) || (12 <? start_m)) eqn:E1; [done|].
    destruct ((end_m <? 1) || (12 <? end_m)) eqn:E2; [done|].
    destruct (end_y * 12 + end_m <? start_y * 12 + start_m) eqn:E3; [done|].
    apply orb_false_iff in E1 as [E1 E1'].
    rewrite (monthly_loop_seq start_y end_y end_m
               (Z.to_nat (end_y * 12 + end_m - (start_y * 12 + start_m) + 1)));
      [done| | |lia|lia].
    - rewrite Z.div_small by lia; lia.
    - rewrite Z.mod_small by lia; lia. }
  destruct ((String.length (default EmptyString ds) =? 10)%nat
            && (String.length (default EmptyString de) =? 10)%nat); [|done].
  apply bind_total; [apply mapM_int_total|intros s _].
  apply bind_total; [apply unpack3_total|intros [[start_y start_m] start_d] _].
  apply bind_total; [apply mapM_int_total|intros e _].
  apply bind_total; [apply unpack3_total|intros [[end_y end_m] end_d] _].
  apply bind_total; [apply new_total|intros inc Hinc].
  apply bind_total; [apply new_total|intros en Hen].
  destruct (ltb en inc) eqn:Hlt; [done|].
  apply new_Ok in Hinc as (_ & _ & Hwi). apply new_Ok in Hen as (_ & _ & Hwe).
  destruct (add_days en 1) as [en'|e'|] eqn:Hadd; [|done|].
  - pose proof (add_days_one _ _ Hwe Hadd) as [-> Hmax].
    rewrite <- Hadd. rewrite daily_dates; [done|done|done|done|lia].
  - now apply add_days_total in Hadd.
Qed.

Lemma parseDates_total ds de years months days :
  _parseDates ds de years months days <> Diverge.
Proof.
  unfold _parseDates.
  destruct (forallb is_blank [ds; de; years; months; days]); [done|].
  destruct (is_not_None ds || is_not_None de); [apply parseSimple_total|].
  now destruct years.
Qed.

(** The combinatorial path never returns: with [years] given, the lookup
    of [self._parseDateRange] fails; without it, [_parseYMD] returns [None]
    and the unpacking of its result fails. *)
Lemma parseYMD_years y months days :
  _parseYMD (Some y) months days = Raise (AttributeError "_parseDateRange").
Proof. reflexivity. Qed.

Lemma parseDates_combinatorial_raises years months days :
  forallb is_blank [None; None; years; months; days] = false ->
  raises (_parseDates None None years months days).
Proof.
  intros H. unfold _parseDates. rewrite H. simpl.
  destruct years as [y|]; simpl; eexists; reflexivity.
Qed.

(** C1: the specification is not met by the code. On the combinatorial
    path (years given, no start or end date) the request is to yield annual,
    monthly or day-of-year dates; [_parseYMD] however calls a method
    [_parseDateRange] that the class does not define, so every such request
    raises [AttributeError]; the example of the specification, years
    2019-2020 with days 365-366, among them. *)
Theorem parseDates_years_raise :
  (forall (c : ascii) (y : string) (months days : option string),
      _parseDates None None (Some (String c y)) months days
      = Raise (AttributeError "_parseDateRange"))
  /\ _parseDates None None (Some "2019-2020") None (Some "365-366")
     = Raise (AttributeError "_parseDateRange")
  /\ _parseDates None None (Some "2019-2020") None None
     = Raise (AttributeError "_parseDateRange")
  /\ _parseDates None None (Some "2019-2020") (Some "1-12") None
     = Raise (AttributeError "_parseDateRange").
Proof.
  split; [|split; [|split]]; reflexivity.
Qed.

(** C6. Every date selection that date parsing returns has an empty
    sequence exactly when its grain is NONE, and its dates are in strictly
    chronological order without duplicates; with all five inputs absent (or
    empty) the result is grain NONE with no dates, not an error. *)
Theorem parseDates_selection_ok :
  (forall (date_start date_end years months days : option string)
          (dates : list RequestDate) (grain : Z),
      _parseDates date_start date_end years months days = Ok (dates, grain) ->
      selection_ok dates grain)
  /\ _parseDates None None None None None = Ok ([], NONE)
  /\ (forall date_start date_end years months days,
         forallb is_blank [date_start; date_end; years; months; days] = true ->
         _parseDates date_start date_end years months days = Ok ([], NONE)).
Proof.
  split; [|split; [reflexivity|]].
  - intros ds de years months days dates grain. unfold _parseDates.
    destruct (forallb is_blank [ds; de; years; months; days]).
    { intros [= <- <-]. split; [done|]. split; constructor. }
    destruct (is_not_None ds || is_not_None de).
    + apply parseSimple_selection_ok.
    + intros H. destruct (_parseYMD years months days); discriminate H.
  - intros ds de years months days H. unfold _parseDates. now rewrite H.
Qed.

Lemma parseDates_selection_ok_witness :
  selection_ok
    [mkRequestDate 2020 (Some 11) None; mkRequestDate 2020 (Some 12) None;
     mkRequestDate 2021 (Some 1) None; mkRequestDate 2021 (Some 2) None]
    MONTHLY
  /\ selection_ok [] NONE.
Proof.
  split.
  - apply (proj1 parseDates_selection_ok (Some "2020-11") (Some "2021-02")
             None None None).
    reflexivity.
  - apply (proj1 parseDates_selection_ok None None (Some "") None None).
    reflexivity.
Defined.

(** The daily range on valid dates, as long as the day after the end date
    exists in [datetime]: the calendar walk from start to end. *)
Theorem daily_range_walk (ds de : string) (ys ms dds ye me dde : Z) :
  spells_ymd ds ys ms dds -> spells_ymd de ye me dde ->
  valid ys ms dds = true -> valid ye me dde = true ->
  (ltb (mkDate ye me dde) (mkDate ys ms dds) = true ->
   _parseSimpleDateRange (Some ds) (Some de) = Raise (ValueError msg_end_precedes))
  /\ (ltb (mkDate ye me dde) (mkDate ys ms dds) = false ->
      mkDate ye me dde <> mkDate 9999 12 31 ->
      exists l,
        _parseSimpleDateRange (Some ds) (Some de) = Ok (l, DAILY)
        /\ calendar_walk (mkDate ye me dde) (mkDate ys ms dds) l).
Proof.
  intros [Hls Hs] [Hle He] Hvs Hve.
  assert (Hpre : _parseSimpleDateRange (Some ds) (Some de)
           = if ltb (mkDate ye me dde) (mkDate ys ms dds)
             then Raise (ValueError msg_end_precedes)
             else
               let* end_date := add_days (mkDate ye me dde) 1 in
               let fuel := Z.to_nat (toordinal end_date - toordinal (mkDate ys ms dds)) in
               let* dates := daily_loop fuel (mkDate ys ms dds) end_date [] in
               Ok (dates, DAILY)).
  { unfold _parseSimpleDateRange. cbv zeta. simpl default.
    assert (Hne : forall s, String.length s = 10%nat -> String.eqb s "" = false).
    { intros s H. apply String.eqb_neq. intros ->. discriminate H. }
    rewrite (Hne ds Hls), (Hne de Hle), Hls, Hle. simpl.
    rewrite Hs, He. simpl. now rewrite (new_valid _ _ _ Hvs), (new_valid _ _ _ Hve). }
  assert (Hws : wf_date (mkDate ys ms dds) = true)
    by (apply (new_Ok ys ms dds); now apply new_valid).
  assert (Hwe : wf_date (mkDate ye me dde) = true)
    by (apply (new_Ok ye me dde); now apply new_valid).
  rewrite Hpre. split; intros Hlt; rewrite Hlt; [done|].
  intros Hmax.
  assert (Hord : toordinal (mkDate ye me dde) < MAXORDINAL).
  { assert (Hle' : toordinal (mkDate ye me dde) <= toordinal (mkDate 9999 12 31)).
    { apply ltb_false_toordinal; [done|done|].
      unfold valid, MAXYEAR in Hve. rewrite !andb_true_iff, !Z.leb_le in Hve.
      pose proof (days_in_month_le ye me).
      apply not_true_is_false. intros Hc. apply ltb_spec in Hc.
      unfold chron_lt in Hc. simpl in Hc. lia. }
    destruct (Z.eq_dec (toordinal (mkDate ye me dde)) (toordinal (mkDate 9999 12 31)))
      as [E|E].
    - apply toordinal_inj in E; [done|done|done].
    - change (toordinal (mkDate 9999 12 31)) with MAXORDINAL in *. lia. }
  rewrite daily_dates by done.
  eexists. split; [reflexivity|].
  apply walk_calendar; [done|done|].
  pose proof (ltb_false_toordinal _ _ Hwe Hws Hlt). lia.
Qed.

(** The same for the texts [YYYY-MM-DD] of any two valid dates. *)
Theorem daily_range_iso (s e : date) :
  valid (dyear s) (dmonth s) (dday s) = true ->
  valid (dyear e) (dmonth e) (dday e) = true ->
  (ltb e s = true ->
   _parseSimpleDateRange (Some (IsoSpec.iso_date s)) (Some (IsoSpec.iso_date e))
   = Raise (ValueError msg_end_precedes))
  /\ (ltb e s = false -> e <> mkDate 9999 12 31 ->
      exists l,
        _parseSimpleDateRange (Some (IsoSpec.iso_date s)) (Some (IsoSpec.iso_date e))
        = Ok (l, DAILY)
        /\ calendar_walk e s l).
Proof.
  destruct s as [ys ms dds], e as [ye me dde]. cbn [dyear dmonth dday].
  intros Hs He.
  apply daily_range_walk; try done; now apply IsoFacts.iso_date_spells.
Qed.

(** C5: the specification is not met by the code at the last date of the
    calendar. The end date 9999-12-31 is a valid calendar date, and the
    parser raises [OverflowError] when it steps one day past it, where the
    specification asks for the walk up to and including the end date. On
    every other valid pair the parser returns the calendar walk
    ([daily_range_walk], [daily_range_iso]); the leap-year example and the
    failure for an end before the start are as specified. *)
Theorem daily_range_last_day :
  valid 9999 12 31 = true
  /\ spells_ymd "9999-12-31" 9999 12 31
  /\ _parseSimpleDateRange (Some "9999-12-31") (Some "9999-12-31")
     = Raise (OverflowError "date value out of range")
  /\ _parseSimpleDateRange (Some "9999-12-30") (Some "9999-12-31")
     = Raise (OverflowError "date value out of range")
  /\ _parseSimpleDateRange (Some "2020-02-27") (Some "2020-03-01")
     = Ok ([mkRequestDate 2020 (Some 2) (Some 27); mkRequestDate 2020 (Some 2) (Some 28);
            mkRequestDate 2020 (Some 2) (Some 29); mkRequestDate 2020 (Some 3) (Some 1)],
           DAILY)
  /\ _parseSimpleDateRange (Some "2020-03-01") (Some "2020-02-27")
     = Raise (ValueError msg_end_precedes).
Proof. repeat split; reflexivity. Qed.

Lemma daily_range_walk_witness :
  exists l,
    _parseSimpleDateRange (Some "2020-02-27") (Some "2020-03-01") = Ok (l, DAILY)
    /\ calendar_walk (mkDate 2020 3 1) (mkDate 2020 2 27) l.
Proof.
  apply (proj2 (daily_range_walk "2020-02-27" "2020-03-01" 2020 2 27 2020 3 1
                  ltac:(split; reflexivity) ltac:(split; reflexivity)
                  eq_refl eq_refl)).
  - reflexivity.
  - discriminate.
Defined.

End DateSelectFacts.

(** ** Request validation *)

Lemma str_in_In x l : str_in x l = true <-> In x l.
Proof.
  unfold str_in. rewrite existsb_exists. split.
  - intros (y & Hy & E). apply String.eqb_eq in E. now subst.
  - intros H. exists x. split; [done|apply String.eqb_refl].
Qed.

Lemma int_in_In x l : int_in x l = true <-> In x l.
Proof.
  unfold int_in. rewrite existsb_exists. split.
  - intros (y & Hy & E). apply Z.eqb_eq in E. now subst.
  - intros H. exists x. split; [done|apply Z.eqb_refl].
Qed.

Lemma mapM_total {A B : Type} (f : A -> result B) l :
  (forall a, f a <> Diverge) -> mapM f l <> Diverge.
Proof.
  intros Hf. induction l as [|x l IH]; simpl; [done|].
  apply bind_total; [apply Hf|intros y _].
  apply bind_total; [exact IH|done].
Qed.

Section DataRequestFacts.

Context {CRS : Type}.
Variable getCRSMetadata : CRS -> result pyval.
Hypothesis getCRSMetadata_total : forall c, getCRSMetadata c <> Diverge.

Lemma catalog_get_total cat dsid : catalog_get cat dsid <> Diverge.
Proof. unfold catalog_get. now destruct (cat !! dsid). Qed.

Lemma getMetadata_total cat dsvars ds de crs res rt ri md :
  _getMetadata getCRSMetadata cat dsvars ds de crs res rt ri md <> Diverge.
Proof.
  unfold _getMetadata. cbv zeta.
  apply bind_total; [apply getCRSMetadata_total|intros crs_md _].
  apply bind_total; [|done].
  apply mapM_total. intros [dsid vars].
  apply bind_total; [apply catalog_get_total|done].
Qed.

Lemma verify_loop_total cat grain dsids : verify_loop cat grain dsids <> Diverge.
Proof.
  induction dsids as [|d l IH]; simpl; [done|].
  apply bind_total; [apply catalog_get_total|intros ds _].
  now destruct (negb (nontemporal ds) && negb (int_in grain (supported_grains ds))).
Qed.

Lemma verifyGrains_total cat dsvars grain gm :
  _verifyGrains cat dsvars grain gm <> Diverge.
Proof.
  unfold _verifyGrains. destruct (String.eqb gm "strict"); [|done].
  apply verify_loop_total.
Qed.

(** Construction returns or raises. *)
Lemma init_total cat dsvars ds de ys ms days gm geom crs res ri rt ofmt md :
  __init__ getCRSMetadata cat dsvars ds de ys ms days gm geom crs res ri rt ofmt md
  <> Diverge.
Proof.
  unfold __init__.
  apply bind_total; [apply DateSelectFacts.parseDates_total|intros [dates grain] _].
  cbv zeta. repeat (case_match; [done|]).
  apply bind_total; [apply getMetadata_total|intros meta _].
  case_match; [done|].
  apply bind_total; [apply verifyGrains_total|intros _ _].
  repeat (case_match; try done).
Qed.

Lemma init_raises_or_returns cat dsvars ds de ys ms days gm geom crs res ri rt ofmt md :
  raises (__init__ getCRSMetadata cat dsvars ds de ys ms days gm geom crs res ri rt ofmt md)
  \/ returns (__init__ getCRSMetadata cat dsvars ds de ys ms days gm geom crs res ri rt ofmt md).
Proof.
  pose proof (init_total cat dsvars ds de ys ms days gm geom crs res ri rt ofmt md) as H.
  destruct (__init__ _ _ _ _ _ _ _ _ _ _ _ _ _ _ _ _) as [r|e|];
    [right; eexists|left; eexists|done]; reflexivity.
Qed.

(** What a successful construction has checked, stage by stage. *)
Lemma init_Ok_inv cat dsvars ds de ys ms days gm geom crs res ri rt ofmt md r :
  __init__ getCRSMetadata cat dsvars ds de ys ms days gm geom crs res ri rt ofmt md
  = Ok r ->
  exists dts grain meta ext,
    let method := default "nearest" ri in
    let policy := default "strict" gm in
    let fmt := match ofmt with
               | None => if rt =? REQ_RASTER then "geotiff" else "csv"
               | Some f => f
               end in
    DateSelect._parseDates ds de ys ms days = Ok (dts, grain)
    /\ (rt = REQ_RASTER \/ rt = REQ_POINT)
    /\ (rt = REQ_RASTER -> str_in method RESAMPLE_METHODS = true)
    /\ (rt = REQ_POINT -> str_in method POINT_METHODS = true)
    /\ (rt = REQ_POINT -> is_multipoint geom = true)
    /\ _getMetadata getCRSMetadata cat dsvars ds de crs res rt method md = Ok meta
    /\ str_in policy GRAIN_METHODS = true
    /\ _verifyGrains cat dsvars grain policy = Ok tt
    /\ (rt = REQ_RASTER -> str_in fmt GRID_OUTPUT = true)
    /\ (rt = REQ_POINT -> str_in fmt POINT_OUTPUT = true)
    /\ FILE_EXT !! fmt = Some ext
    /\ r = mkDataRequest cat dsvars ds de dts grain geom crs res rt method meta
             policy ext.
Proof.
  unfold __init__. intros H.
  apply bind_Ok_inv in H as ([dts grain] & Hd & H). cbv zeta in H.
  destruct (negb (int_in rt [REQ_RASTER; REQ_POINT])) eqn:Ert; [discriminate|].
  destruct ((rt =? REQ_RASTER) && negb (str_in (default "nearest" ri) RESAMPLE_METHODS))
    eqn:E1; [discriminate|].
  destruct ((rt =? REQ_POINT) && negb (str_in (default "nearest" ri) POINT_METHODS))
    eqn:E2; [discriminate|].
  destruct ((rt =? REQ_POINT) && negb (is_multipoint geom)) eqn:E3; [discriminate|].
  apply bind_Ok_inv in H as (meta & Hm & H).
  destruct (negb (str_in (default "strict" gm) GRAIN_METHODS)) eqn:E4; [discriminate|].
  apply bind_Ok_inv in H as ([] & Hv & H).
  match type of H with
  | context [str_in ?f GRID_OUTPUT] => set (fmt := f) in *
  end.
  destruct ((rt =? REQ_RASTER) && negb (str_in fmt GRID_OUTPUT)) eqn:E5; [discriminate|].
  destruct ((rt =? REQ_POINT) && negb (str_in fmt POINT_OUTPUT)) eqn:E6; [discriminate|].
  destruct (FILE_EXT !! fmt) as [ext|] eqn:E7; [|discriminate].
  injection H as <-.
  exists dts, grain, meta, ext. cbv zeta.
  assert (Hrt : rt = REQ_RASTER \/ rt = REQ_POINT).
  { apply negb_false_iff, int_in_In in Ert. simpl in Ert. intuition. }
  assert (Hand : forall a b, a && negb b = false -> a = true -> b = true)
    by (intros [] []; simpl; congruence).
  repeat split; try done.
  - intros ->. now apply (Hand _ _ E1).
  - intros ->. now apply (Hand _ _ E2).
  - intros ->. now apply (Hand _ _ E3).
  - now apply negb_false_iff in E4.
  - intros ->. now apply (Hand _ _ E5).
  - intros ->. now apply (Hand _ _ E6).
Qed.

Lemma FILE_EXT_table fmt ext :
  FILE_EXT !! fmt = Some ext ->
  In fmt (GRID_OUTPUT ++ POINT_OUTPUT) ->
  In (fmt, ext) [("geotiff", ".tif"); ("netcdf", ".nc"); ("csv", ".csv");
                 ("shapefile", ".shp")].
Proof.
  intros Hl Hin. simpl in Hin.
  destruct Hin as [<-|[<-|[<-|[<-|[<-|[]]]]]]; vm_compute in Hl;
    injection Hl as <-; simpl; tauto.
Qed.

(** C7. For every successfully constructed request, the output format is
    the one given or, when none is given, geotiff for RASTER and csv for
    POINT; it belongs to the formats of the request type, and the file
    extension of the request is the entry of that format in the fixed
    table geotiff -> .tif, netcdf -> .nc, csv -> .csv, shapefile -> .shp. *)
Theorem init_file_extension cat dsvars ds de ys ms days gm geom crs res ri rt ofmt md r :
  __init__ getCRSMetadata cat dsvars ds de ys ms days gm geom crs res ri rt ofmt md
  = Ok r ->
  exists fmt,
    match ofmt with
    | Some f => fmt = f
    | None => (rt = REQ_RASTER /\ fmt = "geotiff") \/ (rt = REQ_POINT /\ fmt = "csv")
    end
    /\ (rt = REQ_RASTER -> In fmt GRID_OUTPUT)
    /\ (rt = REQ_POINT -> In fmt POINT_OUTPUT)
    /\ FILE_EXT !! fmt = Some (file_extension r)
    /\ In (fmt, file_extension r)
         [("geotiff", ".tif"); ("netcdf", ".nc"); ("csv", ".csv"); ("shapefile", ".shp")]
    /\ (ofmt = None -> rt = REQ_RASTER -> file_extension r = ".tif")
    /\ (ofmt = None -> rt = REQ_POINT -> file_extension r = ".csv").
Proof.
  intros H. apply init_Ok_inv in H
    as (dts & grain & meta & ext & _ & Hrt & _ & _ & _ & _ & _ & _ & Hg & Hp & Hext & ->).
  cbv zeta in *.
  set (fmt := match ofmt with
              | Some f => f
              | None => if rt =? REQ_RASTER then "geotiff" else "csv"
              end) in *.
  exists fmt. cbn [file_extension].
  assert (Hin : In fmt (GRID_OUTPUT ++ POINT_OUTPUT)).
  { apply in_or_app. destruct Hrt as [Hr|Hr]; [left|right]; apply str_in_In; auto. }
  split; [|split; [|split; [|split; [|split; [|split]]]]].
  - subst fmt. destruct ofmt as [f|]; [done|].
    destruct Hrt as [->| ->]; [left|right]; done.
  - intros Hr. apply str_in_In; auto.
  - intros Hr. apply str_in_In; auto.
  - done.
  - now apply FILE_EXT_table.
  - intros -> ->. subst fmt. simpl in Hext. vm_compute in Hext. now injection Hext.
  - intros -> ->. subst fmt. simpl in Hext. vm_compute in Hext. now injection Hext.
Qed.

(** C8. Construction accepts the method (nearest when absent) only if it is
    a resample method for a RASTER request, or an interpolation method for
    a POINT request; otherwise it raises, and with the invalid-method error
    whenever date parsing has passed. A RASTER request with method linear
    always fails. *)
Theorem init_method_checked cat dsvars ds de ys ms days gm geom crs res ri rt ofmt md :
  let method := default "nearest" ri in
  let outcome :=
    __init__ getCRSMetadata cat dsvars ds de ys ms days gm geom crs res ri rt ofmt md in
  (forall r, outcome = Ok r ->
     ri_method r = method
     /\ (rt = REQ_RASTER -> In method RESAMPLE_METHODS)
     /\ (rt = REQ_POINT -> In method POINT_METHODS))
  /\ (rt = REQ_RASTER -> ~ In method RESAMPLE_METHODS ->
      raises outcome
      /\ (returns (DateSelect._parseDates ds de ys ms days) ->
          outcome = Raise (ValueError (msg_resample method))))
  /\ (rt = REQ_POINT -> ~ In method POINT_METHODS ->
      raises outcome
      /\ (returns (DateSelect._parseDates ds de ys ms days) ->
          outcome = Raise (ValueError (msg_interp method))))
  /\ (rt = REQ_RASTER -> ri = Some "linear" -> raises outcome)
  /\ RESAMPLE_METHODS
     = ["nearest"; "bilinear"; "cubic"; "cubic-spline"; "lanczos"; "average"; "mode"]
  /\ POINT_METHODS = ["nearest"; "linear"].
Proof.
  cbv zeta.
  assert (Hok : forall r,
    __init__ getCRSMetadata cat dsvars ds de ys ms days gm geom crs res ri rt ofmt md
    = Ok r ->
    ri_method r = default "nearest" ri
    /\ (rt = REQ_RASTER -> In (default "nearest" ri) RESAMPLE_METHODS)
    /\ (rt = REQ_POINT -> In (default "nearest" ri) POINT_METHODS)).
  { intros r H. apply init_Ok_inv in H
      as (dts & grain & meta & ext & _ & _ & Hr & Hp & _ & _ & _ & _ & _ & _ & _ & ->).
    cbv zeta in *. split; [done|].
    split; intros Hrt; apply str_in_In; auto. }
  assert (Hraster : rt = REQ_RASTER -> ~ In (default "nearest" ri) RESAMPLE_METHODS ->
    raises (__init__ getCRSMetadata cat dsvars ds de ys ms days gm geom crs res ri rt
              ofmt md)
    /\ (returns (DateSelect._parseDates ds de ys ms days) ->
        __init__ getCRSMetadata cat dsvars ds de ys ms days gm geom crs res ri rt ofmt md
        = Raise (ValueError (msg_resample (default "nearest" ri))))).
  { intros -> Hn.
    assert (E : str_in (default "nearest" ri) RESAMPLE_METHODS = false).
    { apply not_true_is_false. intros E. now apply str_in_In in E. }
    unfold __init__.
    pose proof (DateSelectFacts.parseDates_total ds de ys ms days) as Ht.
    destruct (DateSelect._parseDates ds de ys ms days) as [[dts grain]|e|]; [| |done].
    - rewrite bind_Ok. cbv zeta.
      change (negb (int_in REQ_RASTER [REQ_RASTER; REQ_POINT])) with false. cbv iota.
      change (REQ_RASTER =? REQ_RASTER) with true. rewrite E. simpl.
      split; [eexists; reflexivity|done].
    - simpl. split; [eexists; reflexivity|]. intros [x Hx]. discriminate Hx. }
  split; [exact Hok|]. split; [exact Hraster|]. split; [|split; [|split; reflexivity]].
  - intros -> Hn.
    assert (E : str_in (default "nearest" ri) POINT_METHODS = false).
    { apply not_true_is_false. intros E. now apply str_in_In in E. }
    unfold __init__.
    pose proof (DateSelectFacts.parseDates_total ds de ys ms days) as Ht.
    destruct (DateSelect._parseDates ds de ys ms days) as [[dts grain]|e|]; [| |done].
    + rewrite bind_Ok. cbv zeta.
      change (negb (int_in REQ_POINT [REQ_RASTER; REQ_POINT])) with false. cbv iota.
      change (REQ_POINT =? REQ_RASTER) with false.
      change (REQ_POINT =? REQ_POINT) with true. rewrite E. simpl.
      split; [eexists; reflexivity|done].
    + simpl. split; [eexists; reflexivity|]. intros [x Hx]. discriminate Hx.
  - intros Hrt ->. apply Hraster; [done|]. simpl.
    intros Hin. repeat (destruct Hin as [Hin|Hin]; [discriminate Hin|]). done.
Qed.

(** *** The grain check *)

Import RequestSpec.

Lemma verify_loop_cases cat grain dsids :
  (forall d, In d dsids -> is_Some (cat !! d)) ->
  (verify_loop cat grain dsids = Ok tt
   /\ forall d, In d dsids -> ~ lacks_grain cat grain d)
  \/ (exists d, In d dsids /\ lacks_grain cat grain d
        /\ verify_loop cat grain dsids = Raise (ValueError (msg_granularity d))).
Proof.
  induction dsids as [|d l IH]; intros Hcat; simpl.
  { left. split; [done|]. intros d []. }
  destruct (Hcat d (or_introl eq_refl)) as [dset Hd].
  unfold catalog_get. rewrite Hd, bind_Ok.
  destruct (nontemporal dset) eqn:Hnt; simpl.
  - destruct IH as [[Hok Hall]|(d' & Hin & Hl & Hr)]; [intros; apply Hcat; now right| |].
    + left. split; [done|]. intros d' [<-|Hin]; [|now apply Hall].
      intros (dset' & Hd' & Hnt' & _). congruence.
    + right. exists d'. split; [now right|done].
  - destruct (int_in grain (supported_grains dset)) eqn:Hin; simpl.
    + destruct IH as [[Hok Hall]|(d' & Hin' & Hl & Hr)]; [intros; apply Hcat; now right| |].
      * left. split; [done|]. intros d' [<-|Hin']; [|now apply Hall].
        intros (dset' & Hd' & _ & Hn). apply Hn. apply int_in_In. congruence.
      * right. exists d'. split; [now right|done].
    + right. exists d. split; [now left|]. split; [|done].
      exists dset. split; [done|]. split; [done|].
      intros Hc. apply int_in_In in Hc. congruence.
Qed.

Lemma mapM_Ok_all {A B : Type} (f : A -> result B) l ys :
  mapM f l = Ok ys -> forall a, In a l -> exists b, f a = Ok b.
Proof.
  revert ys. induction l as [|x l IH]; intros ys H a Hin; [destruct Hin|].
  simpl in H. apply bind_Ok_inv in H as (y & Hy & H).
  apply bind_Ok_inv in H as (ys' & Hys & H).
  destruct Hin as [<-|Hin]; [eauto|]. eapply IH; eauto.
Qed.

Lemma getMetadata_Ok_catalog cat dsvars ds de crs res rt ri md meta :
  _getMetadata getCRSMetadata cat dsvars ds de crs res rt ri md = Ok meta ->
  forall d, In d (map fst dsvars) -> is_Some (cat !! d).
Proof.
  unfold _getMetadata. cbv zeta. intros H d Hin.
  apply bind_Ok_inv in H as (crs_md & _ & H).
  apply bind_Ok_inv in H as (ds_md & Hm & _).
  apply in_map_iff in Hin as ([d' vars] & <- & Hin).
  destruct (mapM_Ok_all _ _ _ Hm _ Hin) as [b Hb]. simpl in Hb.
  unfold catalog_get in Hb. simpl. destruct (cat !! d'); [eauto|discriminate].
Qed.

(** C9. Under the strict policy, which is the default, the grain check
    fails with an error naming an offending dataset whenever some dataset
    of the request is temporal and does not support the grain of the
    request, and passes when there is none; a request with such a dataset
    is never constructed, and when the earlier stages of construction pass,
    construction fails with that error. *)
Theorem verifyGrains_strict cat dsvars ds de ys ms days gm geom crs res ri rt ofmt md :
  let policy := default "strict" gm in
  let outcome :=
    __init__ getCRSMetadata cat dsvars ds de ys ms days gm geom crs res ri rt ofmt md in
  gm = None \/ gm = Some "strict" ->
  (forall grain,
     (forall d, In d (map fst dsvars) -> is_Some (cat !! d)) ->
     ((exists d, In d (map fst dsvars) /\ lacks_grain cat grain d) ->
      exists d, In d (map fst dsvars) /\ lacks_grain cat grain d
        /\ _verifyGrains cat dsvars grain policy
           = Raise (ValueError (msg_granularity d)))
     /\ ((forall d, In d (map fst dsvars) -> ~ lacks_grain cat grain d) ->
         _verifyGrains cat dsvars grain policy = Ok tt))
  /\ (forall dts grain,
        DateSelect._parseDates ds de ys ms days = Ok (dts, grain) ->
        (exists d, In d (map fst dsvars) /\ lacks_grain cat grain d) ->
        raises outcome
        /\ (rt = REQ_RASTER \/ rt = REQ_POINT ->
            (rt = REQ_RASTER -> In (default "nearest" ri) RESAMPLE_METHODS) ->
            (rt = REQ_POINT -> In (default "nearest" ri) POINT_METHODS) ->
            (rt = REQ_POINT -> is_multipoint geom = true) ->
            returns (_getMetadata getCRSMetadata cat dsvars ds de crs res rt
                       (default "nearest" ri) md) ->
            exists d, In d (map fst dsvars) /\ lacks_grain cat grain d
              /\ outcome = Raise (ValueError (msg_granularity d)))).
Proof.
  cbv zeta. intros Hgm.
  assert (Hpol : default "strict" gm = "strict") by (destruct Hgm as [-> | ->]; done).
  rewrite Hpol.
  assert (Hver : forall grain,
    (forall d, In d (map fst dsvars) -> is_Some (cat !! d)) ->
    ((exists d, In d (map fst dsvars) /\ lacks_grain cat grain d) ->
      exists d, In d (map fst dsvars) /\ lacks_grain cat grain d
        /\ _verifyGrains cat dsvars grain "strict"
           = Raise (ValueError (msg_granularity d)))
     /\ ((forall d, In d (map fst dsvars) -> ~ lacks_grain cat grain d) ->
         _verifyGrains cat dsvars grain "strict" = Ok tt)).
  { intros grain Hcat. unfold _verifyGrains. simpl String.eqb. cbv iota.
    destruct (verify_loop_cases cat grain (map fst dsvars) Hcat)
      as [[Hok Hall]|(d & Hin & Hl & Hr)].
    - split; [|done]. intros (d & Hin & Hl). now apply Hall in Hl.
    - split; [eauto|]. intros Hall. now apply Hall in Hl. }
  split; [exact Hver|].
  intros dts grain Hd Hoff. split.
  - destruct (init_raises_or_returns cat dsvars ds de ys ms days gm geom crs res ri rt
                ofmt md) as [Hr|[r Hr]]; [done|].
    apply init_Ok_inv in Hr
      as (dts' & grain' & meta & ext & Hd' & _ & _ & _ & _ & Hm & _ & Hv & _).
    cbv zeta in *. rewrite Hpol in Hv. rewrite Hd in Hd'. injection Hd' as <- <-.
    pose proof (getMetadata_Ok_catalog _ _ _ _ _ _ _ _ _ _ Hm) as Hcat.
    destruct (proj1 (Hver grain Hcat) Hoff) as (d & _ & _ & Hr). congruence.
  - intros Hrt Hres Hpt Hgeo [meta Hm].
    pose proof (getMetadata_Ok_catalog _ _ _ _ _ _ _ _ _ _ Hm) as Hcat.
    destruct (proj1 (Hver grain Hcat) Hoff) as (d & Hin & Hl & Hr).
    exists d. split; [done|]. split; [done|].
    unfold __init__. rewrite Hd, bind_Ok. cbv zeta.
    assert (E0 : negb (int_in rt [REQ_RASTER; REQ_POINT]) = false).
    { apply negb_false_iff, int_in_In. destruct Hrt as [-> | ->]; simpl; tauto. }
    rewrite E0.
    assert (E1 : (rt =? REQ_RASTER)
                 && negb (str_in (default "nearest" ri) RESAMPLE_METHODS) = false).
    { destruct (rt =? REQ_RASTER) eqn:E; [|done]. apply Z.eqb_eq in E.
      cbn [andb]. apply negb_false_iff, str_in_In. auto. }
    rewrite E1.
    assert (E2 : (rt =? REQ_POINT)
                 && negb (str_in (default "nearest" ri) POINT_METHODS) = false).
    { destruct (rt =? REQ_POINT) eqn:E; [|done]. apply Z.eqb_eq in E.
      cbn [andb]. apply negb_false_iff, str_in_In. auto. }
    rewrite E2.
    assert (E3 : (rt =? REQ_POINT) && negb (is_multipoint geom) = false).
    { destruct (rt =? REQ_POINT) eqn:E; [|done]. apply Z.eqb_eq in E.
      cbn [andb]. apply negb_false_iff. auto. }
    rewrite E3, Hm, bind_Ok, Hpol.
    change (negb (str_in "strict" GRAIN_METHODS)) with false. cbv iota.
    now rewrite Hr.
Qed.

End DataRequestFacts.

Module RequestExamples.

Import RequestSpec Examples.

Lemma init_file_extension_witness :
  (exists r, request [("PRISM", ["ppt"])] None REQ_RASTER None None = Ok r
             /\ file_extension r = ".tif")
  /\ (exists r, request [("PRISM", ["ppt"])] None REQ_POINT None
                  (Some (SubsetMultiPoint "EPSG:4326")) = Ok r
                /\ file_extension r = ".csv")
  /\ (exists r, request [("PRISM", ["ppt"])] None REQ_POINT (Some "shapefile")
                  (Some (SubsetMultiPoint "EPSG:4326")) = Ok r
                /\ FILE_EXT !! "shapefile" = Some (file_extension r)).
Proof.
  unfold request. split; [|split].
  - destruct (__init__ crs_metadata catalog [("PRISM", ["ppt"])] (Some "2019")
                (Some "2020") None None None None None "EPSG:4326" PNone None
                REQ_RASTER None []) as [r|e|] eqn:E;
      [|vm_compute in E; discriminate E|vm_compute in E; discriminate E].
    exists r. split; [reflexivity|].
    destruct (init_file_extension _ _ _ _ _ _ _ _ _ _ _ _ _ _ _ _ r E)
      as (fmt & _ & _ & _ & _ & _ & H & _).
    apply H; reflexivity.
  - destruct (__init__ crs_metadata catalog [("PRISM", ["ppt"])] (Some "2019")
                (Some "2020") None None None None (Some (SubsetMultiPoint "EPSG:4326"))
                "EPSG:4326" PNone None REQ_POINT None []) as [r|e|] eqn:E;
      [|vm_compute in E; discriminate E|vm_compute in E; discriminate E].
    exists r. split; [reflexivity|].
    destruct (init_file_extension _ _ _ _ _ _ _ _ _ _ _ _ _ _ _ _ r E)
      as (fmt & _ & _ & _ & _ & _ & _ & H).
    apply H; reflexivity.
  - destruct (__init__ crs_metadata catalog [("PRISM", ["ppt"])] (Some "2019")
                (Some "2020") None None None None (Some (SubsetMultiPoint "EPSG:4326"))
                "EPSG:4326" PNone None REQ_POINT (Some "shapefile") []) as [r|e|] eqn:E;
      [|vm_compute in E; discriminate E|vm_compute in E; discriminate E].
    exists r. split; [reflexivity|].
    destruct (init_file_extension _ _ _ _ _ _ _ _ _ _ _ _ _ _ _ _ r E)
      as (fmt & -> & _ & _ & H & _).
    exact H.
Defined.

Lemma init_method_checked_witness :
  raises (request [("PRISM", ["ppt"])] (Some "linear") REQ_RASTER None None)
  /\ request [("PRISM", ["ppt"])] (Some "linear") REQ_RASTER None None
     = Raise (ValueError (msg_resample "linear"))
  /\ request [("PRISM", ["ppt"])] (Some "bilinear") REQ_POINT None
       (Some (SubsetMultiPoint "EPSG:4326"))
     = Raise (ValueError (msg_interp "bilinear"))
  /\ (exists r, request [("PRISM", ["ppt"])] None REQ_RASTER None None = Ok r
                /\ ri_method r = "nearest" /\ In "nearest" RESAMPLE_METHODS).
Proof.
  pose proof (init_method_checked crs_metadata catalog [("PRISM", ["ppt"])]
                (Some "2019") (Some "2020") None None None None None "EPSG:4326" PNone
                (Some "linear") REQ_RASTER None []) as Hlin.
  pose proof (init_method_checked crs_metadata catalog [("PRISM", ["ppt"])]
                (Some "2019") (Some "2020") None None None None
                (Some (SubsetMultiPoint "EPSG:4326")) "EPSG:4326" PNone
                (Some "bilinear") REQ_POINT None []) as Hbil.
  pose proof (init_method_checked crs_metadata catalog [("PRISM", ["ppt"])]
                (Some "2019") (Some "2020") None None None None None "EPSG:4326" PNone
                None REQ_RASTER None []) as Hnear.
  cbv zeta in Hlin, Hbil, Hnear.
  destruct Hlin as (_ & Hl1 & _ & Hl2 & _).
  destruct Hbil as (_ & _ & Hb & _).
  destruct Hnear as (Hn & _).
  assert (Hnl : ~ In "linear" RESAMPLE_METHODS).
  { simpl. intros H. repeat (destruct H as [H|H]; [discriminate H|]). exact H. }
  assert (Hnb : ~ In "bilinear" POINT_METHODS).
  { simpl. intros H. repeat (destruct H as [H|H]; [discriminate H|]). exact H. }
  split; [exact (Hl2 eq_refl eq_refl)|].
  split; [apply (proj2 (Hl1 eq_refl Hnl)); eexists; reflexivity|].
  split; [apply (proj2 (Hb eq_refl Hnb)); eexists; reflexivity|].
  unfold request.
  destruct (__init__ crs_metadata catalog [("PRISM", ["ppt"])] (Some "2019")
              (Some "2020") None None None None None "EPSG:4326" PNone None REQ_RASTER
              None []) as [r|e|] eqn:E;
    [|vm_compute in E; discriminate E|vm_compute in E; discriminate E].
  exists r. split; [reflexivity|].
  destruct (Hn r eq_refl) as (H1 & H2 & _). split; [exact H1|exact (H2 eq_refl)].
Defined.

Lemma verifyGrains_strict_witness :
  raises (request [("PRISM", ["ppt"]); ("MODIS_NDVI", ["NDVI"])] None REQ_RASTER None None)
  /\ (exists d,
        In d ["PRISM"; "MODIS_NDVI"] /\ lacks_grain catalog ANNUAL d
        /\ request [("PRISM", ["ppt"]); ("MODIS_NDVI", ["NDVI"])] None REQ_RASTER None None
           = Raise (ValueError (msg_granularity d)))
  /\ _verifyGrains catalog [("PRISM", ["ppt"])] ANNUAL "strict" = Ok tt.
Proof.
  assert (Htot : forall c, crs_metadata c <> Diverge) by (intros c; discriminate).
  assert (Hoff : exists d, In d (map fst [("PRISM", ["ppt"]); ("MODIS_NDVI", ["NDVI"])])
                           /\ lacks_grain catalog ANNUAL d).
  { exists "MODIS_NDVI". split; [simpl; tauto|].
    eexists. split; [reflexivity|]. split; [reflexivity|].
    simpl. intros [H|[]]. discriminate H. }
  pose proof (verifyGrains_strict crs_metadata Htot catalog
                [("PRISM", ["ppt"]); ("MODIS_NDVI", ["NDVI"])]
                (Some "2019") (Some "2020") None None None None None "EPSG:4326" PNone
                None REQ_RASTER None [] (or_introl eq_refl)) as [_ H].
  destruct (H _ ANNUAL eq_refl Hoff) as [Hr Hex].
  split; [exact Hr|]. split.
  - apply Hex.
    + now left.
    + intros _. simpl. tauto.
    + intros [=].
    + intros [=].
    + eexists. reflexivity.
  - pose proof (verifyGrains_strict crs_metadata Htot catalog [("PRISM", ["ppt"])]
                  (Some "2019") (Some "2020") None None None None None "EPSG:4326" PNone
                  None REQ_RASTER None [] (or_introl eq_refl)) as [H1 _].
    apply (H1 ANNUAL).
    + intros d [<-|[]]. eexists. reflexivity.
    + intros d [<-|[]] (dset & Hd & _ & Hn). vm_compute in Hd. injection Hd as <-.
      apply Hn. simpl. tauto.
Defined.

End RequestExamples.

(** ** Output file names *)

Module OutputFacts.

Import DataRequestOutput.

(** C2: the specification is not met by the code. The raster branch is to
    write one file per dataset, variable and time step, named after them;
    but [_writeRasterFiles] reads a name [grain] that is bound nowhere, so
    with the .tif extension it raises [NameError] at the first time step
    of the first variable, for every grain and before anything is written,
    whatever the writers do. The two functions below it fail
    as well: the file-name function calls [self._requestDateAsString],
    which the class does not define, and [requestDateAsString] reads the
    grain constants by names the module does not bind. *)
Theorem writeRasterFiles_tif_raises :
  (forall to_raster to_netcdf dsid varname t ts vars rest grain output_dir,
      _writeRasterFiles to_raster to_netcdf
        ((dsid, (varname, t :: ts) :: vars) :: rest) grain ".tif" output_dir
      = Raise (NameError "grain"))
  /\ (forall dsid varname grain rdate,
         _getSingleLayerOutputFileName dsid varname grain rdate
         = Raise (AttributeError "_requestDateAsString"))
  /\ (forall grain rdate, requestDateAsString grain rdate = Raise (NameError "NONE"))
  /\ (forall to_raster to_netcdf,
         _writeRasterFiles to_raster to_netcdf
           [("PRISM", [("ppt", [mkRequestDate 2020 (Some 1) None])])]
           MONTHLY ".tif" "out"
         = Raise (NameError "grain")).
Proof. repeat split. Qed.

End OutputFacts.
(** ** Further properties of the date parsers *)

Module DateRangeFacts.

Import PyDate Calendar CalendarFacts DateSpec SimpleRange SimpleRangeFacts DateSelect.
Import DateRangeSpec.

Lemma nonempty_of_length (s : string) n :
  String.length s = S n -> String.eqb s "" = false.
Proof. intros H. apply String.eqb_neq. intros ->. discriminate H. Qed.

Lemma In_year_seq s n rd :
  In rd (year_seq s n)
  <-> exists y, s <= y < s + Z.of_nat n /\ rd = mkRequestDate y None None.
Proof.
  unfold year_seq. rewrite in_map_iff. split.
  - intros (i & <- & Hi). apply in_seq in Hi. exists (s + Z.of_nat i). split; [lia|done].
  - intros (y & Hy & ->). exists (Z.to_nat (y - s)). split.
    + f_equal. lia.
    + apply in_seq. lia.
Qed.

Lemma length_year_seq s n : length (year_seq s n) = n.
Proof. unfold year_seq. now rewrite length_map, length_seq. Qed.

(** The annual and the monthly range, as explicit sequences. *)
Lemma annual_range_explicit (ds de : string) (s e : Z) :
  String.length ds = 4%nat -> String.length de = 4%nat ->
  PyStr.int ds = Ok s -> PyStr.int de = Ok e ->
  _parseSimpleDateRange (Some ds) (Some de)
  = if e + 1 <=? s then Raise (ValueError msg_end_precedes)
    else Ok (year_seq s (Z.to_nat (e + 1 - s)), ANNUAL).
Proof.
  intros Hls Hle Hs He.
  unfold _parseSimpleDateRange. cbv zeta. simpl default.
  rewrite (nonempty_of_length ds 3 Hls), (nonempty_of_length de 3 Hle), Hls, Hle. simpl.
  rewrite Hs, He. simpl. now rewrite year_seq_range.
Qed.

Lemma monthly_range_unfold (ds de : string) (sy sm ey em : Z) :
  spells_ym ds sy sm -> spells_ym de ey em ->
  _parseSimpleDateRange (Some ds) (Some de)
  = if (sm <? 1) || (12 <? sm) then Raise (ValueError (msg_month sm))
    else if (em <? 1) || (12 <? em) then Raise (ValueError (msg_month em))
    else if ey * 12 + em <? sy * 12 + sm then Raise (ValueError msg_end_precedes)
    else
      let* dates :=
        monthly_loop (Z.to_nat (ey * 12 + em - (sy * 12 + sm) + 1)) sy ey em sy sm
          (sm - 1) [] in
      Ok (dates, MONTHLY).
Proof.
  intros [Hls Hs] [Hle He].
  unfold _parseSimpleDateRange. cbv zeta. simpl default.
  rewrite (nonempty_of_length ds 6 Hls), (nonempty_of_length de 6 Hle), Hls, Hle. simpl.
  rewrite Hs, He. reflexivity.
Qed.

Lemma monthly_range_explicit (ds de : string) (sy sm ey em : Z) :
  spells_ym ds sy sm -> spells_ym de ey em ->
  1 <= sm <= 12 -> 1 <= em <= 12 -> sy * 12 + sm <= ey * 12 + em ->
  _parseSimpleDateRange (Some ds) (Some de)
  = Ok (month_seq sy (sm - 1) (Z.to_nat (ey * 12 + em - (sy * 12 + sm) + 1)), MONTHLY).
Proof.
  intros [Hls Hs] [Hle He] H1 H2 Hord.
  unfold _parseSimpleDateRange. cbv zeta. simpl default.
  rewrite (nonempty_of_length ds 6 Hls), (nonempty_of_length de 6 Hle), Hls, Hle. simpl.
  rewrite Hs, He. cbn [bind unpack2].
  replace ((sm <? 1) || (12 <? sm)) with false by lia.
  replace ((em <? 1) || (12 <? em)) with false by lia.
  replace (ey * 12 + em <? sy * 12 + sm) with false by lia.
  rewrite (monthly_loop_seq sy ey em
             (Z.to_nat (ey * 12 + em - (sy * 12 + sm) + 1))); [done| | |lia|lia].
  - rewrite Z.div_small by lia. lia.
  - rewrite Z.mod_small by lia. lia.
Qed.

(** X1. Annual ranges: for two four-character texts that spell the integers
    [s] and [e], the parser fails when [e < s] and otherwise returns the
    years [s], ..., [e], each once and in ascending order, with grain
    ANNUAL. *)
Theorem annual_range (ds de : string) (s e : Z) :
  String.length ds = 4%nat -> String.length de = 4%nat ->
  PyStr.int ds = Ok s -> PyStr.int de = Ok e ->
  (e < s ->
   _parseSimpleDateRange (Some ds) (Some de) = Raise (ValueError msg_end_precedes))
  /\ (s <= e ->
      exists dates,
        _parseSimpleDateRange (Some ds) (Some de) = Ok (dates, ANNUAL)
        /\ dates = year_seq s (Z.to_nat (e - s + 1))
        /\ Z.of_nat (length dates) = e - s + 1
        /\ StronglySorted chron_lt dates
        /\ (forall rd, In rd dates
                       <-> exists y, s <= y <= e /\ rd = mkRequestDate y None None)).
Proof.
  intros Hls Hle Hs He.
  pose proof (annual_range_explicit ds de s e Hls Hle Hs He) as Hpre.
  rewrite Hpre. split; intros Hord.
  - now replace (e + 1 <=? s) with true by lia.
  - replace (e + 1 <=? s) with false by lia.
    replace (e + 1 - s) with (e - s + 1) by lia.
    eexists. split; [reflexivity|]. split; [reflexivity|].
    split; [rewrite length_year_seq; lia|].
    split; [apply year_seq_sorted|].
    intros rd. rewrite In_year_seq. split; intros (y & Hy & ->); exists y; split; (lia || done).
Qed.

Lemma annual_range_witness :
  exists dates,
    _parseSimpleDateRange (Some "2018") (Some "2020") = Ok (dates, ANNUAL)
    /\ dates = year_seq 2018 (Z.to_nat (2020 - 2018 + 1))
    /\ Z.of_nat (length dates) = 2020 - 2018 + 1
    /\ StronglySorted chron_lt dates
    /\ (forall rd, In rd dates
                   <-> exists y, 2018 <= y <= 2020 /\ rd = mkRequestDate y None None).
Proof.
  apply (proj2 (annual_range "2018" "2020" 2018 2020 eq_refl eq_refl eq_refl eq_refl)).
  lia.
Defined.

Lemma In_month_seq y0 k n rd :
  In rd (month_seq y0 k n)
  <-> exists y m,
        rd = mkRequestDate y (Some m) None /\ 1 <= m <= 12
        /\ y0 * 12 + k <= y * 12 + (m - 1) < y0 * 12 + k + Z.of_nat n.
Proof.
  unfold month_seq. rewrite in_map_iff. split.
  - intros (i & <- & Hi). apply in_seq in Hi.
    exists (y0 + (k + Z.of_nat i) / 12), ((k + Z.of_nat i) mod 12 + 1).
    split; [done|].
    pose proof (Z.div_mod (k + Z.of_nat i) 12 ltac:(lia)).
    pose proof (Z.mod_pos_bound (k + Z.of_nat i) 12 ltac:(lia)). lia.
  - intros (y & m & -> & Hm & Hr).
    exists (Z.to_nat ((y - y0) * 12 + (m - 1) - k)). split.
    + replace (k + Z.of_nat (Z.to_nat ((y - y0) * 12 + (m - 1) - k)))
        with ((y - y0) * 12 + (m - 1)) by lia.
      destruct (div_mod_known ((y - y0) * 12 + (m - 1)) 12 (y - y0) (m - 1))
        as [-> ->]; [lia|lia|].
      f_equal; [lia|f_equal; lia].
    + apply in_seq. lia.
Qed.

Lemma length_month_seq y0 k n : length (month_seq y0 k n) = n.
Proof. unfold month_seq. now rewrite length_map, length_seq. Qed.

(** X2. Monthly ranges: for two seven-character texts that spell a year and a
    month each, the parser checks the start month, then the end month, then
    the order, and otherwise returns exactly the months from the start
    month to the end month inclusive, in chronological order, with grain
    MONTHLY. *)
Theorem monthly_range (ds de : string) (sy sm ey em : Z) :
  spells_ym ds sy sm -> spells_ym de ey em ->
  (~ 1 <= sm <= 12 ->
   _parseSimpleDateRange (Some ds) (Some de) = Raise (ValueError (msg_month sm)))
  /\ (1 <= sm <= 12 -> ~ 1 <= em <= 12 ->
      _parseSimpleDateRange (Some ds) (Some de) = Raise (ValueError (msg_month em)))
  /\ (1 <= sm <= 12 -> 1 <= em <= 12 -> ey * 12 + em < sy * 12 + sm ->
      _parseSimpleDateRange (Some ds) (Some de) = Raise (ValueError msg_end_precedes))
  /\ (1 <= sm <= 12 -> 1 <= em <= 12 -> sy * 12 + sm <= ey * 12 + em ->
      exists dates,
        _parseSimpleDateRange (Some ds) (Some de) = Ok (dates, MONTHLY)
        /\ Z.of_nat (length dates) = (ey * 12 + em) - (sy * 12 + sm) + 1
        /\ StronglySorted chron_lt dates
        /\ (forall rd, In rd dates
                       <-> exists y m,
                             rd = mkRequestDate y (Some m) None /\ 1 <= m <= 12
                             /\ sy * 12 + sm <= y * 12 + m <= ey * 12 + em)).
Proof.
  intros Hds Hde.
  pose proof (monthly_range_unfold ds de sy sm ey em Hds Hde) as Hpre.
  rewrite Hpre. split; [|split; [|split]].
  - intros Hn. now replace ((sm <? 1) || (12 <? sm)) with true by lia.
  - intros H1 Hn. replace ((sm <? 1) || (12 <? sm)) with false by lia.
    now replace ((em <? 1) || (12 <? em)) with true by lia.
  - intros H1 H2 Hord. replace ((sm <? 1) || (12 <? sm)) with false by lia.
    replace ((em <? 1) || (12 <? em)) with false by lia.
    now replace (ey * 12 + em <? sy * 12 + sm) with true by lia.
  - intros H1 H2 Hord. replace ((sm <? 1) || (12 <? sm)) with false by lia.
    replace ((em <? 1) || (12 <? em)) with false by lia.
    replace (ey * 12 + em <? sy * 12 + sm) with false by lia.
    rewrite (monthly_loop_seq sy ey em
               (Z.to_nat (ey * 12 + em - (sy * 12 + sm) + 1))); [| | |lia|lia].
    + rewrite bind_Ok. cbn [app]. eexists. split; [reflexivity|].
      split; [rewrite length_month_seq; lia|].
      split; [apply month_seq_sorted; lia|].
      intros rd. rewrite In_month_seq.
      split; intros (y & m & -> & Hm & Hr); exists y, m; (split; [done|split; [done|lia]]).
    + rewrite Z.div_small by lia. lia.
    + rewrite Z.mod_small by lia. lia.
Qed.

Lemma monthly_range_witness :
  exists dates,
    _parseSimpleDateRange (Some "2020-11") (Some "2021-02") = Ok (dates, MONTHLY)
    /\ Z.of_nat (length dates) = (2021 * 12 + 2) - (2020 * 12 + 11) + 1
    /\ StronglySorted chron_lt dates
    /\ (forall rd, In rd dates
                   <-> exists y m,
                         rd = mkRequestDate y (Some m) None /\ 1 <= m <= 12
                         /\ 2020 * 12 + 11 <= y * 12 + m <= 2021 * 12 + 2).
Proof.
  apply (proj2 (proj2 (proj2 (monthly_range "2020-11" "2021-02" 2020 11 2021 2
                                ltac:(split; reflexivity) ltac:(split; reflexivity)))));
    lia.
Defined.

(** A returned selection is not empty, and its grain is the one that the
    common length of the two texts stands for. *)
Lemma parseSimple_Ok_shape ds de dates grain :
  _parseSimpleDateRange ds de = Ok (dates, grain) ->
  exists s e,
    ds = Some s /\ de = Some e
    /\ String.length s = String.length e
    /\ ((grain = ANNUAL /\ String.length s = 4%nat)
        \/ (grain = MONTHLY /\ String.length s = 7%nat)
        \/ (grain = DAILY /\ String.length s = 10%nat))
    /\ dates <> [].
Proof.
  intros H.
  assert (Hne : dates <> []).
  { apply parseSimple_Ok in H.
    destruct H as [[_ (s & n & ->)]|[[_ (y0 & k & n & _ & ->)]|[_ (d & n & _ & ->)]]];
      discriminate. }
  unfold _parseSimpleDateRange in H. cbv zeta in H.
  destruct (String.eqb (default EmptyString ds) "") eqn:Es; [discriminate|].
  destruct (String.eqb (default EmptyString de) "") eqn:Ee; [discriminate|].
  cbn [orb] in H.
  destruct ds as [s|]; [|discriminate]. destruct de as [e|]; [|discriminate].
  simpl default in *. exists s, e. split; [done|]. split; [done|].
  destruct ((String.length s =? 4)%nat && (String.length e =? 4)%nat) eqn:E4.
  { apply andb_true_iff in E4 as [E4 E4']. apply Nat.eqb_eq in E4, E4'.
    inv_result H. injection H as _ <-. split; [lia|]. split; [|done]. now left. }
  destruct ((String.length s =? 7)%nat && (String.length e =? 7)%nat) eqn:E7.
  { apply andb_true_iff in E7 as [E7 E7']. apply Nat.eqb_eq in E7, E7'.
    inv_result H. injection H as _ <-. split; [lia|]. split; [|done]. right. now left. }
  destruct ((String.length s =? 10)%nat && (String.length e =? 10)%nat) eqn:E10;
    [|discriminate].
  apply andb_true_iff in E10 as [E10 E10']. apply Nat.eqb_eq in E10, E10'.
  split; [lia|]. split; [|done]. right. right. split; [|done].
  apply bind_Ok_inv in H as (? & _ & H).
  apply bind_Ok_inv in H as ([[? ?] ?] & _ & H).
  apply bind_Ok_inv in H as (? & _ & H).
  apply bind_Ok_inv in H as ([[? ?] ?] & _ & H).
  apply bind_Ok_inv in H as (? & _ & H).
  apply bind_Ok_inv in H as (? & _ & H).
  destruct (ltb _ _); [discriminate|].
  apply bind_Ok_inv in H as (? & _ & H).
  apply bind_Ok_inv in H as (? & _ & H).
  now injection H as _ <-.
Qed.

(** A returning call of [_parseDates] is the empty selection or a simple
    range. *)
Lemma parseDates_Ok_cases ds de years months days dates grain :
  _parseDates ds de years months days = Ok (dates, grain) ->
  (forallb is_blank [ds; de; years; months; days] = true /\ dates = [] /\ grain = NONE)
  \/ (forallb is_blank [ds; de; years; months; days] = false
      /\ _parseSimpleDateRange ds de = Ok (dates, grain)).
Proof.
  unfold _parseDates.
  destruct (forallb is_blank [ds; de; years; months; days]) eqn:Eb.
  { intros [= <- <-]. now left. }
  destruct (is_not_None ds || is_not_None de) eqn:En.
  - intros H. now right.
  - intros H. destruct (_parseYMD years months days); discriminate H.
Qed.

(** X3. The shape of the two texts decides everything else: a missing or
    empty text is an error of its own; two texts that are not both of
    length 4, both of length 7 or both of length 10 are a granularity
    mismatch; and a returned selection is never empty and has the grain
    that the common length stands for. *)
Theorem range_shape (ds de : option string) :
  (is_blank ds = true \/ is_blank de = true ->
   _parseSimpleDateRange ds de = Raise (ValueError msg_both_dates))
  /\ (forall s e,
        ds = Some s -> de = Some e -> s <> "" -> e <> "" ->
        ~ (String.length s = String.length e
           /\ In (String.length s) [4; 7; 10]%nat) ->
        _parseSimpleDateRange ds de = Raise (ValueError msg_mismatched))
  /\ (forall dates grain,
        _parseSimpleDateRange ds de = Ok (dates, grain) ->
        exists s e,
          ds = Some s /\ de = Some e
          /\ String.length s = String.length e
          /\ ((grain = ANNUAL /\ String.length s = 4%nat)
              \/ (grain = MONTHLY /\ String.length s = 7%nat)
              \/ (grain = DAILY /\ String.length s = 10%nat))
          /\ dates <> []).
Proof.
  split; [|split].
  - intros H. unfold _parseSimpleDateRange. cbv zeta.
    replace (String.eqb (default EmptyString ds) "" || String.eqb (default EmptyString de) "")
      with true; [done|].
    symmetry. apply orb_true_iff.
    destruct H as [H|H]; [left; destruct ds|right; destruct de]; done.
  - intros s e -> -> Hs He Hn. unfold _parseSimpleDateRange. cbv zeta. simpl default.
    apply String.eqb_neq in Hs, He. rewrite Hs, He. cbn [orb].
    destruct (String.length s =? 4)%nat eqn:E4s, (String.length e =? 4)%nat eqn:E4e;
      destruct (String.length s =? 7)%nat eqn:E7s, (String.length e =? 7)%nat eqn:E7e;
      destruct (String.length s =? 10)%nat eqn:E10s, (String.length e =? 10)%nat eqn:E10e;
      cbn [andb]; try reflexivity;
      rewrite ?Nat.eqb_eq in *; exfalso; apply Hn; simpl; lia.
  - intros dates grain H. now apply parseSimple_Ok_shape.
Qed.

Lemma range_shape_witness :
  _parseSimpleDateRange (Some "2020") None = Raise (ValueError msg_both_dates)
  /\ _parseSimpleDateRange (Some "2020") (Some "2020-03")
     = Raise (ValueError msg_mismatched)
  /\ (exists s e,
        Some "2019-12" = Some s /\ Some "2020-01" = Some e
        /\ String.length s = String.length e
        /\ ((MONTHLY = ANNUAL /\ String.length s = 4%nat)
            \/ (MONTHLY = MONTHLY /\ String.length s = 7%nat)
            \/ (MONTHLY = DAILY /\ String.length s = 10%nat))
        /\ [mkRequestDate 2019 (Some 12) None; mkRequestDate 2020 (Some 1) None] <> []).
Proof.
  split; [|split].
  - apply (proj1 (range_shape (Some "2020") None)). right. reflexivity.
  - apply (proj1 (proj2 (range_shape (Some "2020") (Some "2020-03")))
             "2020" "2020-03" eq_refl eq_refl); [discriminate|discriminate|].
    simpl. lia.
  - apply (proj2 (proj2 (range_shape (Some "2019-12") (Some "2020-01")))).
    reflexivity.
Defined.

(** X4. Which inputs of [_parseDates] matter: a call returns only when all
    five inputs are blank, with the empty selection, or when both the start
    and the end date are given and non-empty; in that case the result is
    that of the simple range parser, whatever years, months and days are
    passed along. *)
Theorem parseDates_returns (ds de years months days : option string)
    (dates : list RequestDate) (grain : Z) :
  _parseDates ds de years months days = Ok (dates, grain) ->
  (forallb is_blank [ds; de; years; months; days] = true
   /\ dates = [] /\ grain = NONE)
  \/ (exists s e,
        ds = Some s /\ de = Some e /\ s <> "" /\ e <> ""
        /\ _parseSimpleDateRange ds de = Ok (dates, grain)
        /\ forall years' months' days',
             _parseDates ds de years' months' days' = Ok (dates, grain)).
Proof.
  intros H. apply parseDates_Ok_cases in H as [H|[Hb H]]; [now left|]. right.
  destruct (parseSimple_Ok_shape _ _ _ _ H) as (s & e & -> & -> & Hl & Hg & _).
  assert (Hs : s <> "").
  { intros ->. simpl in Hg. destruct Hg as [[_ ?]|[[_ ?]|[_ ?]]]; discriminate. }
  assert (He : e <> "").
  { intros ->. rewrite Hl in Hg. simpl in Hg.
    destruct Hg as [[_ ?]|[[_ ?]|[_ ?]]]; discriminate. }
  exists s, e. repeat (split; [done|]).
  intros y' m' d'. unfold _parseDates.
  assert (Eb' : forallb is_blank [Some s; Some e; y'; m'; d'] = false).
  { cbn [forallb is_blank]. apply String.eqb_neq in Hs. now rewrite Hs. }
  now rewrite Eb'.
Qed.

Lemma parseDates_returns_witness :
  (forallb is_blank [Some "2019"; Some "2020"; Some "1-N"; None; Some "366"] = true
   /\ year_seq 2019 2 = [] /\ ANNUAL = NONE)
  \/ (exists s e,
        Some "2019" = Some s /\ Some "2020" = Some e /\ s <> "" /\ e <> ""
        /\ _parseSimpleDateRange (Some "2019") (Some "2020")
           = Ok (year_seq 2019 2, ANNUAL)
        /\ forall years' months' days',
             _parseDates (Some "2019") (Some "2020") years' months' days'
             = Ok (year_seq 2019 2, ANNUAL)).
Proof.
  apply (parseDates_returns (Some "2019") (Some "2020") (Some "1-N") None (Some "366")).
  reflexivity.
Defined.

(** *** Daily ranges, by membership *)

Lemma days_later_next n d : days_later n (next_day d) = next_day (days_later n d).
Proof. induction n as [|n IH]; simpl; [done|now rewrite IH]. Qed.

Lemma In_walk n : forall d rd,
  In rd (walk n d) <-> exists i, (i < n)%nat /\ rd = rd_of_date (days_later i d).
Proof.
  induction n as [|n IH]; intros d rd; simpl.
  - split; [done|]. intros (i & Hi & _). lia.
  - rewrite IH. split.
    + intros [<-|(i & Hi & ->)].
      * exists 0%nat. split; [lia|done].
      * exists (S i). split; [lia|]. simpl. now rewrite days_later_next.
    + intros ([|i] & Hi & ->); [now left|].
      right. exists i. split; [lia|]. simpl. now rewrite days_later_next.
Qed.

Lemma length_walk n : forall d, length (walk n d) = n.
Proof. induction n as [|n IH]; intros d; simpl; [done|now rewrite IH]. Qed.

Lemma wf_of_valid y m d : valid y m d = true -> wf_date (mkDate y m d) = true.
Proof. intros H. apply (new_Ok y m d). now apply new_valid. Qed.

Lemma valid_of_wf d e :
  wf_date d = true -> valid (dyear e) (dmonth e) (dday e) = true ->
  toordinal d <= toordinal e ->
  valid (dyear d) (dmonth d) (dday d) = true.
Proof.
  intros Hd He Hle.
  assert (Hwe : wf_date e = true) by (destruct e; now apply wf_of_valid).
  pose proof (proj1 (wf_date_spec d) Hd) as (Hy & Hm & Hdd).
  unfold valid, MINYEAR, MAXYEAR in *. rewrite !andb_true_iff, !Z.leb_le in *.
  repeat split; try lia.
  destruct (Z_le_gt_dec (dyear d) 9999) as [|Hgt]; [done|].
  assert (Hlt : ltb e d = true).
  { apply ltb_spec. unfold chron_lt. simpl. lia. }
  apply ltb_true_toordinal in Hlt; [lia|done|done].
Qed.

(** A range of days that ends on the last date of the calendar: the parser
    fails when it steps one day past it. *)
Lemma daily_range_overflow (ds de : string) (ys ms dds : Z) :
  spells_ymd ds ys ms dds -> spells_ymd de 9999 12 31 ->
  valid ys ms dds = true ->
  _parseSimpleDateRange (Some ds) (Some de)
  = Raise (OverflowError "date value out of range").
Proof.
  intros [Hls Hs] [Hle He] Hvs.
  assert (Hlt : ltb (mkDate 9999 12 31) (mkDate ys ms dds) = false).
  { apply not_true_is_false. intros Hc. apply ltb_spec in Hc.
    unfold chron_lt in Hc. simpl in Hc.
    unfold valid, MAXYEAR in Hvs. rewrite !andb_true_iff, !Z.leb_le in Hvs.
    pose proof (days_in_month_le ys ms). lia. }
  unfold _parseSimpleDateRange. cbv zeta. simpl default.
  rewrite (nonempty_of_length ds 9 Hls), (nonempty_of_length de 9 Hle), Hls, Hle. simpl.
  rewrite Hs, He. simpl. rewrite (new_valid _ _ _ Hvs).
  rewrite !bind_Ok. rewrite Hlt. reflexivity.
Qed.

(** X5. The daily range on valid dates, by membership: as long as the day
    after the end date exists in [datetime], the parser returns as many
    dates as there are days from the start to the end inclusive, and a
    date is returned exactly when it is a valid calendar date on or between
    the two. *)
Theorem daily_range_members (ds de : string) (ys ms dds ye me dde : Z) :
  spells_ymd ds ys ms dds -> spells_ymd de ye me dde ->
  valid ys ms dds = true -> valid ye me dde = true ->
  ltb (mkDate ye me dde) (mkDate ys ms dds) = false ->
  mkDate ye me dde <> mkDate 9999 12 31 ->
  exists dates,
    _parseSimpleDateRange (Some ds) (Some de) = Ok (dates, DAILY)
    /\ Z.of_nat (length dates)
       = toordinal (mkDate ye me dde) - toordinal (mkDate ys ms dds) + 1
    /\ StronglySorted chron_lt dates
    /\ (forall rd, In rd dates <-> between (mkDate ys ms dds) (mkDate ye me dde) rd).
Proof.
  intros [Hls Hs] [Hle He] Hvs Hve Hlt Hmax.
  set (s := mkDate ys ms dds) in *. set (e := mkDate ye me dde) in *.
  assert (Hws : wf_date s = true) by now apply wf_of_valid.
  assert (Hwe : wf_date e = true) by now apply wf_of_valid.
  pose proof (ltb_false_toordinal _ _ Hwe Hws Hlt) as Hord.
  assert (Hlast : toordinal e < MAXORDINAL).
  { assert (Hle' : toordinal e <= toordinal (mkDate 9999 12 31)).
    { apply ltb_false_toordinal; [done|done|].
      unfold valid, MAXYEAR in Hve. rewrite !andb_true_iff, !Z.leb_le in Hve.
      pose proof (days_in_month_le ye me).
      apply not_true_is_false. intros Hc. apply ltb_spec in Hc.
      unfold chron_lt in Hc. simpl in Hc. lia. }
    destruct (Z.eq_dec (toordinal e) (toordinal (mkDate 9999 12 31))) as [E|E].
    - apply toordinal_inj in E; [done|done|done].
    - change (toordinal (mkDate 9999 12 31)) with MAXORDINAL in *. lia. }
  assert (Hpre : _parseSimpleDateRange (Some ds) (Some de)
                 = Ok (walk (S (Z.to_nat (toordinal e - toordinal s))) s, DAILY)).
  { unfold _parseSimpleDateRange. cbv zeta. simpl default.
    rewrite (nonempty_of_length ds 9 Hls), (nonempty_of_length de 9 Hle), Hls, Hle. simpl.
    rewrite Hs, He. simpl. rewrite (new_valid _ _ _ Hvs), (new_valid _ _ _ Hve).
    rewrite !bind_Ok. fold s e. rewrite Hlt. now apply daily_dates. }
  eexists. split; [exact Hpre|]. split; [rewrite length_walk; lia|].
  split; [now apply walk_sorted|].
  intros rd. rewrite In_walk. unfold between. split.
  - intros (i & Hi & ->). exists (days_later i s). split; [done|].
    pose proof (wf_iter_next i s Hws) as Hwi.
    pose proof (toordinal_iter_next i s Hws) as Hoi.
    split; [|lia].
    apply (valid_of_wf _ e); [done|done|lia].
  - intros (d & -> & Hvd & Hbt).
    assert (Hwd : wf_date d = true) by (destruct d; now apply wf_of_valid).
    exists (Z.to_nat (toordinal d - toordinal s)). split; [lia|].
    f_equal. apply toordinal_inj; [done|now apply wf_iter_next|].
    rewrite toordinal_iter_next by done. lia.
Qed.

Lemma daily_range_members_witness :
  exists dates,
    _parseSimpleDateRange (Some "2020-02-27") (Some "2020-03-01") = Ok (dates, DAILY)
    /\ Z.of_nat (length dates)
       = toordinal (mkDate 2020 3 1) - toordinal (mkDate 2020 2 27) + 1
    /\ StronglySorted chron_lt dates
    /\ (forall rd, In rd dates <-> between (mkDate 2020 2 27) (mkDate 2020 3 1) rd).
Proof.
  apply (daily_range_members "2020-02-27" "2020-03-01" 2020 2 27 2020 3 1);
    [split; reflexivity|split; reflexivity|reflexivity|reflexivity|reflexivity
    |discriminate].
Defined.

End DateRangeFacts.
(** ** Further properties of the range parser *)

Module RangeSoundness.

Import PyStr RangeStr RangeSyntax StrFacts RangeFacts.

Lemma contains_lstrip c s : contains c (lstrip s) = true -> contains c s = true.
Proof.
  induction s as [|a s IH]; simpl; [done|].
  destruct (is_space a); [|done].
  intros H. rewrite (IH H). now destruct (Ascii.eqb a c).
Qed.

Lemma contains_rstrip c s : contains c (rstrip s) = true -> contains c s = true.
Proof.
  induction s as [|a s IH]; simpl; [done|].
  destruct (rstrip s) as [|b r] eqn:E.
  - destruct (is_space a); simpl; [done|]. now destruct (Ascii.eqb a c).
  - simpl. destruct (Ascii.eqb a c); [done|]. exact IH.
Qed.

Lemma parse_digits_nonneg s : forall acc b z,
  0 <= acc -> parse_digits acc b s = Some z -> 0 <= z.
Proof.
  induction s as [|c s IH]; intros acc b z Hacc; simpl.
  - destruct b; [intros [= <-]; done|discriminate].
  - destruct (Ascii.eqb c "_").
    + destruct b; [apply IH; done|discriminate].
    + destruct (digit_of c) as [d|] eqn:Ed; [|discriminate].
      apply IH. unfold digit_of in Ed.
      destruct ((48 <=? Z.of_nat (nat_of_ascii c)) && (Z.of_nat (nat_of_ascii c) <=? 57))
        eqn:E; [|discriminate].
      injection Ed as <-. lia.
Qed.

(** A numeral without a minus sign denotes no negative number. *)
Lemma int_nonneg s z : contains "-" s = false -> int s = Ok z -> 0 <= z.
Proof.
  intros Hc. unfold int. destruct (parse_int s) as [z'|] eqn:E; [|discriminate].
  intros [= <-]. unfold parse_int in E.
  destruct (strip s) as [|a r] eqn:Es; [discriminate E|].
  assert (Ha : Ascii.eqb a "-" = false).
  { apply not_true_is_false. intros Ha.
    assert (Hs : contains "-" (strip s) = true) by (rewrite Es; simpl; now rewrite Ha).
    apply contains_rstrip, contains_lstrip in Hs. congruence. }
  destruct (Ascii.eqb a "+") eqn:Ep.
  - apply Ascii.eqb_eq in Ep. subst a. now apply parse_digits_nonneg in E.
  - destruct a as [[] [] [] [] [] [] [] []];
      try (now apply parse_digits_nonneg in E); discriminate.
Qed.

Lemma range_syntax_inc maxval r s e inc :
  range_syntax maxval r s e inc -> 0 <= inc.
Proof.
  intros H. destruct H as [a b s e _ _ _ _ _|a b c s e inc _ _ Hc _ _ _ _ Hi]; [lia|].
  now apply (int_nonneg c).
Qed.

(** X6. What the range parser returns: every returned sequence comes from a
    string of the grammar with [0 < START <= END] and a positive increment;
    it is the stepped range of these numbers, so it is ascending, begins
    with START, and holds only positive numbers, none above the maximum
    value when one is given. It is never empty. *)
Theorem parseRangeStr_sound (r : string) (maxval : option Z) (l : list Z) :
  _parseRangeStr r maxval = Ok l ->
  exists s e inc,
    range_syntax maxval r s e inc /\ 0 < s <= e /\ 0 < inc
    /\ stepped_range s e inc l
    /\ (exists t, l = s :: t)
    /\ (forall x, In x l -> 0 < x /\ forall m, maxval = Some m -> x <= m).
Proof.
  intros H.
  destruct (parseRangeStr_Ok_inv r maxval l H) as (s & e & inc & Hsyn & Hse & Hmax & Hinc).
  pose proof (range_syntax_inc _ _ _ _ _ Hsyn) as Hnn.
  assert (Hpos : 0 < inc) by lia.
  exists s, e, inc. split; [done|]. split; [done|]. split; [done|].
  rewrite (parse_of_syntax _ _ _ _ _ Hsyn) in H.
  replace (e <? s) with false in H by lia.
  replace ((s <=? 0) || (e <=? 0)) with false in H by lia.
  assert (Hr : py_range s (e + 1) inc = Ok l).
  { destruct maxval as [m|]; [|done].
    specialize (Hmax m eq_refl). now replace (m <? e) with false in H by lia. }
  destruct (py_range_stepped s e inc ltac:(lia) Hpos) as (l' & Hl' & Hst).
  rewrite Hr in Hl'. injection Hl' as <-.
  split; [done|]. split.
  - unfold py_range in Hr. replace (inc =? 0) with false in Hr by lia.
    replace (0 <? inc) with true in Hr by lia. injection Hr as <-.
    assert (Hlen : 1 <= (e + 1 - s + inc - 1) / inc).
    { apply Z.div_le_lower_bound; lia. }
    destruct (Z.to_nat ((e + 1 - s + inc - 1) / inc)) as [|k] eqn:Ek; [lia|].
    cbn [seq map]. eexists. f_equal. lia.
  - intros x Hx. apply (proj2 Hst) in Hx as [Hx _]. split; [lia|].
    intros m Hm. specialize (Hmax m Hm). lia.
Qed.

Lemma parseRangeStr_sound_witness :
  exists s e inc,
    range_syntax (Some 12) "2-11+3" s e inc /\ 0 < s <= e /\ 0 < inc
    /\ stepped_range s e inc [2; 5; 8; 11]
    /\ (exists t, [2; 5; 8; 11] = s :: t)
    /\ (forall x, In x [2; 5; 8; 11] -> 0 < x /\ forall m, Some 12 = Some m -> x <= m).
Proof.
  apply (parseRangeStr_sound "2-11+3" (Some 12) [2; 5; 8; 11]). reflexivity.
Defined.

End RangeSoundness.
(** ** Further properties of request construction *)

Section DictLaws.

Context {K V : Type} `{EqDecision K}.

Implicit Types (d : list (K * V)) (k : K) (v : V).

Lemma dict_get_set_eq k v d : dict_get k (dict_set k v d) = Some v.
Proof.
  induction d as [|[k' v'] d IH]; simpl.
  - now destruct (decide (k = k)).
  - destruct (decide (k' = k)) as [E|E]; simpl.
    + now destruct (decide (k = k)).
    + now destruct (decide (k' = k)).
Qed.

Lemma dict_get_set_ne k k' v d : k' <> k -> dict_get k (dict_set k' v d) = dict_get k d.
Proof.
  intros Hne. induction d as [|[k0 v0] d IH]; simpl.
  - now destruct (decide (k' = k)).
  - destruct (decide (k0 = k')) as [E|E]; simpl.
    + subst k0. destruct (decide (k' = k)); done.
    + destruct (decide (k0 = k)); done.
Qed.

Lemma dict_get_app k d d' :
  dict_get k (d ++ d')
  = match dict_get k d with Some v => Some v | None => dict_get k d' end.
Proof.
  induction d as [|[k0 v0] d IH]; simpl; [done|].
  now destruct (decide (k0 = k)).
Qed.

(** [update]: each key gets the value of its last pair. *)
Lemma dict_get_update k (l : list (K * V)) : forall d,
  dict_get k (fold_left (fun d '(k, v) => dict_set k v d) l d)
  = match dict_get k (rev l) with Some v => Some v | None => dict_get k d end.
Proof.
  induction l as [|[k' v'] l IH]; intros d; simpl; [done|].
  rewrite IH, dict_get_app. destruct (dict_get k (rev l)); [done|].
  simpl. destruct (decide (k' = k)) as [->|E].
  - apply dict_get_set_eq.
  - now apply dict_get_set_ne.
Qed.

End DictLaws.

Lemma mapM_Forall2 {A B : Type} (f : A -> result B) l : forall ys,
  mapM f l = Ok ys -> Forall2 (fun a b => f a = Ok b) l ys.
Proof.
  induction l as [|x l IH]; intros ys H; simpl in H.
  - injection H as <-. constructor.
  - apply bind_Ok_inv in H as (y & Hy & H).
    apply bind_Ok_inv in H as (ys' & Hys & H). injection H as <-.
    constructor; [done|now apply IH].
Qed.

Section RequestStages.

Context {CRS : Type}.
Variable getCRSMetadata : CRS -> result pyval.

Import RequestSpec RequestUpdate.

(** When the stages up to the metadata pass, construction comes down to
    the policy check, the grain check and the format check, in this
    order. *)
Lemma init_pass cat dsvars ds de ys ms days gm geom crs res ri rt ofmt md dts grain meta :
  DateSelect._parseDates ds de ys ms days = Ok (dts, grain) ->
  rt = REQ_RASTER \/ rt = REQ_POINT ->
  (rt = REQ_RASTER -> str_in (default "nearest" ri) RESAMPLE_METHODS = true) ->
  (rt = REQ_POINT -> str_in (default "nearest" ri) POINT_METHODS = true) ->
  (rt = REQ_POINT -> is_multipoint geom = true) ->
  _getMetadata getCRSMetadata cat dsvars ds de crs res rt (default "nearest" ri) md
  = Ok meta ->
  __init__ getCRSMetadata cat dsvars ds de ys ms days gm geom crs res ri rt ofmt md
  = if negb (str_in (default "strict" gm) GRAIN_METHODS) then
      Raise (ValueError (msg_grain_method (default "strict" gm)))
    else
      let* _ := _verifyGrains cat dsvars grain (default "strict" gm) in
      let fmt := match ofmt with
                 | None => if rt =? REQ_RASTER then "geotiff" else "csv"
                 | Some f => f
                 end in
      if (rt =? REQ_RASTER) && negb (str_in fmt GRID_OUTPUT) then
        Raise (ValueError (msg_format fmt))
      else if (rt =? REQ_POINT) && negb (str_in fmt POINT_OUTPUT) then
        Raise (ValueError (msg_format fmt))
      else
        match FILE_EXT !! fmt with
        | None => Raise (KeyError fmt)
        | Some ext =>
            Ok (mkDataRequest cat dsvars ds de dts grain geom crs res rt
                  (default "nearest" ri) meta (default "strict" gm) ext)
        end.
Proof.
  intros Hd Hrt Hres Hpt Hgeo Hm.
  unfold __init__. rewrite Hd, bind_Ok. cbv zeta.
  assert (E0 : negb (int_in rt [REQ_RASTER; REQ_POINT]) = false).
  { apply negb_false_iff, int_in_In. destruct Hrt as [-> | ->]; simpl; tauto. }
  rewrite E0.
  assert (E1 : (rt =? REQ_RASTER)
               && negb (str_in (default "nearest" ri) RESAMPLE_METHODS) = false).
  { destruct (rt =? REQ_RASTER) eqn:E; [|done]. apply Z.eqb_eq in E.
    cbn [andb]. apply negb_false_iff. auto. }
  rewrite E1.
  assert (E2 : (rt =? REQ_POINT)
               && negb (str_in (default "nearest" ri) POINT_METHODS) = false).
  { destruct (rt =? REQ_POINT) eqn:E; [|done]. apply Z.eqb_eq in E.
    cbn [andb]. apply negb_false_iff. auto. }
  rewrite E2.
  assert (E3 : (rt =? REQ_POINT) && negb (is_multipoint geom) = false).
  { destruct (rt =? REQ_POINT) eqn:E; [|done]. apply Z.eqb_eq in E.
    cbn [andb]. apply negb_false_iff. auto. }
  rewrite E3, Hm, bind_Ok. reflexivity.
Qed.

Lemma str_in_false x l : ~ In x l -> str_in x l = false.
Proof. intros H. apply not_true_is_false. intros E. now apply str_in_In in E. Qed.

Lemma parseDates_raises_or_returns ds de ys ms days :
  raises (DateSelect._parseDates ds de ys ms days)
  \/ returns (DateSelect._parseDates ds de ys ms days).
Proof.
  pose proof (DateSelectFacts.parseDates_total ds de ys ms days) as H.
  destruct (DateSelect._parseDates ds de ys ms days) as [r|e|];
    [right; eexists|left; eexists|done]; reflexivity.
Qed.

(** X7. The request type and the geometry: a request type other than RASTER
    and POINT is refused, and so is a POINT request whose geometry is not a
    multipoint; a constructed request has the type and the geometry it was
    given, and a constructed POINT request has a multipoint geometry. *)
Theorem init_request_type cat dsvars ds de ys ms days gm geom crs res ri rt ofmt md :
  (rt <> REQ_RASTER -> rt <> REQ_POINT ->
   raises (__init__ getCRSMetadata cat dsvars ds de ys ms days gm geom crs res ri rt
             ofmt md)
   /\ (returns (DateSelect._parseDates ds de ys ms days) ->
       __init__ getCRSMetadata cat dsvars ds de ys ms days gm geom crs res ri rt ofmt md
       = Raise (ValueError "Invalid request type.")))
  /\ (rt = REQ_POINT -> is_multipoint geom = false ->
      raises (__init__ getCRSMetadata cat dsvars ds de ys ms days gm geom crs res ri rt
                ofmt md)
      /\ (returns (DateSelect._parseDates ds de ys ms days) ->
          In (default "nearest" ri) POINT_METHODS ->
          __init__ getCRSMetadata cat dsvars ds de ys ms days gm geom crs res ri rt ofmt
            md
          = Raise (ValueError "No points provided for output.")))
  /\ (forall r,
        __init__ getCRSMetadata cat dsvars ds de ys ms days gm geom crs res ri rt ofmt md
        = Ok r ->
        request_type r = rt /\ subset_geom r = geom
        /\ (rt = REQ_RASTER \/ rt = REQ_POINT)
        /\ (rt = REQ_POINT -> exists c, geom = Some (SubsetMultiPoint c))).
Proof.
  split; [|split].
  - intros H0 H1.
    assert (E : negb (int_in rt [REQ_RASTER; REQ_POINT]) = true).
    { apply negb_true_iff, not_true_is_false. intros E. apply int_in_In in E.
      simpl in E. intuition. }
    unfold __init__.
    destruct (parseDates_raises_or_returns ds de ys ms days) as [[e He]|[[dts g] Hd]].
    + rewrite He. simpl. split; [eexists; reflexivity|].
      intros [x Hx]. discriminate Hx.
    + rewrite Hd, bind_Ok, E. split; [eexists; reflexivity|done].
  - intros -> Hg. unfold __init__.
    destruct (parseDates_raises_or_returns ds de ys ms days) as [[e He]|[[dts g] Hd]].
    + rewrite He. simpl. split; [eexists; reflexivity|].
      intros [x Hx]. discriminate Hx.
    + rewrite Hd, bind_Ok. cbv zeta.
      change (negb (int_in REQ_POINT [REQ_RASTER; REQ_POINT])) with false. cbv iota.
      change (REQ_POINT =? REQ_RASTER) with false.
      change (REQ_POINT =? REQ_POINT) with true. cbn [andb]. rewrite Hg.
      destruct (str_in (default "nearest" ri) POINT_METHODS) eqn:Em; simpl.
      * split; [eexists; reflexivity|done].
      * split; [eexists; reflexivity|]. intros _ Hin.
        assert (Hc : str_in (default "nearest" ri) POINT_METHODS = true)
          by (apply str_in_In; exact Hin).
        congruence.
  - intros r H. apply init_Ok_inv in H
      as (dts & grain & meta & ext & _ & Hrt & _ & _ & Hg & _ & _ & _ & _ & _ & _ & ->).
    cbv zeta in *. cbn [request_type subset_geom].
    split; [done|]. split; [done|]. split; [done|].
    intros Hp. specialize (Hg Hp).
    destruct geom as [[c|c]|]; [discriminate|eauto|discriminate].
Qed.

(** X8. The format is checked last: once a request is constructed with one
    format, it is constructed with every format of its request type,
    differing in the file extension only, and refused with the
    invalid-format error for every other format. *)
Theorem init_output_format cat dsv ds de ys ms days gm geom crs res ri rt ofmt md r :
  __init__ getCRSMetadata cat dsv ds de ys ms days gm geom crs res ri rt ofmt md
  = Ok r ->
  forall f,
    (In f (formats_of rt) ->
     exists ext,
       FILE_EXT !! f = Some ext
       /\ __init__ getCRSMetadata cat dsv ds de ys ms days gm geom crs res ri rt
            (Some f) md
          = Ok (with_file_extension ext r))
    /\ (~ In f (formats_of rt) ->
        __init__ getCRSMetadata cat dsv ds de ys ms days gm geom crs res ri rt
          (Some f) md
        = Raise (ValueError (msg_format f))).
Proof.
  intros H f. apply init_Ok_inv in H
    as (dts & grain & meta & ext & Hd & Hrt & Hres & Hpt & Hg & Hm & Hpol & Hv & _ & _ & _
        & ->).
  cbv zeta in *.
  rewrite (init_pass _ _ _ _ _ _ _ _ _ _ _ _ _ (Some f) _ _ _ _ Hd Hrt Hres Hpt Hg Hm).
  rewrite Hpol, Hv. cbn [negb]. rewrite bind_Ok. cbv zeta.
  unfold formats_of, with_file_extension.
  cbn [dsc dsvars date_start_raw date_end_raw dates date_grain subset_geom target_crs
       target_resolution request_type ri_method metadata grain_method file_extension].
  destruct Hrt as [-> | ->].
  - change (REQ_RASTER =? REQ_RASTER) with true.
    change (REQ_RASTER =? REQ_POINT) with false. cbn [andb]. split.
    + intros Hin. rewrite (proj2 (str_in_In f GRID_OUTPUT) Hin). cbn [negb].
      simpl in Hin. destruct Hin as [<-|[<-|[]]]; eexists; (split; reflexivity).
    + intros Hn. now rewrite (str_in_false _ _ Hn).
  - change (REQ_POINT =? REQ_RASTER) with false.
    change (REQ_POINT =? REQ_POINT) with true. cbn [andb]. split.
    + intros Hin. rewrite (proj2 (str_in_In f POINT_OUTPUT) Hin). cbn [negb].
      simpl in Hin. destruct Hin as [<-|[<-|[<-|[]]]]; eexists; (split; reflexivity).
    + intros Hn. now rewrite (str_in_false _ _ Hn).
Qed.

(** X9. The grain policy matters through the strict check only: once a
    request is constructed, it is constructed under every policy other than
    strict, differing in the stored policy only; it is refused with the
    invalid-policy error for every text that is no policy; and under the
    strict policy it is constructed too unless some dataset of the request
    is temporal and lacks the grain, in which case the error names such a
    dataset. *)
Theorem init_grain_policy cat dsvars ds de ys ms days gm geom crs res ri rt ofmt md r :
  __init__ getCRSMetadata cat dsvars ds de ys ms days gm geom crs res ri rt ofmt md
  = Ok r ->
  (forall p,
     (In p GRAIN_METHODS -> p <> "strict" ->
      __init__ getCRSMetadata cat dsvars ds de ys ms days (Some p) geom crs res ri rt
        ofmt md
      = Ok (with_grain_method p r))
     /\ (~ In p GRAIN_METHODS ->
         __init__ getCRSMetadata cat dsvars ds de ys ms days (Some p) geom crs res ri rt
           ofmt md
         = Raise (ValueError (msg_grain_method p))))
  /\ (__init__ getCRSMetadata cat dsvars ds de ys ms days None geom crs res ri rt ofmt md
      = Ok (with_grain_method "strict" r)
      \/ exists d,
           In d (map fst dsvars) /\ lacks_grain cat (date_grain r) d
           /\ __init__ getCRSMetadata cat dsvars ds de ys ms days None geom crs res ri rt
                ofmt md
              = Raise (ValueError (msg_granularity d))).
Proof.
  intros H. apply init_Ok_inv in H
    as (dts & grain & meta & ext & Hd & Hrt & Hres & Hpt & Hg & Hm & Hpol & Hv & Hgo & Hpo
        & Hext & ->).
  cbv zeta in *.
  set (fmt := match ofmt with
              | Some f => f
              | None => if rt =? REQ_RASTER then "geotiff" else "csv"
              end) in *.
  assert (E5 : (rt =? REQ_RASTER) && negb (str_in fmt GRID_OUTPUT) = false).
  { destruct (rt =? REQ_RASTER) eqn:E; [|done]. apply Z.eqb_eq in E.
    cbn [andb]. apply negb_false_iff. auto. }
  assert (E6 : (rt =? REQ_POINT) && negb (str_in fmt POINT_OUTPUT) = false).
  { destruct (rt =? REQ_POINT) eqn:E; [|done]. apply Z.eqb_eq in E.
    cbn [andb]. apply negb_false_iff. auto. }
  split.
  - intros p.
    rewrite (init_pass _ _ _ _ _ _ _ (Some p) _ _ _ _ _ ofmt _ _ _ _ Hd Hrt Hres Hpt Hg Hm).
    change (default "strict" (Some p)) with p. split.
    + intros Hin Hns. rewrite (proj2 (str_in_In p GRAIN_METHODS) Hin). cbn [negb].
      unfold _verifyGrains. apply String.eqb_neq in Hns. rewrite Hns, bind_Ok.
      cbv zeta. fold fmt. now rewrite E5, E6, Hext.
    + intros Hn. now rewrite (str_in_false _ _ Hn).
  - rewrite (init_pass _ _ _ _ _ _ _ None _ _ _ _ _ ofmt _ _ _ _ Hd Hrt Hres Hpt Hg Hm).
    cbn [default]. change (negb (str_in "strict" GRAIN_METHODS)) with false. cbv iota.
    unfold _verifyGrains. simpl String.eqb. cbv iota.
    pose proof (getMetadata_Ok_catalog _ _ _ _ _ _ _ _ _ _ _ Hm) as Hcat.
    destruct (verify_loop_cases cat grain (map fst dsvars) Hcat)
      as [[Hok _]|(d & Hin & Hl & Hr)].
    + left. rewrite Hok, bind_Ok. cbv zeta. fold fmt. now rewrite E5, E6, Hext.
    + right. exists d. split; [done|]. split; [done|]. now rewrite Hr.
Qed.

Lemma mapM_catalog_missing (g : string -> list string -> Dataset -> pyval) cat
    (dsvars : list (string * list string)) :
  (exists d, In d (map fst dsvars) /\ cat !! d = None) ->
  exists d,
    In d (map fst dsvars) /\ cat !! d = None
    /\ mapM (fun '(dsid, vars) =>
               let* ds := catalog_get cat dsid in Ok (g dsid vars ds)) dsvars
       = Raise (KeyError d).
Proof.
  induction dsvars as [|[d0 vars] l IH]; intros (d & Hin & Hd); [destruct Hin|].
  cbn [mapM]. unfold catalog_get at 1.
  destruct (cat !! d0) as [dset|] eqn:E0.
  - rewrite !bind_Ok.
    destruct Hin as [Heq|Hin]; [simpl in Heq; congruence|].
    destruct IH as (d' & Hin' & Hd' & Hr); [eauto|].
    exists d'. split; [now right|]. split; [done|]. now rewrite Hr.
  - exists d0. split; [now left|]. done.
Qed.

(** X10. A data set that the catalog does not hold: with such a data set in
    the request, the metadata stage never returns, and fails with a
    [KeyError] for a missing data set once the CRS metadata is there; so
    no request that names an unknown data set is ever constructed. *)
Theorem getMetadata_unknown_dataset cat dsvars ds de crs res rt ri md :
  (exists d, In d (map fst dsvars) /\ cat !! d = None) ->
  ~ returns (_getMetadata getCRSMetadata cat dsvars ds de crs res rt ri md)
  /\ (returns (getCRSMetadata crs) ->
      exists d,
        In d (map fst dsvars) /\ cat !! d = None
        /\ _getMetadata getCRSMetadata cat dsvars ds de crs res rt ri md
           = Raise (KeyError d))
  /\ (forall ys ms days gm geom ri' ofmt,
        ~ returns (__init__ getCRSMetadata cat dsvars ds de ys ms days gm geom crs res
                     ri' rt ofmt md)).
Proof.
  intros Hmiss. split; [|split].
  - intros [meta Hm].
    pose proof (getMetadata_Ok_catalog _ _ _ _ _ _ _ _ _ _ _ Hm) as Hcat.
    destruct Hmiss as (d & Hin & Hd). destruct (Hcat d Hin) as [x Hx]. congruence.
  - intros [crs_md Hc]. unfold _getMetadata. cbv zeta. rewrite Hc, bind_Ok.
    destruct (mapM_catalog_missing
                (fun _ vars dset =>
                   PDict (dict_set "requested_vars" (PList (map PStr vars))
                            (getMetadata dset)))
                cat dsvars Hmiss) as (d & Hin & Hd & Hr).
    exists d. split; [done|]. split; [done|]. now rewrite Hr.
  - intros ys ms days gm geom ri' ofmt [r Hr]. apply init_Ok_inv in Hr
      as (dts & grain & meta & ext & _ & _ & _ & _ & _ & Hm & _).
    cbv zeta in Hm.
    pose proof (getMetadata_Ok_catalog _ _ _ _ _ _ _ _ _ _ _ Hm) as Hcat.
    destruct Hmiss as (d & Hin & Hd). destruct (Hcat d Hin) as [x Hx]. congruence.
Qed.

(** X11. The metadata document of a request: two entries, the request and the
    datasets; the request part holds the raw dates, the CRS metadata and
    the type, resolution and method of the request under fixed keys, which
    override what the caller passed under these keys, and every other key
    of the caller with its last value; the dataset part holds one document
    per dataset of the request, in the order of the request: the metadata
    of the dataset with the requested variables added. *)
Theorem getMetadata_content cat dsvars ds de crs res rt ri md meta :
  _getMetadata getCRSMetadata cat dsvars ds de crs res rt ri md = Ok meta ->
  exists req dsl crs_md,
    meta = [("request", PDict req); ("datasets", PList dsl)]
    /\ getCRSMetadata crs = Ok crs_md
    /\ dict_get "target_date_range" req = Some (PList [pystr_opt ds; pystr_opt de])
    /\ dict_get "target_crs" req = Some crs_md
    /\ (rt = REQ_RASTER ->
        dict_get "request_type" req = Some (PStr "raster")
        /\ dict_get "target_resolution" req = Some res
        /\ dict_get "resample_method" req = Some (PStr ri))
    /\ (rt = REQ_POINT ->
        dict_get "request_type" req = Some (PStr "points")
        /\ dict_get "interpolation_method" req = Some (PStr ri))
    /\ (forall k, ~ In k derived_keys -> dict_get k req = last_value k md)
    /\ Forall2 (fun '(dsid, vars) doc =>
                  exists dset dd,
                    cat !! dsid = Some dset /\ doc = PDict dd
                    /\ dict_get "requested_vars" dd = Some (PList (map PStr vars))
                    /\ forall k, k <> "requested_vars" ->
                                 dict_get k dd = dict_get k (getMetadata dset))
               dsvars dsl.
Proof.
  unfold _getMetadata. cbv zeta. intros H.
  apply bind_Ok_inv in H as (crs_md & Hc & H).
  apply bind_Ok_inv in H as (dsl & Hm & H). injection H as <-.
  eexists _, dsl, crs_md. split; [reflexivity|]. split; [done|].
  assert (Hne : forall k, ~ In k derived_keys ->
            "target_date_range" <> k /\ "target_crs" <> k /\ "request_type" <> k
            /\ "target_resolution" <> k /\ "resample_method" <> k
            /\ "interpolation_method" <> k).
  { intros k Hk. unfold derived_keys in Hk. simpl in Hk. repeat split; intros E; tauto. }
  split; [|split; [|split; [|split; [|split]]]].
  - destruct (rt =? REQ_RASTER); [|destruct (rt =? REQ_POINT)];
      rewrite ?dict_get_set_ne by discriminate; apply dict_get_set_eq.
  - destruct (rt =? REQ_RASTER); [|destruct (rt =? REQ_POINT)];
      rewrite ?dict_get_set_ne by discriminate; apply dict_get_set_eq.
  - intros ->. change (REQ_RASTER =? REQ_RASTER) with true. cbv iota.
    repeat split; rewrite ?dict_get_set_ne by discriminate; apply dict_get_set_eq.
  - intros ->. change (REQ_POINT =? REQ_RASTER) with false.
    change (REQ_POINT =? REQ_POINT) with true. cbv iota.
    repeat split; rewrite ?dict_get_set_ne by discriminate; apply dict_get_set_eq.
  - intros k Hk. destruct (Hne k Hk) as (N1 & N2 & N3 & N4 & N5 & N6).
    unfold last_value.
    destruct (rt =? REQ_RASTER); [|destruct (rt =? REQ_POINT)];
      rewrite ?dict_get_set_ne by done; rewrite dict_get_update;
      now destruct (dict_get k (rev md)).
  - apply mapM_Forall2 in Hm. eapply Forall2_impl; [exact Hm|].
    intros [dsid vars] doc Hdoc. simpl in Hdoc.
    apply bind_Ok_inv in Hdoc as (dset & Hget & Hdoc). injection Hdoc as <-.
    unfold catalog_get in Hget. destruct (cat !! dsid) as [x|] eqn:E; [|discriminate].
    injection Hget as ->. exists dset. eexists. split; [done|]. split; [reflexivity|].
    split; [apply dict_get_set_eq|]. intros k Hk. now apply dict_get_set_ne.
Qed.

(** The extension of a constructed request, by request type. *)
Lemma init_extension cat dsv ds de ys ms days gm geom crs res ri rt ofmt md r :
  __init__ getCRSMetadata cat dsv ds de ys ms days gm geom crs res ri rt ofmt md
  = Ok r ->
  request_type r = rt /\ dsvars r = dsv /\ subset_geom r = geom
  /\ (rt = REQ_RASTER ->
      (file_extension r = ".tif" \/ file_extension r = ".nc")
      /\ (ofmt = None -> file_extension r = ".tif"))
  /\ (rt = REQ_POINT ->
      (file_extension r = ".csv" \/ file_extension r = ".shp"
       \/ file_extension r = ".nc")
      /\ (ofmt = None -> file_extension r = ".csv")).
Proof.
  intros H. apply init_Ok_inv in H
    as (dts & grain & meta & ext & _ & _ & _ & _ & _ & _ & _ & _ & Hgo & Hpo & Hext & ->).
  cbv zeta in *.
  cbn [dsvars subset_geom request_type file_extension].
  set (fmt := match ofmt with
              | Some f => f
              | None => if rt =? REQ_RASTER then "geotiff" else "csv"
              end) in *.
  repeat (split; [done|]). split.
  - intros Hrt. specialize (Hgo Hrt). apply str_in_In in Hgo. split.
    + simpl in Hgo. destruct Hgo as [E|[E|[]]]; rewrite <- E in Hext;
        vm_compute in Hext; injection Hext as <-; tauto.
    + intros Ho. subst rt ofmt fmt. vm_compute in Hext. now injection Hext as <-.
  - intros Hrt. specialize (Hpo Hrt). apply str_in_In in Hpo. split.
    + simpl in Hpo. destruct Hpo as [E|[E|[E|[]]]]; rewrite <- E in Hext;
        vm_compute in Hext; injection Hext as <-; tauto.
    + intros Ho. subst rt ofmt fmt. vm_compute in Hext. now injection Hext as <-.
Qed.

(** X12. The invariant of a constructed request: what [__init__] has
    established about the fields of the object it returns. *)
Theorem init_invariant cat dsv ds de ys ms days gm geom crs res ri rt ofmt md r :
  __init__ getCRSMetadata cat dsv ds de ys ms days gm geom crs res ri rt ofmt md
  = Ok r ->
  dsc r = cat /\ dsvars r = dsv
  /\ date_start_raw r = ds /\ date_end_raw r = de
  /\ DateSpec.selection_ok (dates r) (date_grain r)
  /\ In (date_grain r) [NONE; ANNUAL; MONTHLY; DAILY]
  /\ In (request_type r) [REQ_RASTER; REQ_POINT]
  /\ In (grain_method r) GRAIN_METHODS
  /\ (forall d, In d (map fst dsv) -> is_Some (cat !! d))
  /\ (request_type r = REQ_RASTER ->
      In (ri_method r) RESAMPLE_METHODS /\ In (file_extension r) [".tif"; ".nc"])
  /\ (request_type r = REQ_POINT ->
      In (ri_method r) POINT_METHODS /\ In (file_extension r) [".csv"; ".shp"; ".nc"]
      /\ is_multipoint (subset_geom r) = true)
  /\ (grain_method r = "strict" ->
      forall d, In d (map fst dsv) -> ~ lacks_grain cat (date_grain r) d).
Proof.
  intros H. apply init_Ok_inv in H
    as (dts & grain & meta & ext & Hd & Hrt & Hres & Hpt & Hg & Hm & Hpol & Hv & Hgo & Hpo
        & Hext & ->).
  cbv zeta in *.
  cbn [dsc dsvars date_start_raw date_end_raw dates date_grain subset_geom request_type
       ri_method grain_method file_extension].
  set (fmt := match ofmt with
              | Some f => f
              | None => if rt =? REQ_RASTER then "geotiff" else "csv"
              end) in *.
  pose proof (getMetadata_Ok_catalog _ _ _ _ _ _ _ _ _ _ _ Hm) as Hcat.
  repeat (split; [done|]).
  split; [|split; [|split; [|split; [|split; [|split; [|split]]]]]].
  - apply DateRangeFacts.parseDates_Ok_cases in Hd as [(_ & -> & ->)|[_ Hd]].
    + split; [done|]. split; constructor.
    + now apply SimpleRangeFacts.parseSimple_selection_ok in Hd.
  - apply DateRangeFacts.parseDates_Ok_cases in Hd as [(_ & _ & ->)|[_ Hd]];
      [simpl; tauto|].
    apply SimpleRangeFacts.parseSimple_Ok in Hd as [[-> _]|[[-> _]|[-> _]]]; simpl; tauto.
  - destruct Hrt as [-> | ->]; simpl; tauto.
  - now apply str_in_In.
  - exact Hcat.
  - intros Hr. split; [apply str_in_In; auto|].
    specialize (Hgo Hr). apply str_in_In in Hgo. simpl in Hgo.
    destruct Hgo as [E|[E|[]]]; rewrite <- E in Hext; vm_compute in Hext;
      injection Hext as <-; simpl; tauto.
  - intros Hr. split; [apply str_in_In; auto|]. split; [|auto].
    specialize (Hpo Hr). apply str_in_In in Hpo. simpl in Hpo.
    destruct Hpo as [E|[E|[E|[]]]]; rewrite <- E in Hext; vm_compute in Hext;
      injection Hext as <-; simpl; tauto.
  - intros Hs. rewrite Hs in Hv. unfold _verifyGrains in Hv. simpl String.eqb in Hv.
    cbv iota in Hv.
    destruct (verify_loop_cases cat grain (map fst dsv) Hcat)
      as [[_ Hall]|(d & _ & _ & Hr)]; [exact Hall|congruence].
Qed.

End RequestStages.

Module RequestStageExamples.

Import RequestSpec RequestUpdate Examples PolicyExamples.

Lemma init_request_type_witness :
  request [("PRISM", ["ppt"])] None 7 None None
  = Raise (ValueError "Invalid request type.")
  /\ request [("PRISM", ["ppt"])] None REQ_POINT None (Some (SubsetPolygon "EPSG:4326"))
     = Raise (ValueError "No points provided for output.").
Proof.
  pose proof (init_request_type crs_metadata catalog [("PRISM", ["ppt"])]
                (Some "2019") (Some "2020") None None None None None "EPSG:4326" PNone
                None 7 None []) as (H & _ & _).
  pose proof (init_request_type crs_metadata catalog [("PRISM", ["ppt"])]
                (Some "2019") (Some "2020") None None None None
                (Some (SubsetPolygon "EPSG:4326")) "EPSG:4326" PNone
                None REQ_POINT None []) as (_ & H' & _).
  split.
  - apply (proj2 (H ltac:(discriminate) ltac:(discriminate))). eexists. reflexivity.
  - apply (proj2 (H' eq_refl eq_refl)); [eexists; reflexivity|simpl; tauto].
Defined.

Lemma init_output_format_witness :
  exists r,
    request [("PRISM", ["ppt"])] None REQ_RASTER None None = Ok r
    /\ request [("PRISM", ["ppt"])] None REQ_RASTER (Some "netcdf") None
       = Ok (with_file_extension ".nc" r)
    /\ request [("PRISM", ["ppt"])] None REQ_RASTER (Some "csv") None
       = Raise (ValueError (msg_format "csv")).
Proof.
  unfold request.
  destruct (__init__ crs_metadata catalog [("PRISM", ["ppt"])] (Some "2019")
              (Some "2020") None None None None None "EPSG:4326" PNone None REQ_RASTER
              None []) as [r|e|] eqn:E;
    [|vm_compute in E; discriminate E|vm_compute in E; discriminate E].
  exists r. split; [reflexivity|].
  pose proof (init_output_format crs_metadata _ _ _ _ _ _ _ _ _ _ _ _ _ _ _ r E) as H.
  split.
  - destruct (proj1 (H "netcdf") ltac:(simpl; tauto)) as (ext & Hext & Hr).
    vm_compute in Hext. injection Hext as <-. exact Hr.
  - apply (proj2 (H "csv")). simpl. intros [H1|[H1|[]]]; discriminate H1.
Defined.

Lemma init_grain_policy_witness :
  exists r,
    request_with_policy (Some "skip") = Ok r
    /\ request_with_policy (Some "any") = Ok (with_grain_method "any" r)
    /\ request_with_policy (Some "loose") = Raise (ValueError (msg_grain_method "loose"))
    /\ (request_with_policy None = Ok (with_grain_method "strict" r)
        \/ exists d,
             In d ["PRISM"; "MODIS_NDVI"] /\ lacks_grain catalog (date_grain r) d
             /\ request_with_policy None = Raise (ValueError (msg_granularity d))).
Proof.
  unfold request_with_policy.
  destruct (__init__ crs_metadata catalog [("PRISM", ["ppt"]); ("MODIS_NDVI", ["NDVI"])]
              (Some "2019") (Some "2020") None None None (Some "skip") None "EPSG:4326"
              PNone None REQ_RASTER None []) as [r|e|] eqn:E;
    [|vm_compute in E; discriminate E|vm_compute in E; discriminate E].
  exists r. split; [reflexivity|].
  pose proof (init_grain_policy crs_metadata _ _ _ _ _ _ _ _ _ _ _ _ _ _ _ r E)
    as [H Hs].
  split; [|split].
  - apply (proj1 (H "any")); [simpl; tauto|discriminate].
  - apply (proj2 (H "loose")). simpl.
    intros H1. repeat (destruct H1 as [H1|H1]; [discriminate H1|]). exact H1.
  - exact Hs.
Defined.

Lemma getMetadata_unknown_dataset_witness :
  exists d,
    In d ["PRISM"; "DAYMET"] /\ catalog !! d = None
    /\ _getMetadata crs_metadata catalog [("PRISM", ["ppt"]); ("DAYMET", ["prcp"])]
         (Some "2019") (Some "2020") "EPSG:4326" PNone REQ_RASTER "nearest" []
       = Raise (KeyError d).
Proof.
  apply (proj1 (proj2 (getMetadata_unknown_dataset crs_metadata catalog
                         [("PRISM", ["ppt"]); ("DAYMET", ["prcp"])]
                         (Some "2019") (Some "2020") "EPSG:4326" PNone REQ_RASTER
                         "nearest" []
                         ltac:(exists "DAYMET"; split; [simpl; tauto|reflexivity])))).
  eexists. reflexivity.
Defined.

Lemma getMetadata_content_witness :
  exists (req : list (string * pyval)) (dsl : list pyval) (crs_md : pyval),
    crs_metadata "EPSG:4326" = Ok crs_md
    /\ dict_get "target_date_range" req = Some (PList [PStr "2019"; PStr "2020"])
    /\ dict_get "target_crs" req = Some crs_md
    /\ dict_get "request_type" req = Some (PStr "raster")
    /\ dict_get "resample_method" req = Some (PStr "nearest")
    /\ dict_get "user" req = Some (PStr "b")
    /\ length dsl = 1%nat.
Proof.
  destruct (_getMetadata crs_metadata catalog [("PRISM", ["ppt"])] (Some "2019")
              (Some "2020") "EPSG:4326" PNone REQ_RASTER "nearest"
              [("user", PStr "a"); ("request_type", PStr "mine"); ("user", PStr "b")])
    as [meta|e|] eqn:E;
    [|vm_compute in E; discriminate E|vm_compute in E; discriminate E].
  destruct (getMetadata_content crs_metadata _ _ _ _ _ _ _ _ _ meta E)
    as (req & dsl & crs_md & _ & Hc & Hd & Hcrs & Hr & _ & Hk & Hds).
  exists req, dsl, crs_md.
  destruct (Hr eq_refl) as (Hr1 & _ & Hr2).
  repeat (split; [done|]). split.
  - rewrite Hk; [reflexivity|]. unfold derived_keys. simpl.
    intros H1. repeat (destruct H1 as [H1|H1]; [discriminate H1|]). exact H1.
  - apply Forall2_length in Hds. now rewrite <- Hds.
Defined.

Lemma init_invariant_witness :
  exists r,
    request [("PRISM", ["ppt"])] None REQ_RASTER None None = Ok r
    /\ DateSpec.selection_ok (dates r) (date_grain r)
    /\ In (file_extension r) [".tif"; ".nc"]
    /\ In (grain_method r) GRAIN_METHODS
    /\ ~ lacks_grain catalog (date_grain r) "PRISM".
Proof.
  unfold request.
  destruct (__init__ crs_metadata catalog [("PRISM", ["ppt"])] (Some "2019")
              (Some "2020") None None None None None "EPSG:4326" PNone None REQ_RASTER
              None []) as [r|e|] eqn:E.
  - exists r. split; [reflexivity|].
    assert (Hrt : request_type r = REQ_RASTER) by (vm_compute in E; now injection E as <-).
    assert (Hgm : grain_method r = "strict") by (vm_compute in E; now injection E as <-).
    destruct (init_invariant crs_metadata _ _ _ _ _ _ _ _ _ _ _ _ _ _ _ r E)
      as (_ & _ & _ & _ & Hsel & _ & _ & Hpol & _ & Hras & _ & Hstrict).
    split; [exact Hsel|]. split; [exact (proj2 (Hras Hrt))|]. split; [exact Hpol|].
    apply (Hstrict Hgm). simpl. tauto.
  - vm_compute in E. discriminate E.
  - vm_compute in E. discriminate E.
Defined.

End RequestStageExamples.
(** ** The PRISM data set *)

Lemma mapM_Ok_map {A B : Type} (f : A -> result B) (g : A -> B) l :
  (forall a, In a l -> f a = Ok (g a)) -> mapM f l = Ok (map g l).
Proof.
  induction l as [|x l IH]; intros H; simpl; [done|].
  rewrite (H x (or_introl eq_refl)), bind_Ok, IH; [done|].
  intros a Ha. apply H. now right.
Qed.

Lemma mapM_never_Ok {A B : Type} (f : A -> result B) l ys :
  (forall a y, f a <> Ok y) -> mapM f l = Ok ys -> l = [] /\ ys = [].
Proof.
  intros Hf. destruct l as [|x l]; simpl; [now intros [= <-]|].
  intros H. apply bind_Ok_inv in H as (y & Hy & _). now apply Hf in Hy.
Qed.

Lemma str_app_assoc (a b c : string) : (a +:+ b) +:+ c = a +:+ (b +:+ c).
Proof.
  induction a as [|x a IH]; [done|].
  change (String x ((a +:+ b) +:+ c) = String x (a +:+ (b +:+ c))). now f_equal.
Qed.

Section PrismFacts.

Context {Bounds : Type}.
Variable _extractData : string -> string -> option Bounds -> result unit.

Import DateSpec DateRangeSpec PrismSpec.

Implicit Types (self : Catalog.PRISM) (bounds : option Bounds).

Lemma files_of_cons path rd dates vs :
  files_of path (rd :: dates) vs = map (path rd) vs ++ files_of path dates vs.
Proof. reflexivity. Qed.

Lemma files_of_year_seq o vs s n :
  concat (map (fun y => map (annual_path o (mkRequestDate y None None)) vs)
              (py_range2 s (s + Z.of_nat n)))
  = files_of (annual_path o) (year_seq s n) vs.
Proof.
  unfold files_of, year_seq, py_range2. rewrite flat_map_concat_map, !map_map.
  replace (Z.to_nat (s + Z.of_nat n - s)) with n by lia. reflexivity.
Qed.

(** *** When every file can be extracted *)

Section Extracting.

Variable self : Catalog.PRISM.
Variable sp : string.
Hypothesis store_path_set : Catalog.store_path self = Some sp.
Hypothesis extract_ok : forall out src bounds, _extractData out src bounds = Ok tt.

Lemma annual_file_Ok o bounds y v :
  is_Some (dict_get v (Catalog.fpatterns self)) ->
  Catalog.annual_file _extractData self o bounds y v
  = Ok (annual_path o (mkRequestDate y None None) v).
Proof.
  intros [pat Hp]. unfold Catalog.annual_file, Catalog.getitem, Catalog.get_store_path.
  rewrite Hp, store_path_set, !bind_Ok. cbv zeta. now rewrite extract_ok.
Qed.

Lemma monthly_file_Ok o bounds y m v :
  is_Some (dict_get v (Catalog.fpatterns self)) ->
  Catalog.monthly_file _extractData self o bounds y m v
  = Ok (monthly_path o (mkRequestDate y (Some m) None) v).
Proof.
  intros [pat Hp]. unfold Catalog.monthly_file, Catalog.getitem, Catalog.get_store_path.
  cbv zeta. rewrite Hp, store_path_set, !bind_Ok. now rewrite extract_ok.
Qed.

Lemma annual_subset_Ok o ds de vs bounds s e :
  has_patterns self vs -> PyStr.int ds = Ok s -> PyStr.int de = Ok e -> s <= e + 1 ->
  Catalog._getAnnualSubset _extractData self o ds de vs bounds
  = Ok (files_of (annual_path o) (year_seq s (Z.to_nat (e + 1 - s))) vs).
Proof.
  intros Hp Hs He Hord. unfold Catalog._getAnnualSubset.
  rewrite Hs, He, !bind_Ok. cbv zeta.
  replace (e + 1 <? s) with false by lia.
  rewrite (mapM_Ok_map _ (fun y => map (annual_path o (mkRequestDate y None None)) vs)).
  - rewrite bind_Ok. f_equal.
    rewrite <- files_of_year_seq. do 3 f_equal. lia.
  - intros y _. apply mapM_Ok_map. intros v Hv. apply annual_file_Ok. now apply Hp.
Qed.

Lemma prism_monthly_loop_seq o vs bounds sy ey em n :
  has_patterns self vs ->
  forall fuel cur_y cur_m m_cnt acc,
    cur_y = sy + m_cnt / 12 -> cur_m = m_cnt mod 12 + 1 ->
    ey * 12 + em = sy * 12 + m_cnt + Z.of_nat n ->
    (n <= fuel)%nat ->
    Catalog.monthly_loop _extractData self o vs bounds fuel sy ey em cur_y cur_m m_cnt acc
    = Ok (acc ++ files_of (monthly_path o) (month_seq sy m_cnt n) vs).
Proof.
  intros Hp.
  induction n as [|n IH]; intros fuel cur_y cur_m m_cnt acc Hy Hm Hend Hfuel.
  - assert (Hc : (cur_y * 12 + cur_m <=? ey * 12 + em) = false).
    { subst. apply Z.leb_gt. Z.div_mod_to_equations. lia. }
    destruct fuel; simpl; rewrite Hc; now rewrite app_nil_r.
  - destruct fuel as [|fuel]; [lia|]. cbn [Catalog.monthly_loop].
    assert (Hc : (cur_y * 12 + cur_m <=? ey * 12 + em) = true).
    { subst. apply Z.leb_le. Z.div_mod_to_equations. lia. }
    rewrite Hc.
    rewrite (mapM_Ok_map _ (monthly_path o (mkRequestDate cur_y (Some cur_m) None)))
      by (intros v Hv; apply monthly_file_Ok; now apply Hp).
    rewrite bind_Ok. rewrite IH; [|done|done|lia|lia].
    rewrite SimpleRangeFacts.month_seq_cons, files_of_cons, <- !app_assoc.
    subst. reflexivity.
Qed.

(** The first month is taken as it is written; the months after it
    follow the calendar. *)
Lemma monthly_subset_Ok o ds de vs bounds sy sm ey em :
  has_patterns self vs ->
  mapM PyStr.int (PyStr.split "-" ds) = Ok [sy; sm] ->
  mapM PyStr.int (PyStr.split "-" de) = Ok [ey; em] ->
  sy * 12 + sm <= ey * 12 + em ->
  Catalog._getMonthlySubset _extractData self o ds de vs bounds
  = Ok (map (monthly_path o (mkRequestDate sy (Some sm) None)) vs
        ++ files_of (monthly_path o)
             (month_seq sy sm (Z.to_nat (ey * 12 + em - (sy * 12 + sm)))) vs).
Proof.
  intros Hp Hs He Hord. unfold Catalog._getMonthlySubset.
  rewrite Hs, He. cbn [bind unpack2].
  replace (ey * 12 + em <? sy * 12 + sm) with false by lia. cbv zeta.
  replace (Z.to_nat (ey * 12 + em - (sy * 12 + sm) + 1))
    with (S (Z.to_nat (ey * 12 + em - (sy * 12 + sm)))) by lia.
  cbn [Catalog.monthly_loop].
  replace (sy * 12 + sm <=? ey * 12 + em) with true by lia.
  rewrite (mapM_Ok_map _ (monthly_path o (mkRequestDate sy (Some sm) None)))
    by (intros v Hv; apply monthly_file_Ok; now apply Hp).
  rewrite bind_Ok.
  rewrite (prism_monthly_loop_seq o vs bounds sy ey em
             (Z.to_nat (ey * 12 + em - (sy * 12 + sm)))); [|done|done|done|lia|lia].
  cbn [app]. replace (sm - 1 + 1) with sm by lia. reflexivity.
Qed.



End Extracting.

(** *** What a returning call has done *)

Lemma mapM_Ok_In {A B : Type} (f : A -> result B) l : forall ys,
  mapM f l = Ok ys -> forall y, In y ys -> exists a, In a l /\ f a = Ok y.
Proof.
  induction l as [|x l IH]; intros ys H y Hy; simpl in H.
  - injection H as <-. destruct Hy.
  - apply bind_Ok_inv in H as (y0 & Hy0 & H).
    apply bind_Ok_inv in H as (ys' & Hys & H). injection H as <-.
    destruct Hy as [<-|Hy]; [exists x; split; [now left|done]|].
    destruct (IH _ Hys _ Hy) as (a & Ha & Hfa). exists a. split; [now right|done].
Qed.

Lemma annual_file_inv self o bounds y v p :
  Catalog.annual_file _extractData self o bounds y v = Ok p ->
  is_Some (dict_get v (Catalog.fpatterns self)) /\ is_Some (Catalog.store_path self)
  /\ p = annual_path o (mkRequestDate y None None) v.
Proof.
  unfold Catalog.annual_file, Catalog.getitem, Catalog.get_store_path. intros H.
  destruct (dict_get v (Catalog.fpatterns self)) as [pat|]; [|discriminate].
  destruct (Catalog.store_path self) as [sp|]; [|discriminate].
  rewrite !bind_Ok in H. cbv zeta in H.
  apply bind_Ok_inv in H as (? & _ & H). injection H as <-.
  split; [eexists; reflexivity|]. split; [eexists; reflexivity|reflexivity].
Qed.

Lemma monthly_file_inv self o bounds y m v p :
  Catalog.monthly_file _extractData self o bounds y m v = Ok p ->
  is_Some (dict_get v (Catalog.fpatterns self)) /\ is_Some (Catalog.store_path self)
  /\ p = monthly_path o (mkRequestDate y (Some m) None) v.
Proof.
  unfold Catalog.monthly_file, Catalog.getitem, Catalog.get_store_path. cbv zeta.
  intros H.
  destruct (dict_get v (Catalog.fpatterns self)) as [pat|]; [|discriminate].
  destruct (Catalog.store_path self) as [sp|]; [|discriminate].
  rewrite !bind_Ok in H.
  apply bind_Ok_inv in H as (? & _ & H). injection H as <-.
  split; [eexists; reflexivity|]. split; [eexists; reflexivity|reflexivity].
Qed.

Lemma monthly_loop_inv self o vs bounds : forall fuel sy ey em cur_y cur_m m_cnt acc l,
  Catalog.monthly_loop _extractData self o vs bounds fuel sy ey em cur_y cur_m m_cnt acc
  = Ok l ->
  exists l',
    l = acc ++ l'
    /\ forall p, In p l' -> output_file self o vs p /\ is_Some (Catalog.store_path self).
Proof.
  induction fuel as [|fuel IH]; intros sy ey em cur_y cur_m m_cnt acc l;
    cbn [Catalog.monthly_loop];
    (destruct (cur_y * 12 + cur_m <=? ey * 12 + em);
     [|intros [= <-]; exists []; split; [now rewrite app_nil_r|intros p []]]);
    [discriminate|].
  intros H. apply bind_Ok_inv in H as (paths & Hp & H).
  apply IH in H as (l' & -> & Hl').
  exists (paths ++ l'). split; [now rewrite app_assoc|].
  intros p Hin. apply in_app_or in Hin as [Hin|Hin]; [|now apply Hl'].
  destruct (mapM_Ok_In _ _ _ Hp _ Hin) as (v & Hv & Hf).
  apply monthly_file_inv in Hf as (Hpat & Hsp & ->).
  split; [|exact Hsp]. exists v, (PyStr.str cur_y +:+ "-" +:+ PyStr.format02 cur_m).
  split; [exact Hv|]. split; [exact Hpat|].
  unfold monthly_path, DataRequestOutput.path_join. cbn [year month].
  change (default 0 (Some cur_m)) with cur_m. rewrite !str_app_assoc. reflexivity.
Qed.

Lemma getSubset_Ok_inv self o ds de vs bounds l :
  Catalog.getSubset _extractData self o ds de vs bounds = Ok l ->
  (String.length ds = 4%nat \/ String.length ds = 7%nat)
  /\ forall p, In p l -> output_file self o vs p /\ is_Some (Catalog.store_path self).
Proof.
  unfold Catalog.getSubset.
  destruct (String.length ds =? 4)%nat eqn:E4.
  { apply Nat.eqb_eq in E4. intros H. split; [now left|].
    unfold Catalog._getAnnualSubset in H.
    apply bind_Ok_inv in H as (s & _ & H). apply bind_Ok_inv in H as (e & _ & H).
    cbv zeta in H. destruct (e + 1 <? s); [discriminate|].
    apply bind_Ok_inv in H as (pys & Hpys & H). injection H as <-.
    intros p Hin. apply in_concat in Hin as (py & Hpy & Hin).
    destruct (mapM_Ok_In _ _ _ Hpys _ Hpy) as (y & _ & Hy).
    destruct (mapM_Ok_In _ _ _ Hy _ Hin) as (v & Hv & Hf).
    apply annual_file_inv in Hf as (Hpat & Hsp & ->).
    split; [|exact Hsp]. exists v, (PyStr.str y).
    split; [exact Hv|]. split; [exact Hpat|reflexivity]. }
  destruct (String.length ds =? 7)%nat eqn:E7; [|discriminate].
  apply Nat.eqb_eq in E7. intros H. split; [now right|].
  unfold Catalog._getMonthlySubset in H.
  apply bind_Ok_inv in H as (s & _ & H).
  apply bind_Ok_inv in H as ([sy sm] & _ & H).
  apply bind_Ok_inv in H as (e & _ & H).
  apply bind_Ok_inv in H as ([ey em] & _ & H).
  destruct (ey * 12 + em <? sy * 12 + sm); [discriminate|]. cbv zeta in H.
  apply monthly_loop_inv in H as (l' & -> & Hl'). exact Hl'.
Qed.


(** X16. A variable without a file pattern: a request for it fails with a
    [KeyError] as soon as there is a year or month to extract. Two of the
    four variables that a PRISM instance lists have no pattern. *)
Theorem subset_missing_pattern self o ds de v vs bounds :
  dict_get v (Catalog.fpatterns self) = None ->
  (forall s e,
     String.length ds = 4%nat -> PyStr.int ds = Ok s -> PyStr.int de = Ok e -> s <= e ->
     Catalog.getSubset _extractData self o ds de (v :: vs) bounds = Raise (KeyError v))
  /\ (forall sy sm ey em,
        spells_ym ds sy sm -> mapM PyStr.int (PyStr.split "-" de) = Ok [ey; em] ->
        sy * 12 + sm <= ey * 12 + em ->
        Catalog.getSubset _extractData self o ds de (v :: vs) bounds
        = Raise (KeyError v))
  /\ (forall sp x,
        In x ["tav"; "tmin:"] ->
        dict_get x (Catalog.fpatterns (Catalog.PRISM__init__ sp)) = None
        /\ exists listed,
             Catalog.vars (Catalog.base (Catalog.PRISM__init__ sp)) = PDict listed
             /\ is_Some (dict_get x listed)).
Proof.
  intros Hv. unfold Catalog.getSubset.
  assert (Hfa : forall y, Catalog.annual_file _extractData self o bounds y v
                          = Raise (KeyError v)).
  { intros y. unfold Catalog.annual_file, Catalog.getitem. now rewrite Hv. }
  assert (Hfm : forall y m, Catalog.monthly_file _extractData self o bounds y m v
                            = Raise (KeyError v)).
  { intros y m. unfold Catalog.monthly_file, Catalog.getitem. cbv zeta. now rewrite Hv. }
  split; [|split].
  - intros s e Hl Hs He Hord. rewrite Hl. cbn [Nat.eqb].
    unfold Catalog._getAnnualSubset. rewrite Hs, He. cbn [bind].
    replace (e + 1 <? s) with false by lia.
    unfold py_range2. replace (Z.to_nat (e + 1 - s)) with (S (Z.to_nat (e - s))) by lia.
    cbn [seq map mapM]. now rewrite Hfa.
  - intros sy sm ey em [Hl Hs] He Hord. rewrite Hl. cbn [Nat.eqb].
    unfold Catalog._getMonthlySubset. rewrite Hs, He. cbn [bind unpack2].
    replace (ey * 12 + em <? sy * 12 + sm) with false by lia. cbv zeta.
    replace (Z.to_nat (ey * 12 + em - (sy * 12 + sm) + 1))
      with (S (Z.to_nat (ey * 12 + em - (sy * 12 + sm)))) by lia.
    cbn [Catalog.monthly_loop].
    replace (sy * 12 + sm <=? ey * 12 + em) with true by lia.
    cbn [mapM]. now rewrite Hfm.
  - intros sp x Hx. simpl in Hx.
    destruct Hx as [<-|[<-|[]]]; (split; [reflexivity|]);
      eexists; (split; [reflexivity|]); eexists; reflexivity.
Qed.

(** X17. The storage path: neither constructor keeps it, so a PRISM instance
    as constructed has no attribute [store_path], and [getSubset] on it
    never returns a file: it fails with an [AttributeError] as soon as
    there is a year or month to extract for a variable with a pattern. *)
Theorem subset_store_path_unset (sp o ds de : string) (vs : list string) bounds :
  Catalog.store_path (Catalog.PRISM__init__ sp) = None
  /\ (forall l,
        Catalog.getSubset _extractData (Catalog.PRISM__init__ sp) o ds de vs bounds
        = Ok l -> l = [])
  /\ (forall v vs' s e,
        vs = v :: vs' -> In v ["ppt"; "tmax"] ->
        String.length ds = 4%nat -> PyStr.int ds = Ok s -> PyStr.int de = Ok e ->
        s <= e ->
        Catalog.getSubset _extractData (Catalog.PRISM__init__ sp) o ds de vs bounds
        = Raise (AttributeError "store_path"))
  /\ (forall v vs' sy sm ey em,
        vs = v :: vs' -> In v ["ppt"; "tmax"] ->
        spells_ym ds sy sm -> mapM PyStr.int (PyStr.split "-" de) = Ok [ey; em] ->
        sy * 12 + sm <= ey * 12 + em ->
        Catalog.getSubset _extractData (Catalog.PRISM__init__ sp) o ds de vs bounds
        = Raise (AttributeError "store_path")).
Proof.
  set (self := Catalog.PRISM__init__ sp).
  assert (Hfa : forall v y, In v ["ppt"; "tmax"] ->
                  Catalog.annual_file _extractData self o bounds y v
                  = Raise (AttributeError "store_path")).
  { intros v y Hv. simpl in Hv. destruct Hv as [<-|[<-|[]]]; reflexivity. }
  assert (Hfm : forall v y m, In v ["ppt"; "tmax"] ->
                  Catalog.monthly_file _extractData self o bounds y m v
                  = Raise (AttributeError "store_path")).
  { intros v y m Hv. simpl in Hv. destruct Hv as [<-|[<-|[]]]; reflexivity. }
  split; [reflexivity|]. split; [|split].
  - intros l H. apply getSubset_Ok_inv in H as [_ Hl].
    destruct l as [|p l]; [done|].
    destruct (Hl p (or_introl eq_refl)) as [_ [x Hx]]. discriminate Hx.
  - intros v vs' s e -> Hv Hl Hs He Hord. unfold Catalog.getSubset.
    rewrite Hl. cbn [Nat.eqb].
    unfold Catalog._getAnnualSubset. rewrite Hs, He. cbn [bind].
    replace (e + 1 <? s) with false by lia.
    unfold py_range2. replace (Z.to_nat (e + 1 - s)) with (S (Z.to_nat (e - s))) by lia.
    cbn [seq map mapM]. now rewrite Hfa.
  - intros v vs' sy sm ey em -> Hv [Hl Hs] He Hord. unfold Catalog.getSubset.
    rewrite Hl. cbn [Nat.eqb].
    unfold Catalog._getMonthlySubset. rewrite Hs, He. cbn [bind unpack2].
    replace (ey * 12 + em <? sy * 12 + sm) with false by lia. cbv zeta.
    replace (Z.to_nat (ey * 12 + em - (sy * 12 + sm) + 1))
      with (S (Z.to_nat (ey * 12 + em - (sy * 12 + sm)))) by lia.
    cbn [Catalog.monthly_loop].
    replace (sy * 12 + sm <=? ey * 12 + em) with true by lia.
    cbn [mapM]. now rewrite Hfm.
Qed.

End PrismFacts.

Module PrismExamples.

Import DateSpec DateRangeSpec PrismSpec.

Lemma stored_has_patterns : has_patterns (stored "local_data") ["ppt"; "tmax"].
Proof. intros v [<-|[<-|[]]]; eexists; reflexivity. Qed.




Lemma subset_missing_pattern_witness :
  Catalog.getSubset extract_always (stored "local_data") "out" "2020" "2020"
    ["tav"; "ppt"] None
  = Raise (KeyError "tav")
  /\ Catalog.getSubset extract_always (stored "local_data") "out" "2020-01" "2020-03"
       ["tav"; "ppt"] None
     = Raise (KeyError "tav").
Proof.
  destruct (subset_missing_pattern extract_always (stored "local_data") "out" "2020"
              "2020" "tav" ["ppt"] None eq_refl) as (H & _ & _).
  destruct (subset_missing_pattern extract_always (stored "local_data") "out" "2020-01"
              "2020-03" "tav" ["ppt"] None eq_refl) as (_ & H' & _).
  split.
  - apply (H 2020 2020); [reflexivity|reflexivity|reflexivity|lia].
  - apply (H' 2020 1 2020 3); [split; reflexivity|reflexivity|lia].
Defined.

Lemma subset_store_path_unset_witness :
  Catalog.getSubset extract_always (Catalog.PRISM__init__ "local_data") "out" "2020"
    "2020" ["ppt"] None
  = Raise (AttributeError "store_path")
  /\ Catalog.getSubset extract_always (Catalog.PRISM__init__ "local_data") "out"
       "2020-01" "2020-03" ["tmax"] None
     = Raise (AttributeError "store_path").
Proof.
  destruct (subset_store_path_unset extract_always "local_data" "out" "2020" "2020"
              ["ppt"] None) as (_ & _ & H & _).
  destruct (subset_store_path_unset extract_always "local_data" "out" "2020-01" "2020-03"
              ["tmax"] None) as (_ & _ & _ & H').
  split.
  - apply (H "ppt" [] 2020 2020); [reflexivity|simpl; tauto|reflexivity|reflexivity
                                  |reflexivity|lia].
  - apply (H' "tmax" [] 2020 1 2020 3); [reflexivity|simpl; tauto|split; reflexivity
                                        |reflexivity|lia].
Defined.

End PrismExamples.
(** ** Data set metadata *)

Module CatalogFacts.

Import PyStr StrSpec StrFacts IsoSpec IsoFacts DateSpec DateRangeSpec CatalogSpec.

(** *** Numerals of four digits *)

Lemma length_digits_of_pos_ge fuel : forall n acc (k : nat),
  10 ^ Z.of_nat k <= n -> Z.log2 n <= Z.of_nat fuel ->
  (k + 1 + String.length acc <= String.length (digits_of_pos fuel n acc))%nat.
Proof.
  induction fuel as [|fuel IH]; intros n acc k Hk Hlog.
  - assert (Hn : n <= 1).
    { pose proof (Z.pow_pos_nonneg 10 (Z.of_nat k) ltac:(lia) ltac:(lia)).
      apply Z.log2_null. pose proof (Z.log2_nonneg n). lia. }
    assert (k = 0%nat) as ->.
    { destruct k as [|k]; [done|]. rewrite Nat2Z.inj_succ, Z.pow_succ_r in Hk by lia.
      pose proof (Z.pow_pos_nonneg 10 (Z.of_nat k) ltac:(lia) ltac:(lia)). lia. }
    simpl. lia.
  - cbn [digits_of_pos]. destruct (n <? 10) eqn:E.
    + apply Z.ltb_lt in E.
      assert (k = 0%nat) as ->.
      { destruct k as [|k]; [done|]. rewrite Nat2Z.inj_succ, Z.pow_succ_r in Hk by lia.
        pose proof (Z.pow_pos_nonneg 10 (Z.of_nat k) ltac:(lia) ltac:(lia)). lia. }
      simpl. lia.
    + apply Z.ltb_ge in E. pose proof (log2_div10 n E) as Hl.
      destruct k as [|k].
      * specialize (IH (n / 10) (String (digit_char (n mod 10)) acc) 0%nat).
        simpl in IH. simpl.
        assert (1 <= n / 10) by (apply Z.div_le_lower_bound; lia).
        specialize (IH ltac:(lia) ltac:(lia)). lia.
      * specialize (IH (n / 10) (String (digit_char (n mod 10)) acc) k).
        rewrite Nat2Z.inj_succ, Z.pow_succ_r in Hk by lia.
        assert (10 ^ Z.of_nat k <= n / 10) by (apply Z.div_le_lower_bound; lia).
        specialize (IH ltac:(lia) ltac:(lia)). simpl in IH. lia.
Qed.

Lemma str_four_digits y :
  1000 <= y <= 9999 ->
  String.length (str y) = 4%nat /\ all_digits (str y) = true /\ int (str y) = Ok y.
Proof.
  intros Hy. split; [|split].
  - unfold str. replace (y <? 0) with false by lia.
    pose proof (length_digits y 3 ltac:(change (10 ^ Z.of_nat 4) with 10000; lia)).
    pose proof (length_digits_of_pos_ge (Z.to_nat (Z.log2 y)) y EmptyString 3
                  ltac:(change (10 ^ Z.of_nat 3) with 1000; lia)
                  ltac:(rewrite Z2Nat.id; [lia|apply Z.log2_nonneg])) as Hge.
    fold (digits y) in Hge. simpl in Hge. lia.
  - unfold str. replace (y <? 0) with false by lia. apply all_digits_digits. lia.
  - apply int_str. lia.
Qed.

(** The text that [strftime] gives a valid date of a year from 1000 on
    spells that date. *)
Lemma strftime_Ymd_spells y m d :
  PyDate.valid y m d = true -> 1000 <= y ->
  spells_ymd (Catalog.strftime_Ymd (PyDate.mkDate y m d)) y m d.
Proof.
  intros Hv Hy. unfold PyDate.valid, PyDate.MINYEAR, PyDate.MAXYEAR in Hv.
  rewrite !andb_true_iff, !Z.leb_le in Hv.
  pose proof (CalendarFacts.days_in_month_le y m).
  destruct (str_four_digits y) as (Hy2 & Hy1 & Hy3); [lia|].
  destruct (format02_numeral m) as (Hm1 & Hm2 & Hm3); [lia|].
  destruct (format02_numeral d) as (Hd1 & Hd2 & Hd3); [lia|].
  unfold spells_ymd, Catalog.strftime_Ymd. cbn [PyDate.dyear PyDate.dmonth PyDate.dday].
  split.
  - rewrite !length_app, Hy2, Hm2, Hd2. reflexivity.
  - rewrite RangeFacts.split_app_sep by now apply all_digits_contains.
    rewrite RangeFacts.split_app_sep by now apply all_digits_contains.
    rewrite RangeFacts.split_no_sep by now apply all_digits_contains.
    cbn [mapM]. now rewrite Hy3, Hm3, Hd3.
Qed.

Lemma strftime_Ym_spells y m d :
  PyDate.valid y m d = true -> 1000 <= y ->
  spells_ym (Catalog.strftime_Ym (PyDate.mkDate y m d)) y m.
Proof.
  intros Hv Hy. unfold PyDate.valid, PyDate.MINYEAR, PyDate.MAXYEAR in Hv.
  rewrite !andb_true_iff, !Z.leb_le in Hv.
  destruct (str_four_digits y) as (Hy2 & Hy1 & Hy3); [lia|].
  destruct (format02_numeral m) as (Hm1 & Hm2 & Hm3); [lia|].
  unfold spells_ym, Catalog.strftime_Ym. cbn [PyDate.dyear PyDate.dmonth].
  split.
  - rewrite !length_app, Hy2, Hm2. reflexivity.
  - rewrite RangeFacts.split_app_sep by now apply all_digits_contains.
    rewrite RangeFacts.split_no_sep by now apply all_digits_contains.
    cbn [mapM]. now rewrite Hy3, Hm3.
Qed.

(** *** The metadata document *)

Lemma copy_date_range_doc self k conv resp :
  Catalog.copy_date_range self k conv resp
  = let* r := Catalog.getitem k (Catalog.date_ranges self) in
    let* doc := range_doc conv r in
    Catalog.set_date_range k doc resp.
Proof.
  unfold Catalog.copy_date_range, range_doc.
  destruct (Catalog.getitem k (Catalog.date_ranges self)) as [[a b]| |]; [|done|done].
  cbn [bind fst snd]. destruct a as [a|]; [|done].
  destruct (conv (Some a)); [|done|done]. cbn [bind].
  destruct (conv b); done.
Qed.

Lemma set_date_range_document self k v ranges :
  Catalog.set_date_range k v (document_of self ranges)
  = Ok (document_of self (dict_set k v ranges)).
Proof. reflexivity. Qed.

Lemma getMetadata_explicit self :
  Catalog.getMetadata self
  = let* ry := Catalog.getitem "year" (Catalog.date_ranges self) in
    let* y := range_doc Catalog.year_of ry in
    let* rm := Catalog.getitem "month" (Catalog.date_ranges self) in
    let* m := range_doc (Catalog.strftime_of Catalog.strftime_Ym) rm in
    let* rd := Catalog.getitem "day" (Catalog.date_ranges self) in
    let* d := range_doc (Catalog.strftime_of Catalog.strftime_Ymd) rd in
    Ok (document self y m d).
Proof.
  unfold Catalog.getMetadata.
  change (Catalog.copy_attribs self Catalog.attribs [])
    with (Ok (removelast (document_of self []))).
  cbn [bind].
  change (dict_set "date_ranges" (PDict []) (removelast (document_of self [])))
    with (document_of self []).
  rewrite copy_date_range_doc.
  destruct (Catalog.getitem "year" (Catalog.date_ranges self)) as [ry| |]; [|done|done].
  cbn [bind]. destruct (range_doc Catalog.year_of ry) as [y| |]; [|done|done].
  cbn [bind]. rewrite set_date_range_document. cbn [bind].
  rewrite copy_date_range_doc.
  destruct (Catalog.getitem "month" (Catalog.date_ranges self)) as [rm| |]; [|done|done].
  cbn [bind].
  destruct (range_doc (Catalog.strftime_of Catalog.strftime_Ym) rm) as [m| |];
    [|done|done].
  cbn [bind]. rewrite set_date_range_document. cbn [bind].
  rewrite copy_date_range_doc.
  destruct (Catalog.getitem "day" (Catalog.date_ranges self)) as [rd| |]; [|done|done].
  cbn [bind].
  destruct (range_doc (Catalog.strftime_of Catalog.strftime_Ymd) rd) as [d| |];
    [|done|done].
  cbn [bind]. rewrite set_date_range_document. reflexivity.
Qed.

Lemma getitem_cases {V : Type} k (d : list (string * V)) :
  (exists v, dict_get k d = Some v /\ Catalog.getitem k d = Ok v)
  \/ (dict_get k d = None /\ Catalog.getitem k d = Raise (KeyError k)).
Proof. unfold Catalog.getitem. destruct (dict_get k d); eauto. Qed.

(** The document of a range exists exactly when the range is complete;
    otherwise the conversion of the missing end raises. *)
Lemma range_doc_cases conv attr r :
  (forall x, returns (conv (Some x))) -> conv None = Raise (AttributeError attr) ->
  (complete r /\ returns (range_doc conv r))
  \/ (~ complete r /\ range_doc conv r = Raise (AttributeError attr)).
Proof.
  intros Hs Hn. destruct r as [[a|] [b|]]; unfold range_doc, complete; cbn [fst snd].
  - left. split; [eauto|]. destruct (Hs a) as [x ->], (Hs b) as [y ->]. eexists.
    reflexivity.
  - right. split; [intros H; destruct (H ltac:(eauto)) as [? [=]]|].
    destruct (Hs a) as [x ->]. cbn [bind]. now rewrite Hn.
  - left. split; [eauto|]. eexists. reflexivity.
  - left. split; [intros [? [=]]|]. eexists. reflexivity.
Qed.

Lemma year_of_Some x : returns (Catalog.year_of (Some x)).
Proof. eexists. reflexivity. Qed.

Lemma strftime_of_Some fmt x : returns (Catalog.strftime_of fmt (Some x)).
Proof. eexists. reflexivity. Qed.

(** The stage for range [k] raises: the call does not return, and the
    error is the one of that stage. *)
Local Ltac fails_at k :=
  split;
  [split;
   [intros [? [=]]
   |intros H; destruct (H k) as (? & ? & ?); [simpl; tauto|congruence]]
  |split;
   [intros e [= <-]; exists k; split; [simpl; tauto|(left; done) || (right; eauto)]
   |done]].

(** X18. When [getMetadata] returns: exactly when the instance has the three
    ranges and each range that has a start has an end. A missing range is a
    [KeyError], a start without an end an [AttributeError]; the instances
    that the two constructors build pass. *)
Theorem getMetadata_returns (self : Catalog.GSDataSet) :
  (returns (Catalog.getMetadata self)
   <-> forall k, In k ["year"; "month"; "day"] ->
                 exists r, dict_get k (Catalog.date_ranges self) = Some r /\ complete r)
  /\ (forall e,
        Catalog.getMetadata self = Raise e ->
        exists k,
          In k ["year"; "month"; "day"]
          /\ ((dict_get k (Catalog.date_ranges self) = None /\ e = KeyError k)
              \/ (exists r, dict_get k (Catalog.date_ranges self) = Some r
                            /\ ~ complete r
                            /\ (e = AttributeError "year"
                                \/ e = AttributeError "strftime"))))
  /\ Catalog.getMetadata self <> Diverge
  /\ (forall store_path,
        returns (Catalog.getMetadata (Catalog.GSDataSet__init__ store_path))
        /\ returns (Catalog.getMetadata (Catalog.base (Catalog.PRISM__init__ store_path)))).
Proof.
  assert (Hc : forall store_path,
             returns (Catalog.getMetadata (Catalog.GSDataSet__init__ store_path))
             /\ returns (Catalog.getMetadata
                           (Catalog.base (Catalog.PRISM__init__ store_path))))
    by (intros sp; split; eexists; reflexivity).
  cut ((returns (Catalog.getMetadata self)
        <-> forall k, In k ["year"; "month"; "day"] ->
              exists r, dict_get k (Catalog.date_ranges self) = Some r /\ complete r)
       /\ (forall e,
             Catalog.getMetadata self = Raise e ->
             exists k,
               In k ["year"; "month"; "day"]
               /\ ((dict_get k (Catalog.date_ranges self) = None /\ e = KeyError k)
                   \/ (exists r, dict_get k (Catalog.date_ranges self) = Some r
                                 /\ ~ complete r
                                 /\ (e = AttributeError "year"
                                     \/ e = AttributeError "strftime"))))
       /\ Catalog.getMetadata self <> Diverge); [tauto|].
  clear Hc. rewrite getMetadata_explicit.
  destruct (getitem_cases "year" (Catalog.date_ranges self))
    as [(ry & Hy & ->)|[Hy ->]]; [|fails_at "year"].
  cbn [bind].
  destruct (range_doc_cases Catalog.year_of "year" ry year_of_Some eq_refl)
    as [[Cy [y ->]]|[Cy ->]]; [|fails_at "year"].
  cbn [bind].
  destruct (getitem_cases "month" (Catalog.date_ranges self))
    as [(rm & Hm & ->)|[Hm ->]]; [|fails_at "month"].
  cbn [bind].
  destruct (range_doc_cases (Catalog.strftime_of Catalog.strftime_Ym) "strftime" rm
              (strftime_of_Some _) eq_refl)
    as [[Cm [m ->]]|[Cm ->]]; [|fails_at "month"].
  cbn [bind].
  destruct (getitem_cases "day" (Catalog.date_ranges self))
    as [(rd & Hd & ->)|[Hd ->]]; [|fails_at "day"].
  cbn [bind].
  destruct (range_doc_cases (Catalog.strftime_of Catalog.strftime_Ymd) "strftime" rd
              (strftime_of_Some _) eq_refl)
    as [[Cd [d ->]]|[Cd ->]]; [|fails_at "day"].
  cbn [bind]. split; [|split; [intros e [=]|done]].
  split; [|intros _; eexists; reflexivity].
  intros _ k Hk. simpl in Hk. destruct Hk as [<-|[<-|[<-|[]]]]; eauto.
Qed.

Lemma getMetadata_Ok_inv self md :
  Catalog.getMetadata self = Ok md ->
  exists ry rm rd y m d,
    dict_get "year" (Catalog.date_ranges self) = Some ry
    /\ dict_get "month" (Catalog.date_ranges self) = Some rm
    /\ dict_get "day" (Catalog.date_ranges self) = Some rd
    /\ range_doc Catalog.year_of ry = Ok y
    /\ range_doc (Catalog.strftime_of Catalog.strftime_Ym) rm = Ok m
    /\ range_doc (Catalog.strftime_of Catalog.strftime_Ymd) rd = Ok d
    /\ md = document self y m d.
Proof.
  rewrite getMetadata_explicit. intros H.
  apply bind_Ok_inv in H as (ry & Hy & H). apply bind_Ok_inv in H as (y & Hdy & H).
  apply bind_Ok_inv in H as (rm & Hm & H). apply bind_Ok_inv in H as (m & Hdm & H).
  apply bind_Ok_inv in H as (rd & Hd & H). apply bind_Ok_inv in H as (d & Hdd & H).
  injection H as <-. exists ry, rm, rd, y, m, d.
  unfold Catalog.getitem in Hy, Hm, Hd.
  destruct (dict_get "year" (Catalog.date_ranges self)); [|discriminate].
  destruct (dict_get "month" (Catalog.date_ranges self)); [|discriminate].
  destruct (dict_get "day" (Catalog.date_ranges self)); [|discriminate].
  injection Hy as ->. injection Hm as ->. injection Hd as ->. done.
Qed.

(** X19. The metadata document: the eight attributes in their fixed order,
    with [id] being the internal identifier when there is one and the
    name otherwise, followed by the three date ranges; a range is given by
    its years, or by its months and days as texts, and a range without a
    start is given as [[None, None]], whatever its end. *)
Theorem getMetadata_document (self : Catalog.GSDataSet) (md : list (string * pyval)) :
  Catalog.getMetadata self = Ok md ->
  map fst md = Catalog.attribs ++ ["date_ranges"]
  /\ dict_get "name" md = Some (PStr (Catalog.name self))
  /\ dict_get "id" md
     = Some (PStr (match Catalog._id self with
                   | Some i => i
                   | None => Catalog.name self
                   end))
  /\ dict_get "grid_size" md = Some (Catalog.opt_int (Catalog.grid_size self))
  /\ dict_get "vars" md = Some (Catalog.vars self)
  /\ exists y m d,
       dict_get "date_ranges" md = Some (PDict [("year", y); ("month", m); ("day", d)])
       /\ (forall s e,
             dict_get "year" (Catalog.date_ranges self) = Some (Some s, Some e) ->
             y = PList [PInt (PyDate.dyear s); PInt (PyDate.dyear e)])
       /\ (forall s e,
             dict_get "month" (Catalog.date_ranges self) = Some (Some s, Some e) ->
             m = PList [PStr (Catalog.strftime_Ym s); PStr (Catalog.strftime_Ym e)])
       /\ (forall s e,
             dict_get "day" (Catalog.date_ranges self) = Some (Some s, Some e) ->
             d = PList [PStr (Catalog.strftime_Ymd s); PStr (Catalog.strftime_Ymd e)])
       /\ (forall e, dict_get "year" (Catalog.date_ranges self) = Some (None, e) ->
                     y = PList [PNone; PNone])
       /\ (forall e, dict_get "month" (Catalog.date_ranges self) = Some (None, e) ->
                     m = PList [PNone; PNone])
       /\ (forall e, dict_get "day" (Catalog.date_ranges self) = Some (None, e) ->
                     d = PList [PNone; PNone]).
Proof.
  intros H. apply getMetadata_Ok_inv in H
    as (ry & rm & rd & y & m & d & Hy & Hm & Hd & Hdy & Hdm & Hdd & ->).
  repeat (split; [reflexivity|]).
  exists y, m, d. split; [reflexivity|].
  rewrite Hy, Hm, Hd.
  repeat split; intros; simplify_eq; cbn in *; congruence.
Qed.

(** X20. Requesting the ranges that a data set advertises. The two texts
    that the metadata gives for a range of days from one valid date to a
    later one, in years from 1000 on, are accepted by the request parser
    and select exactly the days of the range, unless the range ends on
    9999-12-31, the last date of the calendar: the texts of such a range
    make the parser raise [OverflowError]. The two texts of a range of
    months are accepted and select exactly the months of the range,
    whatever its end. *)
Theorem advertised_ranges_parse (self : Catalog.GSDataSet) (md : list (string * pyval))
    (s e : PyDate.date) :
  Catalog.getMetadata self = Ok md ->
  PyDate.valid (PyDate.dyear s) (PyDate.dmonth s) (PyDate.dday s) = true ->
  PyDate.valid (PyDate.dyear e) (PyDate.dmonth e) (PyDate.dday e) = true ->
  1000 <= PyDate.dyear s -> PyDate.ltb e s = false ->
  exists ranges,
    dict_get "date_ranges" md = Some (PDict ranges)
    /\ (dict_get "day" (Catalog.date_ranges self) = Some (Some s, Some e) ->
        e <> PyDate.mkDate 9999 12 31 ->
        exists ds de l,
          dict_get "day" ranges = Some (PList [PStr ds; PStr de])
          /\ SimpleRange._parseSimpleDateRange (Some ds) (Some de) = Ok (l, DAILY)
          /\ calendar_walk e s l)
    /\ (dict_get "month" (Catalog.date_ranges self) = Some (Some s, Some e) ->
        exists ds de,
          dict_get "month" ranges = Some (PList [PStr ds; PStr de])
          /\ SimpleRange._parseSimpleDateRange (Some ds) (Some de)
             = Ok (month_seq (PyDate.dyear s) (PyDate.dmonth s - 1)
                     (Z.to_nat (PyDate.dyear e * 12 + PyDate.dmonth e
                                - (PyDate.dyear s * 12 + PyDate.dmonth s) + 1)),
                   MONTHLY))
    /\ (dict_get "day" (Catalog.date_ranges self) = Some (Some s, Some e) ->
        e = PyDate.mkDate 9999 12 31 ->
        exists ds,
          dict_get "day" ranges = Some (PList [PStr ds; PStr "9999-12-31"])
          /\ SimpleRange._parseSimpleDateRange (Some ds) (Some "9999-12-31")
             = Raise (OverflowError "date value out of range")).
Proof.
  intros H Hvs Hve Hys Hlt. apply getMetadata_Ok_inv in H
    as (ry & rm & rd & y & m & d & Hy & Hm & Hd & Hdy & Hdm & Hdd & ->).
  eexists. split; [reflexivity|].
  destruct s as [ys ms dds], e as [ye me dde].
  cbn [PyDate.dyear PyDate.dmonth PyDate.dday] in *.
  assert (Hord : ys < ye \/ (ys = ye /\ (ms < me \/ (ms = me /\ dds <= dde)))).
  { unfold PyDate.ltb in Hlt. cbn [PyDate.dyear PyDate.dmonth PyDate.dday] in Hlt.
    rewrite !orb_false_iff, !andb_false_iff, !orb_false_iff, !andb_false_iff in Hlt.
    rewrite !Z.ltb_ge, !Z.eqb_neq in Hlt. lia. }
  assert (Hye : 1000 <= ye) by lia.
  split; [|split].
  - intros Hr Hlast. rewrite Hr in Hd. injection Hd as <-.
    unfold range_doc in Hdd. cbn in Hdd. injection Hdd as <-.
    destruct (DateSelectFacts.daily_range_walk
                (Catalog.strftime_Ymd (PyDate.mkDate ys ms dds))
                (Catalog.strftime_Ymd (PyDate.mkDate ye me dde))
                ys ms dds ye me dde
                (strftime_Ymd_spells _ _ _ Hvs Hys) (strftime_Ymd_spells _ _ _ Hve Hye)
                Hvs Hve) as [_ Hw].
    destruct (Hw Hlt Hlast) as (l & Hl & Hwalk).
    eexists _, _, l. split; [reflexivity|]. split; [exact Hl|exact Hwalk].
  - intros Hr. rewrite Hr in Hm. injection Hm as <-.
    unfold range_doc in Hdm. cbn in Hdm. injection Hdm as <-.
    eexists _, _. split; [reflexivity|].
    unfold PyDate.valid in Hvs, Hve. rewrite !andb_true_iff, !Z.leb_le in Hvs, Hve.
    apply DateRangeFacts.monthly_range_explicit;
      [now apply (strftime_Ym_spells ys ms dds); [unfold PyDate.valid;
         rewrite !andb_true_iff, !Z.leb_le|]
      |now apply (strftime_Ym_spells ye me dde); [unfold PyDate.valid;
         rewrite !andb_true_iff, !Z.leb_le|]
      |lia|lia|lia].
  - intros Hr [= -> -> ->]. rewrite Hr in Hd. injection Hd as <-.
    unfold range_doc in Hdd. cbn in Hdd. injection Hdd as <-.
    eexists. split; [reflexivity|].
    apply (DateRangeFacts.daily_range_overflow _ _ ys ms dds);
      [now apply strftime_Ymd_spells|split; reflexivity|exact Hvs].
Qed.

Lemma getMetadata_returns_witness :
  returns (Catalog.getMetadata (Catalog.base (Catalog.PRISM__init__ "local_data")))
  /\ ~ returns (Catalog.getMetadata
                  (Catalog.mkGSDataSet "x" "" "" None "" "" None (PList [])
                     [("year", (Some (PyDate.mkDate 2000 1 1), None));
                      ("month", (None, None)); ("day", (None, None))])).
Proof.
  split.
  - apply (proj1 (getMetadata_returns
                    (Catalog.base (Catalog.PRISM__init__ "local_data")))).
    intros k [<-|[<-|[<-|[]]]]; eexists; (split; [reflexivity|]); intros _;
      eexists; reflexivity.
  - intros Hr.
    pose proof (proj1 (proj1 (getMetadata_returns _)) Hr) as Hall.
    destruct (Hall "year" ltac:(simpl; tauto)) as (r & Hr1 & Hr2).
    injection Hr1 as <-. destruct (Hr2 ltac:(eexists; reflexivity)) as [x Hx].
    discriminate Hx.
Defined.

Lemma getMetadata_document_witness :
  exists md,
    Catalog.getMetadata (Catalog.base (Catalog.PRISM__init__ "local_data")) = Ok md
    /\ map fst md = Catalog.attribs ++ ["date_ranges"]
    /\ dict_get "id" md = Some (PStr "PRISM")
    /\ dict_get "grid_size" md = Some (PInt 4000).
Proof.
  destruct (Catalog.getMetadata (Catalog.base (Catalog.PRISM__init__ "local_data")))
    as [md|e|] eqn:E; [|vm_compute in E; discriminate E|vm_compute in E; discriminate E].
  exists md. split; [reflexivity|].
  destruct (getMetadata_document _ md E) as (H1 & _ & H2 & H3 & _).
  split; [exact H1|]. split; [exact H2|exact H3].
Defined.

Lemma advertised_ranges_parse_witness :
  exists md ranges ds de l,
    Catalog.getMetadata (Catalog.base (Catalog.PRISM__init__ "local_data")) = Ok md
    /\ dict_get "date_ranges" md = Some (PDict ranges)
    /\ dict_get "day" ranges = Some (PList [PStr ds; PStr de])
    /\ SimpleRange._parseSimpleDateRange (Some ds) (Some de) = Ok (l, DAILY)
    /\ calendar_walk (PyDate.mkDate 2021 1 31) (PyDate.mkDate 1981 1 1) l.
Proof.
  destruct (Catalog.getMetadata (Catalog.base (Catalog.PRISM__init__ "local_data")))
    as [md|e|] eqn:E; [|vm_compute in E; discriminate E|vm_compute in E; discriminate E].
  destruct (advertised_ranges_parse _ md (PyDate.mkDate 1981 1 1)
              (PyDate.mkDate 2021 1 31) E eq_refl eq_refl ltac:(simpl; lia) eq_refl)
    as (ranges & Hr & Hday & _).
  destruct (Hday eq_refl ltac:(discriminate)) as (ds & de & l & H1 & H2 & H3).
  exists md, ranges, ds, de, l. repeat (split; [done|]). exact H3.
Defined.

End CatalogFacts.
(** ** The query parsers of the web interface *)

Module ApiFacts.

Import PyStr RangeSyntax RangeFacts ApiMain.

Lemma split_nonempty c s : split c s <> [].
Proof.
  intros H. pose proof (length_split c s) as Hl. rewrite H in Hl. discriminate Hl.
Qed.

Lemma join_cons sep a b (l : list string) :
  PointOutput.join sep (a :: b :: l) = a +:+ sep +:+ PointOutput.join sep (b :: l).
Proof. reflexivity. Qed.

Lemma join_split c s : PointOutput.join (String c EmptyString) (split c s) = s.
Proof.
  induction s as [|x s IH]; [reflexivity|]. cbn [split].
  destruct (Ascii.eqb x c) eqn:E.
  - apply Ascii.eqb_eq in E. subst x.
    destruct (split c s) as [|p ps] eqn:Hs; [now apply split_nonempty in Hs|].
    rewrite join_cons, IH. reflexivity.
  - destruct (split c s) as [|p ps] eqn:Hs; [now apply split_nonempty in Hs|].
    destruct ps as [|q qs].
    + cbn [PointOutput.join] in *. now rewrite IH.
    + rewrite join_cons in *. rewrite <- IH. reflexivity.
Qed.

Lemma split_pieces c s : forall v, In v (split c s) -> contains c v = false.
Proof.
  induction s as [|x s IH]; intros v; cbn [split].
  - intros [<-|[]]. reflexivity.
  - destruct (Ascii.eqb x c) eqn:E.
    + intros [<-|Hv]; [reflexivity|now apply IH].
    + destruct (split c s) as [|p ps] eqn:Hs; [now apply split_nonempty in Hs|].
      intros [<-|Hv].
      * simpl. rewrite E. apply IH. now left.
      * apply IH. now right.
Qed.

Lemma split_join c (l : list string) :
  l <> [] -> (forall v, In v l -> contains c v = false) ->
  split c (PointOutput.join (String c EmptyString) l) = l.
Proof.
  induction l as [|a l IH]; [done|]. intros _ Hl. destruct l as [|b l].
  - cbn [PointOutput.join]. apply split_no_sep, Hl. now left.
  - rewrite join_cons, split_app_sep by (apply Hl; now left).
    rewrite IH; [done|done|]. intros v Hv. apply Hl. now right.
Qed.

(** X21. The variables of a request: the comma-separated text is cut at every
    comma, so the pieces are free of commas, one more than there are
    commas, and joining them by commas gives the text back; conversely
    every non-empty list of comma-free names is what its joined text is
    parsed to. The empty text gives one variable, the empty name. *)
Theorem parse_varslist_roundtrip :
  (forall s,
     PointOutput.join "," (parse_varslist s) = s
     /\ length (parse_varslist s) = S (count_char "," s)
     /\ (forall v, In v (parse_varslist s) -> contains "," v = false))
  /\ (forall l,
        l <> [] -> (forall v, In v l -> contains "," v = false) ->
        parse_varslist (PointOutput.join "," l) = l)
  /\ parse_varslist "" = [""].
Proof.
  split; [|split; [|reflexivity]].
  - intros s. unfold parse_varslist. split; [apply join_split|].
    split; [apply length_split|apply split_pieces].
  - intros l Hne Hl. now apply split_join.
Qed.

Lemma parse_varslist_roundtrip_witness :
  parse_varslist (PointOutput.join "," ["ppt"; "tmax"]) = ["ppt"; "tmax"].
Proof.
  apply (proj1 (proj2 parse_varslist_roundtrip)); [discriminate|].
  intros v [<-|[<-|[]]]; reflexivity.
Defined.

Lemma split_cons c s : forall p q ps,
  split c s = p :: q :: ps ->
  exists s', s = p +:+ String c EmptyString +:+ s' /\ contains c p = false
             /\ split c s' = q :: ps.
Proof.
  induction s as [|x s IH]; intros p q ps; cbn [split]; [discriminate|].
  destruct (Ascii.eqb x c) eqn:E.
  - intros [= <- H]. apply Ascii.eqb_eq in E. subst x. exists s. done.
  - destruct (split c s) as [|p0 ps0] eqn:Hs; [discriminate|].
    intros [= <- ->]. destruct (IH p0 q ps eq_refl) as (s' & -> & Hp & Hs').
    exists s'. split; [reflexivity|]. split; [|done]. simpl. now rewrite E.
Qed.

Section Bounds.

Context {F : Type}.
Variable float : string -> option F.

(** X22. The bounding box: the parser answers with coordinates exactly for a
    text of four comma-separated parts that all convert to numbers, and
    then with the corners [[p0, p1], [p2, p3]] in the order of the text;
    no text gives no box; everything else is answered with the one HTTP
    error of status 400. *)
Theorem parse_rect_bounds_spec :
  parse_rect_bounds float None = Respond None
  /\ (forall s coords,
        parse_rect_bounds float (Some s) = Respond coords ->
        exists a b c d p0 p1 p2 p3,
          s = a +:+ "," +:+ b +:+ "," +:+ c +:+ "," +:+ d
          /\ contains "," a = false /\ contains "," b = false
          /\ contains "," c = false /\ contains "," d = false
          /\ float a = Some p0 /\ float b = Some p1
          /\ float c = Some p2 /\ float d = Some p3
          /\ coords = Some [[p0; p1]; [p2; p3]])
  /\ (forall a b c d p0 p1 p2 p3,
        contains "," a = false -> contains "," b = false ->
        contains "," c = false -> contains "," d = false ->
        float a = Some p0 -> float b = Some p1 -> float c = Some p2 ->
        float d = Some p3 ->
        parse_rect_bounds float (Some (a +:+ "," +:+ b +:+ "," +:+ c +:+ "," +:+ d))
        = Respond (Some [[p0; p1]; [p2; p3]]))
  /\ (forall s,
        count_char "," s <> 3%nat ->
        parse_rect_bounds float (Some s)
        = HTTPException 400 "Incorrect bounding box specification.")
  /\ (forall s status detail,
        parse_rect_bounds float (Some s) = HTTPException status detail ->
        status = 400 /\ detail = "Incorrect bounding box specification.").
Proof.
  split; [reflexivity|]. split; [|split; [|split]].
  - intros s coords. unfold parse_rect_bounds.
    destruct (split "," s) as [|a [|b [|c [|d [|x l]]]]] eqn:Hs; try discriminate.
    destruct (float a) as [p0|] eqn:Ha; [|discriminate].
    destruct (float b) as [p1|] eqn:Hb; [|discriminate].
    destruct (float c) as [p2|] eqn:Hc; [|discriminate].
    destruct (float d) as [p3|] eqn:Hd; [|discriminate].
    intros [= <-].
    apply split_cons in Hs as (s1 & -> & Hca & Hs).
    apply split_cons in Hs as (s2 & -> & Hcb & Hs).
    apply split_pair in Hs as (-> & Hcc & Hcd).
    exists a, b, c, d, p0, p1, p2, p3. done.
  - intros a b c d p0 p1 p2 p3 Hca Hcb Hcc Hcd Ha Hb Hc Hd. unfold parse_rect_bounds.
    rewrite (split_app_sep "," a) by done. rewrite (split_app_sep "," b) by done.
    rewrite (split_app_sep "," c) by done. rewrite (split_no_sep "," d) by done.
    now rewrite Ha, Hb, Hc, Hd.
  - intros s Hn. unfold parse_rect_bounds.
    pose proof (length_split "," s) as Hl.
    destruct (split "," s) as [|a [|b [|c [|d [|x l]]]]]; try reflexivity.
    simpl in Hl. lia.
  - intros s status detail. unfold parse_rect_bounds.
    destruct (split "," s) as [|a [|b [|c [|d [|x l]]]]]; try (intros [= <- <-]; done).
    destruct (float a), (float b), (float c), (float d); intros [= <- <-]; done.
Qed.

End Bounds.

Lemma parse_rect_bounds_spec_witness :
  parse_rect_bounds (fun s => if String.eqb s "x" then None else Some s)
    (Some ("45.5" +:+ "," +:+ "-110" +:+ "," +:+ "44" +:+ "," +:+ "-108.25"))
  = Respond (Some [["45.5"; "-110"]; ["44"; "-108.25"]])
  /\ parse_rect_bounds (fun s => if String.eqb s "x" then None else Some s)
       (Some "45.5,-110,44")
     = HTTPException 400 "Incorrect bounding box specification.".
Proof.
  pose proof (parse_rect_bounds_spec
                (fun s => if String.eqb s "x" then None else Some s))
    as (_ & _ & H & H' & _).
  split.
  - apply H; reflexivity.
  - apply H'. simpl. lia.
Defined.

End ApiFacts.

(** ** Writing the results of a constructed request *)

Lemma mapM_Raise_In {A B : Type} (f : A -> result B) l e :
  mapM f l = Raise e -> exists a, In a l /\ f a = Raise e.
Proof.
  induction l as [|x l IH]; simpl; [discriminate|].
  destruct (f x) as [y|e'|] eqn:Hx; simpl; [|intros [= <-]; eauto|discriminate].
  destruct (mapM f l) as [ys|e'|]; simpl; [discriminate| |discriminate].
  intros [= <-]. destruct (IH eq_refl) as (a & Ha & Hfa). eauto.
Qed.

Lemma concat_all_nil {A : Type} (l : list (list A)) :
  (forall x, In x l -> x = []) -> concat l = [].
Proof.
  induction l as [|x l IH]; intros H; simpl; [done|].
  rewrite (H x (or_introl eq_refl)), IH; [done|]. intros y Hy. apply H. now right.
Qed.

Section ConstructedOutput.

Context {CRS Frame : Type}.
Variable getCRSMetadata : CRS -> result pyval.
Variable to_raster : list RequestDate -> RequestDate -> string -> result unit.
Variable to_netcdf : list (string * list RequestDate) -> string -> result unit.
Variable append : Frame -> Frame -> Frame.
Variable _writeCSV : Frame -> string -> result unit.
Variable _writeShapefile : Frame -> string -> result unit.
Variable _writeNetCDF : Frame -> option (SubsetGeom CRS) -> string -> result unit.
Variable glob : string -> string -> result (list string).

Import DataRequestOutput OutputSpec.

Lemma writeRasterFiles_tif data grain o :
  (forall l, _writeRasterFiles to_raster to_netcdf data grain ".tif" o = Ok l -> l = [])
  /\ (forall e, _writeRasterFiles to_raster to_netcdf data grain ".tif" o = Raise e ->
                e = NameError "grain").
Proof.
  unfold _writeRasterFiles. cbn [String.eqb Ascii.eqb Bool.eqb].
  split.
  - intros l H. apply bind_Ok_inv in H as (per_ds & Hds & H). injection H as <-.
    apply concat_all_nil. intros x Hx.
    destruct (mapM_Ok_In _ _ _ Hds _ Hx) as ([dsid ds] & _ & Hd).
    apply bind_Ok_inv in Hd as (per_var & Hv & Hd). injection Hd as <-.
    apply concat_all_nil. intros y Hy.
    destruct (mapM_Ok_In _ _ _ Hv _ Hy) as ([varname times] & _ & Ht).
    apply mapM_never_Ok in Ht as [_ ->]; [done|]. intros t p. discriminate.
  - intros e H.
    destruct (mapM _ data) as [per_ds|e'|] eqn:Hds; [discriminate| |discriminate].
    injection H as ->.
    apply mapM_Raise_In in Hds as ([dsid ds] & _ & Hd).
    destruct (mapM _ ds) as [per_var|e'|] eqn:Hv; [discriminate| |discriminate].
    injection Hd as ->.
    apply mapM_Raise_In in Hv as ([varname times] & _ & Ht).
    apply mapM_Raise_In in Ht as (t & _ & Ht). now injection Ht as <-.
Qed.

(** The netCDF branch writes the data sets in order, each to its file, and
    stops at the first write that fails. *)
Lemma writeRasterFiles_nc data grain o :
  ((forall dsid dset, In (dsid, dset) data -> to_netcdf dset (dataset_path o dsid) = Ok tt) ->
   _writeRasterFiles to_raster to_netcdf data grain ".nc" o
   = Ok (map (fun '(dsid, _) => dataset_path o dsid) data))
  /\ (forall l,
        _writeRasterFiles to_raster to_netcdf data grain ".nc" o = Ok l ->
        l = map (fun '(dsid, _) => dataset_path o dsid) data
        /\ (forall dsid dset,
              In (dsid, dset) data -> to_netcdf dset (dataset_path o dsid) = Ok tt))
  /\ (forall e,
        _writeRasterFiles to_raster to_netcdf data grain ".nc" o = Raise e ->
        exists dsid dset,
          In (dsid, dset) data /\ to_netcdf dset (dataset_path o dsid) = Raise e).
Proof.
  change (_writeRasterFiles to_raster to_netcdf data grain ".nc" o)
    with (mapM (fun '(dsid, ds_dataset) =>
                  let* _ := to_netcdf ds_dataset (dataset_path o dsid) in
                  Ok (dataset_path o dsid)) data).
  split; [|split].
  - intros Hw. apply mapM_Ok_map. intros [dsid dset] Hin.
    now rewrite (Hw dsid dset Hin).
  - intros l H. apply mapM_Forall2 in H.
    induction H as [|[dsid dset] p data' l' Hp _ [IHl IHw]].
    + split; [reflexivity|]. intros dsid dset [].
    + apply bind_Ok_inv in Hp as ([] & Hw & Hp). injection Hp as <-.
      split; [simpl; now rewrite IHl|].
      intros dsid' dset' [[= <- <-]|Hin]; [exact Hw|now apply IHw].
  - intros e H. apply mapM_Raise_In in H as ([dsid dset] & Hin & H).
    exists dsid, dset. split; [exact Hin|].
    destruct (to_netcdf dset (dataset_path o dsid)) as [[]|e'|];
      simpl in H; [discriminate|now injection H as ->|discriminate].
Qed.



End ConstructedOutput.

Module OutputExamples.

Import Examples DataRequestOutput OutputSpec.



End OutputExamples.
